(** * Chunked document translation pipeline

    A shallow embedding of the translation cache
    ([lib/translation-cache.ts]), of the bulk translation route
    ([app/api/documents/translate/route.ts], [POST]) and of the binary
    download route ([app/api/documents/download/route.ts], [GET]), with the
    properties of the pipeline proved against it.

    Conventions of the embedding.
    - A JavaScript string is a [string] of ASCII characters; [trim] removes
      the ASCII white space characters and [toLowerCase] folds [A-Z].
    - The three collaborators are parameters: the MD5 digest, the
      translation provider and the document store.  The provider may answer
      differently at every call, so it takes the number of calls made so far.
    - Module-level mutable state (the cache map and its two counters) and
      the effects a request has on the outside (provider calls, timer
      waits) are fields of [World], threaded through every function.
    - One request runs in isolation: the periodic cache sweep and other
      requests do not interleave with it.
    - The sweep itself, the rendering of an answer
      ([generateDocumentResponse] and the end of [GET]) and the links the
      translate route hands out are modelled after the handlers; the
      document generators, which are not among the sources, are
      parameters. *)

From Stdlib Require Import Ascii QArith DecimalString.
From stdpp Require Import gmap strings list.

Local Open Scope nat_scope.

(** ** JavaScript strings *)

Module JS.

(** Truthiness of a string: every string but the empty one. *)
Definition truthy (s : string) : bool := negb (String.eqb s "").

Definition isSpace (a : ascii) : bool := Ascii.is_space a.

(** [String.prototype.trimStart] *)
Fixpoint trimStart (s : string) : string :=
  match s with
  | EmptyString => EmptyString
  | String a s' => if isSpace a then trimStart s' else s
  end.

(** [String.prototype.trimEnd] *)
Fixpoint trimEnd (s : string) : string :=
  match s with
  | EmptyString => EmptyString
  | String a s' =>
      match trimEnd s' with
      | EmptyString => if isSpace a then EmptyString else String a EmptyString
      | r => String a r
      end
  end.

(** [String.prototype.trim] *)
Definition trim (s : string) : string := trimEnd (trimStart s).

Definition lowerChar (a : ascii) : ascii :=
  let n := nat_of_ascii a in
  if (65 <=? n) && (n <=? 90) then ascii_of_nat (n + 32) else a.

(** [String.prototype.toLowerCase] *)
Fixpoint toLowerCase (s : string) : string :=
  match s with
  | EmptyString => EmptyString
  | String a s' => String (lowerChar a) (toLowerCase s')
  end.

(** [String.prototype.includes] *)
Definition includes (s sub : string) : bool :=
  match String.index 0 sub s with Some _ => true | None => false end.

(** [Array.prototype.join] on an array of strings. *)
Definition join (sep : string) (l : list string) : string := String.concat sep l.

(** [a[i] = v] on an array of strings: in range it overwrites, past the
    end it extends the array; the holes in between print as the empty
    string when joined. *)
Definition arraySet (a : list string) (i : nat) (v : string) : list string :=
  if i <? length a then <[i := v]> a
  else a ++ replicate (i - length a) EmptyString ++ [v].

(** Strings made of white space only. *)
Fixpoint allSpace (s : string) : bool :=
  match s with
  | EmptyString => true
  | String a s' => isSpace a && allSpace s'
  end.

(** Two strings that differ in letter case only. *)
Fixpoint sameModuloCase (s t : string) : bool :=
  match s, t with
  | EmptyString, EmptyString => true
  | String a s', String b t' =>
      bool_decide (lowerChar a = lowerChar b) && sameModuloCase s' t'
  | _, _ => false
  end.

End JS.

(** ** The world a request runs in *)

Record World := mkWorld {
  translationCache : gmap string string;  (* const translationCache = new Map() *)
  cacheHits : nat;                        (* let cacheHits = 0 *)
  cacheMisses : nat;                      (* let cacheMisses = 0 *)
  providerCalls : nat;                    (* calls made to the provider so far *)
  sleeps : list nat                       (* setTimeout waits so far, in ms, oldest first *)
}.

Definition setCache (m : gmap string string) (w : World) : World :=
  mkWorld m (cacheHits w) (cacheMisses w) (providerCalls w) (sleeps w).
Definition hit (w : World) : World :=
  mkWorld (translationCache w) (S (cacheHits w)) (cacheMisses w) (providerCalls w) (sleeps w).
Definition miss (w : World) : World :=
  mkWorld (translationCache w) (cacheHits w) (S (cacheMisses w)) (providerCalls w) (sleeps w).
Definition called (w : World) : World :=
  mkWorld (translationCache w) (cacheHits w) (cacheMisses w) (S (providerCalls w)) (sleeps w).
(** [await new Promise(resolve => setTimeout(resolve, ms))] *)
Definition sleep (ms : nat) (w : World) : World :=
  mkWorld (translationCache w) (cacheHits w) (cacheMisses w) (providerCalls w) (sleeps w ++ [ms]).

(** ** lib/translation-cache.ts *)

Module TranslationCache.
Section WithDigest.

(** [createHash('md5').update(s).digest('hex')] *)
Variable md5 : string -> string.

Definition getCacheKey (text targetLanguage sourceLanguage : string) : string :=
  let normalizedText := JS.toLowerCase (JS.trim text) in
  let hash := md5 normalizedText in
  sourceLanguage +:+ "-" +:+ targetLanguage +:+ "-" +:+ hash.

Definition getCachedTranslation (text targetLanguage sourceLanguage : string)
    (w : World) : option string * World :=
  let key := getCacheKey text targetLanguage sourceLanguage in
  match translationCache w !! key with
  | Some cached =>
      if JS.truthy cached then (Some cached, hit w) else (None, miss w)
  | None => (None, miss w)
  end.

Definition setCachedTranslation (text translatedText targetLanguage sourceLanguage : string)
    (w : World) : World :=
  if negb (JS.truthy text) || negb (JS.truthy translatedText)
     || String.eqb text translatedText
  then w
  else
    let key := getCacheKey text targetLanguage sourceLanguage in
    setCache (<[key := translatedText]> (translationCache w)) w.

Record CacheStats := mkStats {
  size_ : nat;
  hits : nat;
  misses : nat;
  hitRate : Q
}.

(** JavaScript computes [hitRate] in double precision; the embedding
    keeps the exact quotient. *)
Definition getCacheStats (w : World) : CacheStats :=
  mkStats (size (translationCache w)) (cacheHits w) (cacheMisses w)
    (if 0 <? cacheHits w + cacheMisses w
     then Qmult (Qdiv (inject_Z (Z.of_nat (cacheHits w)))
                      (inject_Z (Z.of_nat (cacheHits w + cacheMisses w))))
                (inject_Z 100)
     else inject_Z 0).

Definition clearCache (w : World) : World :=
  mkWorld ∅ 0 0 (providerCalls w) (sleeps w).

End WithDigest.
End TranslationCache.

(** ** Collaborators *)

(** A thrown JavaScript value, as far as the routes inspect it:
    [error instanceof Error] and [error.message]. *)
Record JsError := mkError {
  instanceofError : bool;
  message : string
}.

(** How a call that may throw completes. *)
Inductive Completion (A : Type) : Type :=
| Normal (a : A)
| Throw (error : JsError).
Arguments Normal {A} a.
Arguments Throw {A} error.

(** The translation provider, [translate(text, { from, to })] of
    google-translate-api-x: given the number of calls made before this one,
    the text and the two language tags, it resolves to [result.text] or
    rejects.  An absent [result.text] is the empty string: both are falsy. *)
Definition Provider : Type := nat -> string -> string -> string -> Completion string.

Record Chunk := mkChunk {
  chunkIndex : nat;
  content : string
}.

Record Metadata := mkMetadata {
  title : string;
  language : string   (* absent is the empty string: both are falsy *)
}.

(** The document store (MongoDB).  Each field is one query of the routes;
    [findChunks] answers [find({ documentId }).sort({ chunkIndex: 1 })]. *)
Record Store := mkStore {
  findMetadata : string -> option Metadata;           (* by title or _id *)
  findMetadataWithChunks : string -> option Metadata; (* by title, chunks > 0, latest *)
  findChunks : string -> list Chunk
}.

(** The separator ['\n\n'] of the joined body. *)
Definition blankLine : string := String "010" (String "010" EmptyString).

(** [Math.ceil(a / b)] for natural [a] and positive [b]. *)
Definition ceilDiv (a b : nat) : nat := (a + (b - 1)) / b.

(** [a || b] on strings. *)
Definition orElse (a b : string) : string := if JS.truthy a then a else b.

(** The query string of a link to the download route. *)
Record DownloadRef := mkRef {
  refDocumentId : string;
  refTargetLanguage : string;
  refFormat : string;
  refSkipTranslation : bool
}.

Definition MAX_RETRIES : nat := 3.

(** [error instanceof Error && error.message.includes('Too Many Requests')] *)
Definition isRateLimited (error : JsError) : bool :=
  instanceofError error && JS.includes (message error) "Too Many Requests".

(** The retry loop around the per-chunk call, as both routes write it
    (translate route lines 174-194 with a wait of [retryCount * 5000],
    download route lines 118-137 with [retryCount * 3000]); [attempt] is
    the awaited call.  It yields the locals [translatedContent] and
    [retryCount] as they stand when the loop is left. *)
Fixpoint retryLoop (waitUnit : nat) (attempt : World -> Completion string * World)
    (fuel : nat) (translatedContent : string) (retryCount : nat) (w : World)
    : string * nat * World :=
  match fuel with
  | 0 => (translatedContent, retryCount, w)
  | S fuel' =>
      if retryCount <? MAX_RETRIES then
        match attempt w with
        | (Normal t, w1) => (t, retryCount, w1)
        | (Throw error, w1) =>
            let retryCount := S retryCount in
            if isRateLimited error then
              let waitTime := retryCount * waitUnit in
              retryLoop waitUnit attempt fuel' translatedContent retryCount
                (sleep waitTime w1)
            else (translatedContent, retryCount, w1)
        end
      else (translatedContent, retryCount, w)
  end.

(** ** app/api/documents/translate/route.ts *)

Module Bulk.

Record Request := mkRequest {
  documentId : string;               (* absent is the empty string *)
  targetLanguage : option string;    (* default "en" *)
  format : option string             (* default "txt" *)
}.

(** The answers of the handler.  [Complete] stands for
    [generateDocumentResponse(content, metadata, targetLanguage,
    sourceLanguage, format, chunksCount)], the rendering stage, and keeps
    its arguments; [ServerError] is the outer [catch] of the handler. *)
Inductive Response : Type :=
| BadRequest (error : string)
| NotFound (error : string)
| TooLarge (error : string) (fallback : DownloadRef)
    (chunks estimatedMinutes : nat) (docLanguage : string)
| Unavailable (error : string) (fallback : DownloadRef)
    (retryAfter : string) (chunks : nat) (docLanguage : string)
| Complete (body : string) (docTitle targetLanguage sourceLanguage format : string)
    (chunksCount : nat)
| ServerError (error details : string).

Definition status (r : Response) : nat :=
  match r with
  | BadRequest _ => 400
  | NotFound _ => 404
  | TooLarge _ _ _ _ _ => 413
  | Unavailable _ _ _ _ _ => 503
  | Complete _ _ _ _ _ _ => 200
  | ServerError _ _ => 500
  end.

(** The JSON payload has an [error] key. *)
Definition hasError (r : Response) : bool :=
  match r with
  | Complete _ _ _ _ _ _ => false
  | _ => true
  end.

(** The keys of the JSON payload of an answer with an [error] key, nested
    keys by their path; the other answers are rendered documents. *)
Definition errorPayload (r : Response) : list string :=
  match r with
  | BadRequest _ | NotFound _ => ["error"]
  | TooLarge _ _ _ _ _ =>
      ["error"; "message"; "suggestions";
       "fallbackOptions.untranslatedDownload"; "fallbackOptions.message";
       "fallbackOptions.downloadUrl";
       "documentInfo.title"; "documentInfo.chunks"; "documentInfo.estimatedTime";
       "documentInfo.language"]
  | Unavailable _ _ _ _ _ =>
      ["error"; "message";
       "fallbackOptions.untranslatedDownload"; "fallbackOptions.message";
       "fallbackOptions.downloadUrl";
       "retryOptions.retryAfter"; "retryOptions.message"; "alternatives";
       "documentInfo.title"; "documentInfo.chunks"; "documentInfo.language"]
  | Complete _ _ _ _ _ _ => []
  | ServerError _ _ => ["error"; "details"]
  end.

Definition DELAY_BETWEEN_REQUESTS : nat := 2000.

Section WithCollaborators.

Variable md5 : string -> string.
Variable translate : Provider.

Local Abbreviation getCachedTranslation := (TranslationCache.getCachedTranslation md5).
Local Abbreviation setCachedTranslation := (TranslationCache.setCachedTranslation md5).

(** The [try] block of [translateText]: [Normal (Some r)] when it
    returns [r], [Normal None] when it falls through. *)
Definition tryTranslate (text targetLanguage sourceLanguage : string) (w : World)
    : Completion (option string) * World :=
  match translate (providerCalls w) text sourceLanguage targetLanguage with
  | Normal resultText =>
      let w1 := called w in
      if JS.truthy resultText && negb (String.eqb resultText text)
      then (Normal (Some resultText),
            setCachedTranslation text resultText targetLanguage sourceLanguage w1)
      else (Normal None, w1)
  | Throw error => (Throw error, called w)
  end.

Definition translateText (text targetLanguage sourceLanguage : string) (w : World)
    : Completion string * World :=
  if String.eqb targetLanguage sourceLanguage
     || negb (JS.truthy text)
     || (String.length (JS.trim text) =? 0)
  then (Normal text, w)
  else
    let '(cached, w1) := getCachedTranslation text targetLanguage sourceLanguage w in
    match cached with
    | Some c => (Normal c, w1)
    | None =>
        match tryTranslate text targetLanguage sourceLanguage w1 with
        | (Normal (Some r), w2) => (Normal r, w2)
        | (Normal None, w2) => (Normal text, w2)
        | (Throw _, w2) => (Normal text, w2)   (* catch: return text *)
        end
    end.

Section Document.

Variable chunks : list Chunk.
Variables targetLanguage sourceLanguage : string.

(** One chunk: the retry loop. *)
Definition translateChunk (chunk : Chunk) (w : World) : string * nat * World :=
  retryLoop 5000 (translateText (content chunk) targetLanguage sourceLanguage)
    MAX_RETRIES (content chunk) 0 w.

(** The wait before the next chunk. *)
Definition pace (chunk : Chunk) (w : World) : World :=
  let '(cached, w1) :=
    getCachedTranslation (content chunk) targetLanguage sourceLanguage w in
  let delayTime :=
    match cached with Some _ => 100 | None => DELAY_BETWEEN_REQUESTS end in
  sleep delayTime w1.

(** [for (let i = 0; i < chunks.length; i++)], [fuel] iterations of it
    from index [i]. *)
Fixpoint chunkLoop (fuel i : nat) (translatedChunks : list string) (w : World)
    : list string * World :=
  match fuel with
  | 0 => (translatedChunks, w)
  | S fuel' =>
      match chunks !! i with
      | None => (translatedChunks, w)
      | Some chunk =>
          let '(translatedContent, _, w1) := translateChunk chunk w in
          let translatedChunks := JS.arraySet translatedChunks i translatedContent in
          let w2 := if i <? length chunks - 1 then pace chunk w1 else w1 in
          chunkLoop fuel' (S i) translatedChunks w2
      end
  end.

End Document.

Variable store : Store.

Definition POST (request : Request) (w : World) : Response * World :=
  let documentId := documentId request in
  let targetLanguage := default "en" (targetLanguage request) in
  let format := default "txt" (format request) in
  if negb (JS.truthy documentId) then (BadRequest "Document ID is required", w)
  else if negb (JS.truthy targetLanguage) then (BadRequest "Target language is required", w)
  else
    match findMetadata store documentId with
    | None => (NotFound "Document not found", w)
    | Some metadata =>
        let chunks := findChunks store (title metadata) in
        if length chunks =? 0 then (NotFound "No document chunks found", w)
        else if 100 <? length chunks then
          (TooLarge "Document too large for immediate translation"
             (mkRef (title metadata) "en" format true)
             (length chunks)
             (ceilDiv (length chunks * 3) 60)
             (orElse (language metadata) "en"), w)
        else
          let sourceLanguage := orElse (language metadata) "en" in
          if String.eqb targetLanguage sourceLanguage then
            let translatedChunks := map content chunks in
            (Complete (JS.join blankLine translatedChunks)
               (title metadata) targetLanguage sourceLanguage format (length chunks), w)
          else
            let '(testTranslation, w1) :=
              translateText "test" targetLanguage sourceLanguage w in
            match testTranslation with
            | Throw error =>
                (ServerError "Failed to translate document"
                   (if instanceofError error then message error
                    else "Unknown error"), w1)
            | Normal testTranslation =>
                if String.eqb testTranslation "test" then
                  (Unavailable "Translation service temporarily unavailable"
                     (mkRef (title metadata) "en" format true)
                     "10-15 minutes" (length chunks) sourceLanguage, w1)
                else
                  let '(translatedChunks, w2) :=
                    chunkLoop chunks targetLanguage sourceLanguage
                      (length chunks) 0 [] w1 in
                  (Complete (JS.join blankLine translatedChunks)
                     (title metadata) targetLanguage sourceLanguage format
                     (length chunks), w2)
            end
    end.

End WithCollaborators.
End Bulk.

(** ** app/api/documents/download/route.ts *)

Module Download.

(** The query parameters of the request; an absent one is [None]. *)
Record Request := mkRequest {
  documentId : option string;
  targetLanguage : option string;
  format : option string;
  skipTranslation : bool;            (* searchParams.get("skipTranslation") === "true" *)
  contentParam : option string;
  filename : option string;
  contentType : option string
}.

(** The answers of the handler.  [Binary] stands for [generateDocx] or
    [generatePdf] applied to [fullTranslatedContent] and the translation
    metadata, the rendering stage, and keeps its arguments; [BadRequest]
    and [TextDownload] are the plain download of caller-supplied content
    (lines 191-237), whose decoding and headers are left to the HTTP layer;
    [ServerError] is the outer [catch] of the handler. *)
Inductive Response : Type :=
| NotFound (error : string)
| TooLarge (error recommendation : string) (chunks : nat)
| Binary (fullTranslatedContent : string)
    (docTitle targetLanguage sourceLanguage format : string)
| BadRequest (error : string)
| TextDownload (content filename : string) (contentType : option string)
| ServerError (error details : string).

Definition status (r : Response) : nat :=
  match r with
  | NotFound _ => 404
  | TooLarge _ _ _ => 413
  | Binary _ _ _ _ _ => 200
  | BadRequest _ => 400
  | TextDownload _ _ _ => 200
  | ServerError _ _ => 500
  end.

(** The JSON payload has an [error] key. *)
Definition hasError (r : Response) : bool :=
  match r with
  | Binary _ _ _ _ _ | TextDownload _ _ _ => false
  | _ => true
  end.

(** The keys of the JSON payload of an answer with an [error] key; the
    other answers are files. *)
Definition errorPayload (r : Response) : list string :=
  match r with
  | NotFound _ | BadRequest _ => ["error"]
  | TooLarge _ _ _ => ["error"; "message"; "recommendation"; "chunks"]
  | Binary _ _ _ _ _ | TextDownload _ _ _ => []
  | ServerError _ _ => ["error"; "details"]
  end.

(** [p && ...] on a query parameter: present and not empty. *)
Definition present (p : option string) : option string :=
  match p with
  | Some s => if JS.truthy s then Some s else None
  | None => None
  end.

Section WithCollaborators.

Variable md5 : string -> string.
Variable translate : Provider.

Local Abbreviation getCachedTranslation := (TranslationCache.getCachedTranslation md5).
Local Abbreviation setCachedTranslation := (TranslationCache.setCachedTranslation md5).

(** The [try] block of [translateText]. *)
Definition tryTranslate (text targetLanguage sourceLanguage : string) (w : World)
    : Completion (option string) * World :=
  match translate (providerCalls w) text sourceLanguage targetLanguage with
  | Normal resultText =>
      let w1 := called w in
      if JS.truthy resultText && negb (String.eqb resultText text)
      then (Normal (Some resultText),
            setCachedTranslation text resultText targetLanguage sourceLanguage w1)
      else (Normal None, w1)
  | Throw error => (Throw error, called w)
  end.

Definition translateText (text targetLanguage sourceLanguage : string) (w : World)
    : Completion string * World :=
  if String.eqb targetLanguage sourceLanguage
     || negb (JS.truthy text)
     || (String.length (JS.trim text) =? 0)
  then (Normal text, w)
  else
    let '(cached, w1) := getCachedTranslation text targetLanguage sourceLanguage w in
    match cached with
    | Some c => (Normal c, w1)
    | None =>
        let '(tried, w2) := tryTranslate text targetLanguage sourceLanguage w1 in
        match tried with
        | Normal (Some r) => (Normal r, w2)
        | _ => (Normal text, w2)   (* after the try: return text *)
        end
    end.

Section Document.

Variable chunks : list Chunk.
Variables targetLanguage sourceLanguage : string.

(** One chunk: the retry loop. *)
Definition translateChunk (chunk : Chunk) (w : World) : string * nat * World :=
  retryLoop 3000 (translateText (content chunk) targetLanguage sourceLanguage)
    MAX_RETRIES (content chunk) 0 w.

(** [for (let i = 0; i < chunks.length; i++)], [fuel] iterations of it
    from index [i]. *)
Fixpoint chunkLoop (fuel i : nat) (translatedChunks : list string) (w : World)
    : list string * World :=
  match fuel with
  | 0 => (translatedChunks, w)
  | S fuel' =>
      match chunks !! i with
      | None => (translatedChunks, w)
      | Some chunk =>
          let '(translatedContent, _, w1) := translateChunk chunk w in
          let translatedChunks := JS.arraySet translatedChunks i translatedContent in
          let w2 := if i <? length chunks - 1 then sleep 2000 w1 else w1 in
          chunkLoop fuel' (S i) translatedChunks w2
      end
  end.

End Document.

Variable store : Store.

Definition GET (request : Request) (w : World) : Response * World :=
  match present (documentId request), present (targetLanguage request),
        present (format request) with
  | Some documentId, Some targetLanguage, Some format =>
      if String.eqb format "pdf" || String.eqb format "docx" then
        match findMetadataWithChunks store documentId with
        | None => (NotFound "Document not found or has no chunks", w)
        | Some metadata =>
            let chunks := findChunks store documentId in
            if length chunks =? 0 then (NotFound "No document chunks found", w)
            else if (50 <? length chunks) && negb (skipTranslation request) then
              (TooLarge "Document too large for direct download"
                 "Use the translation interface to process this document in smaller batches."
                 (length chunks), w)
            else
              let sourceLanguage := orElse (language metadata) "en" in
              let '(translatedChunks, w1) :=
                if skipTranslation request || String.eqb targetLanguage sourceLanguage
                then (map content chunks, w)
                else chunkLoop chunks targetLanguage sourceLanguage
                       (length chunks) 0 [] w in
              (Binary (JS.join blankLine translatedChunks)
                 (title metadata) targetLanguage sourceLanguage format, w1)
        end
      else
        match present (contentParam request), present (filename request) with
        | Some c, Some f => (TextDownload c f (contentType request), w)
        | _, _ => (BadRequest "Missing content or filename", w)
        end
  | _, _, _ =>
      match present (contentParam request), present (filename request) with
      | Some c, Some f => (TextDownload c f (contentType request), w)
      | _, _ => (BadRequest "Missing content or filename", w)
      end
  end.

End WithCollaborators.
End Download.

(** ** Sample collaborators and documents *)

Module Sample.

(** A stand-in digest; the properties below hold for every digest. *)
Definition digest (s : string) : string := s.

Definition fresh : World := mkWorld ∅ 0 0 0 [].

Definition rateLimited : JsError := mkError true "Too Many Requests".
Definition networkDown : JsError := mkError true "ECONNRESET".

(** A provider with a fixed English to Spanish table; it rejects
    ["World."] and everything outside the table. *)
Definition spanish : Provider := fun _ text _ _ =>
  if String.eqb text "Hello." then Normal "Hola."
  else if String.eqb text "Bye." then Normal "Adios."
  else if String.eqb text "test" then Normal "prueba"
  else if String.eqb text "World." then Throw rateLimited
  else Throw networkDown.

(** A provider that knows every sentence of the sample document. *)
Definition table : Provider := fun _ text _ _ =>
  if String.eqb text "Hello." then Normal "Hola."
  else if String.eqb text "World." then Normal "Mundo."
  else if String.eqb text "Bye." then Normal "Adios."
  else if String.eqb text "test" then Normal "prueba"
  else Throw networkDown.

(** A provider that is rate limited at every call. *)
Definition throttled : Provider := fun _ _ _ _ => Throw rateLimited.

Definition notes : list Chunk :=
  [mkChunk 0 "Hello."; mkChunk 1 "World."; mkChunk 2 "Bye."].

(** A document whose second chunk repeats the first. *)
Definition repeated : list Chunk :=
  [mkChunk 0 "Hello."; mkChunk 1 "Hello."; mkChunk 2 "Bye."].

(** A per-chunk call that raises the rate-limit error to its caller. *)
Definition raising : World -> Completion string * World :=
  fun w => (Throw rateLimited, called w).

Definition notesRequest : Bulk.Request :=
  Bulk.mkRequest "notes.txt" (Some "es") None.

Definition notesDownload : Download.Request :=
  Download.mkRequest (Some "notes.txt") (Some "es") (Some "pdf") false None None None.

Definition manyChunks (n : nat) : list Chunk :=
  map (fun i => mkChunk i "Hello.") (seq 0 n).

Definition storeOf (chunks : list Chunk) : Store :=
  mkStore (fun id => Some (mkMetadata id "en"))
          (fun id => Some (mkMetadata id "en"))
          (fun _ => chunks).

End Sample.

(** ** The per-chunk outcome, in the specification's words *)

Section Outcome.

Variable md5 : string -> string.
Variable translate : Provider.

(** Nothing to translate: same language, or an empty or blank text. *)
Definition nothingToTranslate (text targetLanguage sourceLanguage : string) : bool :=
  String.eqb targetLanguage sourceLanguage
  || negb (JS.truthy text)
  || (String.length (JS.trim text) =? 0).

(** The cached translation that serves [text] in world [w], if any. *)
Definition servedFromCache (text targetLanguage sourceLanguage : string) (w : World)
    : option string :=
  if nothingToTranslate text targetLanguage sourceLanguage then None
  else fst (TranslationCache.getCachedTranslation md5 text targetLanguage sourceLanguage w).

(** The answer of the provider to the call made for [text] in world [w],
    when a call is made: there is something to translate and the cache
    has no entry. *)
Definition providerAnswer (text targetLanguage sourceLanguage : string) (w : World)
    : option (Completion string) :=
  if nothingToTranslate text targetLanguage sourceLanguage then None
  else
    match fst (TranslationCache.getCachedTranslation md5 text targetLanguage sourceLanguage w) with
    | Some _ => None
    | None => Some (translate (providerCalls w) text sourceLanguage targetLanguage)
    end.

(** [t(c)]: the cached translation, else the translation of the provider
    when it succeeds with a text that is present and differs from the
    input, else the original text. *)
Definition perChunkOutcome (text targetLanguage sourceLanguage : string) (w : World)
    : string :=
  match servedFromCache text targetLanguage sourceLanguage w with
  | Some cached => cached
  | None =>
      match providerAnswer text targetLanguage sourceLanguage w with
      | Some (Normal translated) =>
          if JS.truthy translated && negb (String.eqb translated text)
          then translated else text
      | Some (Throw _) => text
      | None => text
      end
  end.

(** The world in which the bulk route takes up chunk [i], the loop
    having started in [w]. *)
Definition bulkWorldBefore (chunks : list Chunk) (targetLanguage sourceLanguage : string)
    (i : nat) (w : World) : World :=
  snd (Bulk.chunkLoop md5 translate chunks targetLanguage sourceLanguage i 0 [] w).

(** The same for the download route. *)
Definition downloadWorldBefore (chunks : list Chunk) (targetLanguage sourceLanguage : string)
    (i : nat) (w : World) : World :=
  snd (Download.chunkLoop md5 translate chunks targetLanguage sourceLanguage i 0 [] w).

(** One iteration of the bulk loop on the world: chunk [i] is
    translated, then the route waits unless the chunk is the last. *)
Definition bulkStep (chunks : list Chunk) (targetLanguage sourceLanguage : string)
    (i : nat) (chunk : Chunk) (w : World) : World :=
  let w1 := snd (Bulk.translateText md5 translate (content chunk)
                   targetLanguage sourceLanguage w) in
  if i <? length chunks - 1
  then Bulk.pace md5 targetLanguage sourceLanguage chunk w1 else w1.

(** The same for the download route. *)
Definition downloadStep (chunks : list Chunk) (targetLanguage sourceLanguage : string)
    (i : nat) (chunk : Chunk) (w : World) : World :=
  let w1 := snd (Bulk.translateText md5 translate (content chunk)
                   targetLanguage sourceLanguage w) in
  if i <? length chunks - 1 then sleep 2000 w1 else w1.

End Outcome.

(** ** The cache as a JavaScript [Map]: insertion order *)

(** [Map<string, string>] keeps its entries in insertion order; setting a
    key that is present changes the value in place. *)
Module JsMap.

Definition t : Type := list (string * string).

(** [map.get(key)] *)
Fixpoint get (key : string) (m : t) : option string :=
  match m with
  | [] => None
  | (k, v) :: m' => if String.eqb k key then Some v else get key m'
  end.

(** [map.set(key, value)] *)
Fixpoint set (key value : string) (m : t) : t :=
  match m with
  | [] => [(key, value)]
  | (k, v) :: m' =>
      if String.eqb k key then (k, value) :: m' else (k, v) :: set key value m'
  end.

(** [map.delete(key)] *)
Fixpoint delete (key : string) (m : t) : t :=
  match m with
  | [] => []
  | (k, v) :: m' => if String.eqb k key then m' else (k, v) :: delete key m'
  end.

(** [Array.from(map.keys())] *)
Definition keys (m : t) : list string := map fst m.

(** [map.size] *)
Definition size (m : t) : nat := length m.

(** The map without its order: the finite map of [World]. *)
Definition unordered (m : t) : gmap string string := list_to_map m.

(** No key occurs twice: what [set] keeps of a map built from the empty one. *)
Definition wellFormed (m : t) : Prop := NoDup (keys m).

End JsMap.

Definition MAX_CACHE_SIZE : nat := 1000.

(** [cleanCacheIfNeeded] of lib/translation-cache.ts, the sweep that
    [setInterval] runs every minute. *)
Definition cleanCacheIfNeeded (translationCache : JsMap.t) : JsMap.t :=
  if MAX_CACHE_SIZE <? JsMap.size translationCache then
    let keysToDelete := take 100 (JsMap.keys translationCache) in
    foldl (fun m key => JsMap.delete key m) translationCache keysToDelete
  else translationCache.

(** ** More of the JavaScript strings *)

Module Text.

Definition upperChar (a : ascii) : ascii :=
  let n := nat_of_ascii a in
  if (97 <=? n) && (n <=? 122) then ascii_of_nat (n - 32) else a.

(** [String.prototype.toUpperCase] *)
Fixpoint toUpperCase (s : string) : string :=
  match s with
  | EmptyString => EmptyString
  | String a s' => String (upperChar a) (toUpperCase s')
  end.

(** [String(n)] for a natural number. *)
Definition ofNat (n : nat) : string := NilZero.string_of_uint (Nat.to_uint n).

Definition isDot (a : ascii) : bool := Ascii.eqb a ".".
Definition isSlash (a : ascii) : bool := Ascii.eqb a "/".

(** The string matches [[^/.]+$] from its start: it is not empty and has
    neither a slash nor a dot. *)
Fixpoint plainTail (s : string) : bool :=
  match s with
  | EmptyString => false
  | String a EmptyString => negb (isDot a) && negb (isSlash a)
  | String a s' => negb (isDot a) && negb (isSlash a) && plainTail s'
  end.

(** [s.replace(/\.[^/.]+$/, empty)]: the leftmost match is cut off. *)
Fixpoint removeExtension (s : string) : string :=
  match s with
  | EmptyString => EmptyString
  | String a s' =>
      if isDot a && plainTail s' then EmptyString
      else String a (removeExtension s')
  end.

(** What follows the last dot of a string that has one. *)
Fixpoint afterLastDot (s : string) : option string :=
  match s with
  | EmptyString => None
  | String a s' =>
      match afterLastDot s' with
      | Some segment => Some segment
      | None => if isDot a then Some s' else None
      end
  end.

(** [s.split(".").pop()]: what follows the last dot, the whole string
    when it has none. *)
Definition lastSegment (s : string) : string := default s (afterLastDot s).

(** The double quote character. *)
Definition quote : string := String "034" EmptyString.

(** The line feed character. *)
Definition newline : string := String "010" EmptyString.

(** The characters that [encodeURIComponent] leaves alone and that a
    query string carries as they are: letters, digits, [-], [_], [.]
    and [~]. *)
Definition unreserved (a : ascii) : bool :=
  let n := nat_of_ascii a in
  ((48 <=? n) && (n <=? 57)) || ((65 <=? n) && (n <=? 90))
  || ((97 <=? n) && (n <=? 122))
  || (n =? 45) || (n =? 95) || (n =? 46) || (n =? 126).

Fixpoint urlSafe (s : string) : bool :=
  match s with
  | EmptyString => true
  | String a s' => unreserved a && urlSafe s'
  end.

(** A header value that [Headers] accepts whatever the runtime: printable
    ASCII characters only.  A value with a line break, or with a character
    outside Latin-1, makes the constructor of the response throw. *)
Definition printable (a : ascii) : bool :=
  let n := nat_of_ascii a in (32 <=? n) && (n <=? 126).

Fixpoint headerSafe (s : string) : bool :=
  match s with
  | EmptyString => true
  | String a s' => printable a && headerSafe s'
  end.

End Text.

(** ** Rendering: [generateDocumentResponse] and the end of [GET] *)

Module Render.

(** What [table[key]] gives for an object literal [table]: an own
    property, a member inherited from [Object.prototype], or [undefined]. *)
Inductive Member : Type :=
| Own (name : string)
| Inherited
| Missing.

Definition objectPrototypeKeys : list string :=
  ["constructor"; "__defineGetter__"; "__defineSetter__"; "hasOwnProperty";
   "__lookupGetter__"; "__lookupSetter__"; "isPrototypeOf";
   "propertyIsEnumerable"; "toString"; "valueOf"; "__proto__"; "toLocaleString"].

Fixpoint assoc (key : string) (table : list (string * string)) : option string :=
  match table with
  | [] => None
  | (k, v) :: table' => if String.eqb k key then Some v else assoc key table'
  end.

Definition member (table : list (string * string)) (key : string) : Member :=
  match assoc key table with
  | Some name => Own name
  | None => if existsb (String.eqb key) objectPrototypeKeys then Inherited else Missing
  end.

(** The value of [languageNames[targetLanguage] || fallback]: a string, or
    the inherited member under that key, which is truthy and not a string. *)
Inductive Label : Type :=
| Name (text : string)
| Builtin (key : string).

Definition labelOf (table : list (string * string)) (key fallback : string) : Label :=
  match member table key with
  | Own name => if JS.truthy name then Name name else Name fallback
  | Inherited => Builtin key
  | Missing => Name fallback
  end.

(** [languageNames] of the translate route. *)
Definition bulkLanguageNames : list (string * string) :=
  [("en", "English"); ("es", "Spanish"); ("fr", "French"); ("de", "German");
   ("it", "Italian"); ("pt", "Portuguese"); ("ru", "Russian"); ("zh", "Chinese");
   ("ja", "Japanese"); ("ko", "Korean")].

(** [languageNames] of the download route. *)
Definition downloadLanguageNames : list (string * string) :=
  [("en", "English"); ("es", "Spanish"); ("fr", "French"); ("de", "German");
   ("it", "Italian"); ("pt", "Portuguese")].

(** The second argument of [generateDocx] and [generatePdf]; the download
    route passes neither [chunks] nor [translatedAt]. *)
Record RenderMeta := mkMeta {
  originalDocument : string;
  originalLanguage : string;
  metaTargetLanguage : string;
  metaLanguageName : Label;
  metaChunks : option nat;
  translatedAt : option string
}.

(** [fileContent: string | Buffer] *)
Inductive FileContent : Type :=
| TextContent (text : string)
| BufferContent (bytes : string).

(** The two shapes of [downloadUrl], by their query parameters. *)
Inductive DownloadLink : Type :=
| TextLink (content filename contentType : string)
| BinaryLink (documentId targetLanguage format : string).

(** The JSON payload of [generateDocumentResponse]. *)
Record DocumentResponse := mkResponse {
  translatedFileName : string;
  responseDocument : string;
  responseOriginalLanguage : string;
  responseTargetLanguage : string;
  responseLanguageName : Label;
  responseChunks : nat;
  contentLength : nat;
  responseFormat : string;
  responseContentType : string;
  isBinary : bool;
  responseContent : option string;
  downloadUrl : DownloadLink
}.

(** What a request to the download route ends in: a file, or a JSON error. *)
Inductive Answer : Type :=
| File (status : nat) (body contentType contentDisposition : string)
    (contentLength : nat)
| Failure (status : nat) (error details : string).

Section WithRenderer.

(** [getFileExtension] and [getContentType] of lib/document-generators,
    which is not part of the sources at hand. *)
Variables getFileExtension getContentType : string -> string.
(** [generateDocx] and [generatePdf] of the same library: a buffer, or a
    thrown error. *)
Variables generateDocx generatePdf : string -> RenderMeta -> Completion string.
(** [JSON.stringify({ ...docMetadata, content }, null, 2)] *)
Variable jsonStringify : RenderMeta -> string -> string.
(** [new Date().toISOString()] and [new Date().toLocaleString()] *)
Variables nowISO nowLocale : string.
(** [String(Object.prototype[key])], what a template prints for an
    inherited member. *)
Variable inheritedToString : string -> string.

(** [`${languageName}`] *)
Definition labelText (l : Label) : string :=
  match l with
  | Name text => text
  | Builtin key => inheritedToString key
  end.

(** The Markdown rendition of the translate route (lines 287-300). *)
Definition markdown (docTitle : string) (languageName : Label)
    (sourceLanguage targetLanguage : string) (chunksCount : nat) (content : string)
    : string :=
  "# " +:+ docTitle +:+ " (" +:+ labelText languageName +:+ ")" +:+ Text.newline
  +:+ Text.newline
  +:+ "## Document Details" +:+ Text.newline
  +:+ "- **Original Language:** " +:+ Text.toUpperCase sourceLanguage +:+ Text.newline
  +:+ "- **Target Language:** " +:+ labelText languageName
  +:+ " (" +:+ targetLanguage +:+ ")" +:+ Text.newline
  +:+ "- **Generated At:** " +:+ nowLocale +:+ Text.newline
  +:+ "- **Chunks:** " +:+ Text.ofNat chunksCount +:+ Text.newline
  +:+ Text.newline
  +:+ "## Content" +:+ Text.newline
  +:+ Text.newline
  +:+ content +:+ Text.newline
  +:+ Text.newline
  +:+ "---" +:+ Text.newline
  +:+ "*Generated by Multilingual RAG System*".

(** The [switch] on the format with its [try] and [catch] (lines 263-315):
    the file content and the content type. *)
Definition renderFile (docMetadata : RenderMeta) (docTitle : string)
    (languageName : Label) (sourceLanguage targetLanguage format : string)
    (chunksCount : nat) (content : string) : FileContent * string :=
  let lowered := JS.toLowerCase format in
  if String.eqb lowered "docx" then
    match generateDocx content docMetadata with
    | Normal buffer => (BufferContent buffer, getContentType "docx")
    | Throw _ => (TextContent content, getContentType "txt")
    end
  else if String.eqb lowered "pdf" then
    match generatePdf content docMetadata with
    | Normal buffer => (BufferContent buffer, getContentType "pdf")
    | Throw _ => (TextContent content, getContentType "txt")
    end
  else if String.eqb lowered "json" then
    (TextContent (jsonStringify docMetadata content), getContentType "json")
  else if String.eqb lowered "md" || String.eqb lowered "markdown" then
    (TextContent (markdown docTitle languageName sourceLanguage targetLanguage
                    chunksCount content),
     getContentType "md")
  else (TextContent content, getContentType "txt").

(** [generateDocumentResponse] of the translate route (lines 222-341). *)
Definition generateDocumentResponse (content docTitle targetLanguage sourceLanguage
    format : string) (chunksCount : nat) : DocumentResponse :=
  let originalName := Text.removeExtension docTitle in
  let languageName :=
    labelOf bulkLanguageNames targetLanguage (Text.toUpperCase targetLanguage) in
  let fileExtension := getFileExtension format in
  let translatedFileName :=
    originalName +:+ "_" +:+ labelText languageName +:+ "." +:+ fileExtension in
  let docMetadata :=
    mkMeta docTitle sourceLanguage targetLanguage languageName (Some chunksCount)
      (Some nowISO) in
  let '(fileContent, contentType) :=
    renderFile docMetadata docTitle languageName sourceLanguage targetLanguage format
      chunksCount content in
  match fileContent with
  | TextContent text =>
      mkResponse translatedFileName docTitle sourceLanguage targetLanguage languageName
        chunksCount (String.length content) format contentType false (Some text)
        (TextLink text translatedFileName contentType)
  | BufferContent _ =>
      mkResponse translatedFileName docTitle sourceLanguage targetLanguage languageName
        chunksCount (String.length content) format contentType true None
        (BinaryLink docTitle targetLanguage format)
  end.

(** The payload of an answer of the translate route that carries a
    document. *)
Definition bulkPayload (r : Bulk.Response) : option DocumentResponse :=
  match r with
  | Bulk.Complete body docTitle targetLanguage sourceLanguage format chunksCount =>
      Some (generateDocumentResponse body docTitle targetLanguage sourceLanguage format
              chunksCount)
  | _ => None
  end.

(** [translatedFileName] of the download route (lines 176-177). *)
Definition downloadFileName (docTitle targetLanguage format : string) : string :=
  let languageName := labelOf downloadLanguageNames targetLanguage targetLanguage in
  let originalName := Text.removeExtension docTitle in
  originalName +:+ "_" +:+ labelText languageName +:+ "." +:+ format.

(** The end of the binary branch of [GET] (lines 151-188): the renderer,
    the file name and the headers; an error thrown by the renderer reaches
    the outer [catch].  The response is the one built from header values
    that [Headers] accepts (see [Text.headerSafe]). *)
Definition binaryDownload (fullTranslatedContent docTitle targetLanguage sourceLanguage
    format : string) : Answer :=
  let languageName := labelOf downloadLanguageNames targetLanguage targetLanguage in
  let translationMetadata :=
    mkMeta docTitle sourceLanguage targetLanguage languageName None None in
  let rendered :=
    if String.eqb format "docx"
    then (generateDocx fullTranslatedContent translationMetadata, getContentType "docx")
    else (generatePdf fullTranslatedContent translationMetadata, getContentType "pdf") in
  match fst rendered with
  | Throw error =>
      Failure 500 "Failed to download file"
        (if instanceofError error then message error else "Unknown error")
  | Normal fileBuffer =>
      let translatedFileName := downloadFileName docTitle targetLanguage format in
      File 200 fileBuffer (snd rendered)
        ("attachment; filename=" +:+ Text.quote +:+ translatedFileName +:+ Text.quote)
        (String.length fileBuffer)
  end.

End WithRenderer.
End Render.

(** ** The plain download: the end of [GET] (lines 203-237) *)

Module Plain.

Definition hexValue (a : ascii) : option nat :=
  let n := nat_of_ascii a in
  if (48 <=? n) && (n <=? 57) then Some (n - 48)
  else if (65 <=? n) && (n <=? 70) then Some (n - 55)
  else if (97 <=? n) && (n <=? 102) then Some (n - 87)
  else None.

(** A character of the input, or the byte of an escape [%XX]. *)
Inductive Token : Type :=
| Lit (a : ascii)
| Esc (byte : nat).

(** The escapes of the input; [None] when a percent sign is not followed
    by two hexadecimal digits. *)
Fixpoint tokens (s : string) : option (list Token) :=
  match s with
  | EmptyString => Some []
  | String a rest =>
      if Ascii.eqb a "%" then
        match rest with
        | String h (String l rest') =>
            match hexValue h, hexValue l, tokens rest' with
            | Some x, Some y, Some ts => Some (Esc (16 * x + y) :: ts)
            | _, _, _ => None
            end
        | _ => None
        end
      else
        match tokens rest with
        | Some ts => Some (Lit a :: ts)
        | None => None
        end
  end.

Definition between (lo hi n : nat) : bool := (lo <=? n) && (n <=? hi).

(** The range of the second byte of a UTF-8 sequence, by its first byte. *)
Definition secondByte (first second : nat) : bool :=
  if first =? 224 then between 160 191 second
  else if first =? 237 then between 128 159 second
  else if first =? 240 then between 144 191 second
  else if first =? 244 then between 128 143 second
  else between 128 191 second.

Definition continuation (n : nat) : bool := between 128 191 n.

Definition byteString (bytes : list nat) (rest : string) : string :=
  fold_right (fun b acc => String (ascii_of_nat b) acc) rest bytes.

(** The decoded text, in UTF-8; [None] when the escaped bytes are not the
    UTF-8 encoding of code points. *)
Fixpoint decodeTokens (ts : list Token) : option string :=
  match ts with
  | [] => Some EmptyString
  | Lit a :: rest => String a <$> decodeTokens rest
  | Esc b :: rest =>
      if b <? 128 then String (ascii_of_nat b) <$> decodeTokens rest
      else if between 194 223 b then
        match rest with
        | Esc c1 :: rest1 =>
            if continuation c1 then byteString [b; c1] <$> decodeTokens rest1
            else None
        | _ => None
        end
      else if between 224 239 b then
        match rest with
        | Esc c1 :: Esc c2 :: rest2 =>
            if secondByte b c1 && continuation c2
            then byteString [b; c1; c2] <$> decodeTokens rest2
            else None
        | _ => None
        end
      else if between 240 244 b then
        match rest with
        | Esc c1 :: Esc c2 :: Esc c3 :: rest3 =>
            if secondByte b c1 && continuation c2 && continuation c3
            then byteString [b; c1; c2; c3] <$> decodeTokens rest3
            else None
        | _ => None
        end
      else None
  end.

(** [decodeURIComponent]: the decoded text in UTF-8, or a [URIError]. *)
Definition decodeURIComponent (s : string) : Completion string :=
  match tokens s with
  | Some ts =>
      match decodeTokens ts with
      | Some decoded => Normal decoded
      | None => Throw (mkError true "URI malformed")
      end
  | None => Throw (mkError true "URI malformed")
  end.

(** [finalContentType] (lines 206-225). *)
Definition finalContentType (filename : string) (contentType : option string) : string :=
  match Download.present contentType with
  | Some given => given
  | None =>
      let extension := JS.toLowerCase (Text.lastSegment filename) in
      if String.eqb extension "json" then "application/json"
      else if String.eqb extension "txt" then "text/plain"
      else if String.eqb extension "md" then "text/markdown"
      else "text/plain"
  end.

(** The plain download once [content] and [filename] are present (lines
    203-237); the error thrown by the decoding reaches the outer [catch].
    The response is the one built from header values that [Headers]
    accepts (see [Text.headerSafe]). *)
Definition plainDownload (content filename : string) (contentType : option string)
    : Render.Answer :=
  match decodeURIComponent content with
  | Throw error =>
      Render.Failure 500 "Failed to download file"
        (if instanceofError error then message error else "Unknown error")
  | Normal decodedContent =>
      Render.File 200 decodedContent
        (orElse (finalContentType filename contentType) "text/plain")
        ("attachment; filename=" +:+ Text.quote +:+ filename +:+ Text.quote)
        (String.length decodedContent)
  end.

End Plain.

(** ** Following the links the translate route hands out *)

Module Links.


(** The same for a [downloadUrl]. *)
Definition followLink (link : Render.DownloadLink) : Download.Request :=
  match link with
  | Render.TextLink content filename contentType =>
      Download.mkRequest None None None false (Some content) (Some filename)
        (Some contentType)
  | Render.BinaryLink documentId targetLanguage format =>
      Download.mkRequest (Some documentId) (Some targetLanguage) (Some format) false
        None None None
  end.

End Links.

(** ** Vocabulary of the further properties *)

(** No cached translation is the empty string. *)
Definition noEmptyValue (w : World) : Prop :=
  forall key value, translationCache w !! key = Some value -> value <> EmptyString.

(** The lookups counted so far. *)
Definition lookups (w : World) : nat := cacheHits w + cacheMisses w.

(** The chunks that [translateText] looks up in the cache: those with
    something to translate. *)
Definition translatableCount (targetLanguage sourceLanguage : string)
    (chunks : list Chunk) : nat :=
  length (List.filter
            (fun c => negb (nothingToTranslate (content c) targetLanguage sourceLanguage))
            chunks).

(** The provider never translates: every call throws, or returns an empty
    or unchanged text. *)
Definition providerDown (translate : Provider) : Prop :=
  forall calls text source target,
    match translate calls text source target with
    | Throw _ => True
    | Normal r => r = EmptyString \/ r = text
    end.

(** The string has no percent sign. *)
Fixpoint noPercent (s : string) : bool :=
  match s with
  | EmptyString => true
  | String a s' => negb (Ascii.eqb a "%") && noPercent s'
  end.

(** The string has no dot. *)
Fixpoint noDot (s : string) : bool :=
  match s with
  | EmptyString => true
  | String a s' => negb (Text.isDot a) && noDot s'
  end.

(** The string starts with two hexadecimal digits. *)
Definition startsWithHexPair (s : string) : bool :=
  match s with
  | String h (String l _) =>
      match Plain.hexValue h, Plain.hexValue l with
      | Some _, Some _ => true
      | _, _ => false
      end
  | _ => false
  end.

(** Sample renderers and a sample cache of a given size. *)
Module Fixture.

Definition getFileExtension (format : string) : string := format.
Definition getContentType (format : string) : string := "type/" +:+ format.
Definition rendering : string -> Render.RenderMeta -> Completion string :=
  fun content _ => Normal ("%PDF" +:+ content).
Definition failing : string -> Render.RenderMeta -> Completion string :=
  fun _ _ => Throw (mkError true "renderer failed").
Definition jsonStringify : Render.RenderMeta -> string -> string :=
  fun _ content => content.
Definition inheritedToString (key : string) : string := "[object]".

(** A request for a PDF rendition of the sample document in Spanish. *)
Definition pdfRequest : Bulk.Request := Bulk.mkRequest "notes.txt" (Some "es") (Some "pdf").

(** The payload of [generateDocumentResponse] with the sample renderers. *)
Definition respond (render : string -> Render.RenderMeta -> Completion string)
    (content docTitle tl sl fmt : string) (n : nat) : Render.DocumentResponse :=
  Render.generateDocumentResponse getFileExtension getContentType render render
    jsonStringify "2024-01-01T00:00:00.000Z" "1/1/2024, 12:00:00 AM" inheritedToString
    content docTitle tl sl fmt n.

(** A cache of [n] entries, inserted in the order of their numbers. *)
Definition cacheOf (n : nat) : JsMap.t :=
  map (fun i => (Text.ofNat i, "v")) (seq 0 n).

End Fixture.

(** * Properties *)

(** ** Strings *)

Lemma truthy_true (s : string) : JS.truthy s = true <-> s <> EmptyString.
Proof.
  unfold JS.truthy. rewrite negb_true_iff. apply String.eqb_neq.
Qed.

Lemma truthy_false (s : string) : JS.truthy s = false <-> s = EmptyString.
Proof.
  unfold JS.truthy. rewrite negb_false_iff. apply String.eqb_eq.
Qed.

Lemma append_nil_l (s : string) : EmptyString +:+ s = s.
Proof. reflexivity. Qed.

Lemma append_cons (a : ascii) (s t : string) : String a s +:+ t = String a (s +:+ t).
Proof. reflexivity. Qed.

Lemma append_length (s t : string) :
  String.length (s +:+ t) = String.length s + String.length t.
Proof.
  induction s as [|a s IH]; [reflexivity |].
  rewrite append_cons. simpl. now rewrite IH.
Qed.

Lemma append_inj_l (p s t : string) : p +:+ s = p +:+ t -> s = t.
Proof.
  induction p as [|a p IH]; [now rewrite !append_nil_l |].
  rewrite !append_cons. intros H. injection H. exact IH.
Qed.

Lemma append_inj_r (s t u : string) : s +:+ u = t +:+ u -> s = t.
Proof.
  revert t. induction s as [|a s IH]; intros [|b t] H.
  - reflexivity.
  - apply (f_equal String.length) in H.
    rewrite append_cons, append_nil_l in H. simpl in H. rewrite append_length in H. lia.
  - apply (f_equal String.length) in H.
    rewrite append_cons, append_nil_l in H. simpl in H. rewrite append_length in H. lia.
  - rewrite !append_cons in H. injection H as -> H. f_equal. now apply IH.
Qed.

Lemma trimStart_allSpace (l s : string) :
  JS.allSpace l = true -> JS.trimStart (l +:+ s) = JS.trimStart s.
Proof.
  induction l as [|a l IH]; [reflexivity |].
  rewrite append_cons. simpl.
  intros [Ha Hl]%andb_true_iff. rewrite Ha. auto.
Qed.

Lemma trimEnd_allSpace (r : string) : JS.allSpace r = true -> JS.trimEnd r = EmptyString.
Proof.
  induction r as [|a r IH]; simpl; [reflexivity |].
  intros [Ha Hr]%andb_true_iff. now rewrite (IH Hr), Ha.
Qed.

Lemma trimEnd_app_allSpace (s r : string) :
  JS.allSpace r = true -> JS.trimEnd (s +:+ r) = JS.trimEnd s.
Proof.
  intros Hr. induction s as [|a s IH].
  - rewrite append_nil_l. now apply trimEnd_allSpace.
  - rewrite append_cons. simpl. now rewrite IH.
Qed.

Lemma trimStart_app (s r : string) :
  JS.trimStart s <> EmptyString -> JS.trimStart (s +:+ r) = JS.trimStart s +:+ r.
Proof.
  induction s as [|a s IH]; [simpl; congruence |].
  rewrite append_cons. simpl.
  destruct (JS.isSpace a); [exact IH | reflexivity].
Qed.

Lemma trimStart_empty_allSpace (s : string) :
  JS.trimStart s = EmptyString -> JS.allSpace s = true.
Proof.
  induction s as [|a s IH]; simpl; [reflexivity |].
  destruct (JS.isSpace a); [exact IH | discriminate].
Qed.

(** White space around a text does not survive [trim]. *)
Lemma trim_padding (l s r : string) :
  JS.allSpace l = true -> JS.allSpace r = true ->
  JS.trim (l +:+ s +:+ r) = JS.trim s.
Proof.
  intros Hl Hr. unfold JS.trim. rewrite (trimStart_allSpace l _ Hl).
  destruct (JS.trimStart s) as [|a t] eqn:E.
  - assert (Hs : JS.allSpace s = true) by now apply trimStart_empty_allSpace.
    rewrite (trimStart_allSpace s r Hs).
    simpl. apply trimEnd_allSpace.
    clear -Hr. induction r as [|b r IH]; simpl in *; [reflexivity |].
    apply andb_true_iff in Hr as [Hb Hr]. rewrite Hb. auto.
  - rewrite trimStart_app by (rewrite E; discriminate).
    rewrite E. now apply trimEnd_app_allSpace.
Qed.

Lemma isSpace_lowerChar (a : ascii) : JS.isSpace (JS.lowerChar a) = JS.isSpace a.
Proof. destruct a as [[] [] [] [] [] [] [] []]; reflexivity. Qed.

Lemma isSpace_same_case (a b : ascii) :
  JS.lowerChar a = JS.lowerChar b -> JS.isSpace a = JS.isSpace b.
Proof. intros H. now rewrite <- (isSpace_lowerChar a), H, isSpace_lowerChar. Qed.

Lemma toLowerCase_trimStart (s : string) :
  JS.toLowerCase (JS.trimStart s) = JS.trimStart (JS.toLowerCase s).
Proof.
  induction s as [|a s IH]; simpl; [reflexivity |].
  rewrite isSpace_lowerChar. destruct (JS.isSpace a); [exact IH | reflexivity].
Qed.

Lemma toLowerCase_trimEnd (s : string) :
  JS.toLowerCase (JS.trimEnd s) = JS.trimEnd (JS.toLowerCase s).
Proof.
  induction s as [|a s IH]; simpl; [reflexivity |].
  rewrite <- IH, isSpace_lowerChar.
  destruct (JS.trimEnd s); simpl; [destruct (JS.isSpace a) |]; reflexivity.
Qed.

Lemma toLowerCase_trim (s : string) :
  JS.toLowerCase (JS.trim s) = JS.trim (JS.toLowerCase s).
Proof. unfold JS.trim. now rewrite toLowerCase_trimEnd, toLowerCase_trimStart. Qed.

Lemma sameModuloCase_toLowerCase (s t : string) :
  JS.sameModuloCase s t = true -> JS.toLowerCase s = JS.toLowerCase t.
Proof.
  revert t. induction s as [|a s IH]; intros [|b t]; simpl; try discriminate; auto.
  intros [Hab Hst]%andb_true_iff. apply bool_decide_eq_true in Hab.
  rewrite Hab. f_equal. auto.
Qed.

(** Texts that differ in surrounding white space and in letter case have
    the same normal form. *)
Lemma normalize_padding_case (l s r t : string) :
  JS.allSpace l = true -> JS.allSpace r = true -> JS.sameModuloCase s t = true ->
  JS.toLowerCase (JS.trim (l +:+ s +:+ r)) = JS.toLowerCase (JS.trim t).
Proof.
  intros Hl Hr Hst. rewrite trim_padding by assumption.
  rewrite !toLowerCase_trim. now rewrite (sameModuloCase_toLowerCase s t).
Qed.

(** ** The cache *)

Section CacheFacts.

Variable md5 : string -> string.

Local Abbreviation getCacheKey := (TranslationCache.getCacheKey md5).
Local Abbreviation getCachedTranslation := (TranslationCache.getCachedTranslation md5).
Local Abbreviation setCachedTranslation := (TranslationCache.setCachedTranslation md5).

Lemma getCacheKey_padding_case (l s r t tl sl : string) :
  JS.allSpace l = true -> JS.allSpace r = true -> JS.sameModuloCase s t = true ->
  getCacheKey (l +:+ s +:+ r) tl sl = getCacheKey t tl sl.
Proof.
  intros. unfold TranslationCache.getCacheKey. cbv zeta.
  now rewrite (normalize_padding_case l s r t).
Qed.

Lemma getCacheKey_target_inj (text tl1 tl2 sl : string) :
  getCacheKey text tl1 sl = getCacheKey text tl2 sl -> tl1 = tl2.
Proof.
  unfold TranslationCache.getCacheKey. cbv zeta. intros H.
  apply append_inj_l in H. apply append_inj_l in H.
  now apply append_inj_r in H.
Qed.

Lemma setCachedTranslation_stores (text v tl sl : string) (w : World) :
  text <> EmptyString -> v <> EmptyString -> text <> v ->
  setCachedTranslation text v tl sl w
  = setCache (<[getCacheKey text tl sl := v]> (translationCache w)) w.
Proof.
  intros Ht Hv Hne. unfold TranslationCache.setCachedTranslation.
  apply truthy_true in Ht. apply truthy_true in Hv. apply String.eqb_neq in Hne.
  now rewrite Ht, Hv, Hne.
Qed.

Lemma getCachedTranslation_found (text tl sl v : string) (w : World) :
  translationCache w !! getCacheKey text tl sl = Some v -> v <> EmptyString ->
  getCachedTranslation text tl sl w = (Some v, hit w).
Proof.
  intros H Hv. unfold TranslationCache.getCachedTranslation. cbv zeta.
  rewrite H. apply truthy_true in Hv. now rewrite Hv.
Qed.

End CacheFacts.

(** ** The per-chunk translator *)

Section TranslatorFacts.

Variable md5 : string -> string.
Variable translate : Provider.

Local Abbreviation getCachedTranslation := (TranslationCache.getCachedTranslation md5).
Local Abbreviation setCachedTranslation := (TranslationCache.setCachedTranslation md5).

Lemma getCachedTranslation_world (text tl sl : string) (w : World) :
  let w1 := snd (getCachedTranslation text tl sl w) in
  translationCache w1 = translationCache w
  /\ providerCalls w1 = providerCalls w
  /\ sleeps w1 = sleeps w.
Proof.
  unfold TranslationCache.getCachedTranslation. cbv zeta.
  destruct (translationCache w !! _) as [c|]; [destruct (JS.truthy c) |]; simpl; auto.
Qed.

Lemma setCachedTranslation_world (text v tl sl : string) (w : World) :
  let w1 := setCachedTranslation text v tl sl w in
  providerCalls w1 = providerCalls w /\ sleeps w1 = sleeps w
  /\ cacheHits w1 = cacheHits w /\ cacheMisses w1 = cacheMisses w.
Proof.
  unfold TranslationCache.setCachedTranslation. cbv zeta.
  destruct (_ || _); simpl; auto.
Qed.

(** The two copies of [translateText] are the same function. *)
Lemma translateText_same (text tl sl : string) (w : World) :
  Download.translateText md5 translate text tl sl w
  = Bulk.translateText md5 translate text tl sl w.
Proof.
  unfold Download.translateText, Bulk.translateText.
  destruct (_ || _); [reflexivity |].
  destruct (getCachedTranslation text tl sl w) as [[c|] w1]; [reflexivity |].
  unfold Download.tryTranslate, Bulk.tryTranslate.
  destruct (translate _ _ _ _) as [r|e]; [destruct (_ && _) |]; reflexivity.
Qed.

(** [translateText] completes normally, with the per-chunk outcome. *)
Lemma translateText_outcome (text tl sl : string) (w : World) :
  fst (Bulk.translateText md5 translate text tl sl w)
  = Normal (perChunkOutcome md5 translate text tl sl w).
Proof.
  unfold Bulk.translateText, perChunkOutcome, servedFromCache, providerAnswer,
    nothingToTranslate.
  destruct (_ || _); [reflexivity |].
  pose proof (getCachedTranslation_world text tl sl w) as (_ & Hcalls & _).
  destruct (getCachedTranslation text tl sl w) as [[c|] w1]; simpl in *; [reflexivity |].
  unfold Bulk.tryTranslate. rewrite Hcalls.
  destruct (translate _ _ _ _) as [r|e]; [destruct (_ && _) |]; reflexivity.
Qed.

(** What [translateText] does to the world: no wait, at most one call. *)
Lemma translateText_world (text tl sl : string) (w : World) :
  let w1 := snd (Bulk.translateText md5 translate text tl sl w) in
  sleeps w1 = sleeps w
  /\ providerCalls w <= providerCalls w1 <= S (providerCalls w).
Proof.
  unfold Bulk.translateText.
  destruct (_ || _); [simpl; split; [reflexivity | lia] |].
  pose proof (getCachedTranslation_world text tl sl w) as (_ & Hcalls & Hsl).
  destruct (getCachedTranslation text tl sl w) as [[c|] w1]; simpl in *;
    [rewrite Hsl, Hcalls; split; [reflexivity | lia] |].
  unfold Bulk.tryTranslate.
  destruct (translate _ _ _ _) as [r|e]; [destruct (_ && _) |]; simpl.
  - pose proof (setCachedTranslation_world text r tl sl (called w1)) as (Hc & Hs & _).
    cbv zeta in Hc, Hs. rewrite Hc, Hs. simpl. rewrite Hsl, Hcalls.
    split; [reflexivity | lia].
  - rewrite Hsl, Hcalls. split; [reflexivity | lia].
  - rewrite Hsl, Hcalls. split; [reflexivity | lia].
Qed.

(** The number of calls [translateText] makes: one exactly when the
    provider is consulted. *)
Lemma translateText_calls (text tl sl : string) (w : World) :
  providerCalls (snd (Bulk.translateText md5 translate text tl sl w))
  = match providerAnswer md5 translate text tl sl w with
    | Some _ => S (providerCalls w)
    | None => providerCalls w
    end.
Proof.
  unfold Bulk.translateText, providerAnswer, nothingToTranslate.
  destruct (_ || _); [reflexivity |].
  pose proof (getCachedTranslation_world text tl sl w) as (_ & Hcalls & _).
  destruct (getCachedTranslation text tl sl w) as [[c|] w1]; simpl in *; [exact Hcalls |].
  unfold Bulk.tryTranslate.
  destruct (translate _ _ _ _) as [r|e]; [destruct (_ && _) |]; simpl; try lia.
  pose proof (setCachedTranslation_world text r tl sl (called w1)) as (Hc & _).
  cbv zeta in Hc. rewrite Hc. simpl. lia.
Qed.

Lemma providerAnswer_not_served (text tl sl : string) (w : World) (a : Completion string) :
  providerAnswer md5 translate text tl sl w = Some a ->
  servedFromCache md5 text tl sl w = None.
Proof.
  unfold providerAnswer, servedFromCache.
  destruct (nothingToTranslate text tl sl); [reflexivity |].
  destruct (fst (getCachedTranslation text tl sl w)); [discriminate | reflexivity].
Qed.

Lemma perChunkOutcome_failed (text tl sl : string) (w : World) (a : Completion string) :
  providerAnswer md5 translate text tl sl w = Some a ->
  match a with
  | Throw _ => True
  | Normal r => r = EmptyString \/ r = text
  end ->
  perChunkOutcome md5 translate text tl sl w = text.
Proof.
  intros Hans Hfail. unfold perChunkOutcome.
  rewrite (providerAnswer_not_served _ _ _ _ _ Hans), Hans.
  destruct a as [r|e]; [| reflexivity].
  destruct Hfail as [-> | ->]; [reflexivity |].
  now rewrite String.eqb_refl, andb_false_r.
Qed.

Lemma perChunkOutcome_translated (text tl sl : string) (w : World) (r : string) :
  providerAnswer md5 translate text tl sl w = Some (Normal r) ->
  r <> EmptyString -> r <> text ->
  perChunkOutcome md5 translate text tl sl w = r.
Proof.
  intros Hans Hr Hne. unfold perChunkOutcome.
  rewrite (providerAnswer_not_served _ _ _ _ _ Hans), Hans.
  apply truthy_true in Hr. apply String.eqb_neq in Hne. now rewrite Hr, Hne.
Qed.

Lemma perChunkOutcome_served (text tl sl : string) (w : World) (v : string) :
  servedFromCache md5 text tl sl w = Some v ->
  perChunkOutcome md5 translate text tl sl w = v.
Proof. intros H. unfold perChunkOutcome. now rewrite H. Qed.

(** *** The retry loop *)

Lemma retryLoop_success (u : nat) (attempt : World -> Completion string * World)
    (fuel : nat) (c t : string) (k : nat) (w w1 : World) :
  k < MAX_RETRIES -> attempt w = (Normal t, w1) ->
  retryLoop u attempt (S fuel) c k w = (t, k, w1).
Proof.
  intros Hk Ha. simpl. apply Nat.ltb_lt in Hk. now rewrite Hk, Ha.
Qed.

(** Fuel beyond the retries that are left changes nothing. *)
Lemma retryLoop_fuel (u : nat) (attempt : World -> Completion string * World)
    (fuel : nat) (c : string) (k : nat) (w : World) :
  MAX_RETRIES - k <= fuel ->
  retryLoop u attempt fuel c k w = retryLoop u attempt (MAX_RETRIES - k) c k w.
Proof.
  revert k w. induction fuel as [|fuel IH]; intros k w Hf.
  - replace (MAX_RETRIES - k) with 0 by lia. reflexivity.
  - destruct (Nat.ltb_spec k MAX_RETRIES) as [Hk|Hk].
    + replace (MAX_RETRIES - k) with (S (MAX_RETRIES - S k)) by lia.
      simpl. apply Nat.ltb_lt in Hk. rewrite Hk.
      destruct (attempt w) as [[t|e] w1]; [reflexivity |].
      destruct (isRateLimited e); [| reflexivity].
      apply IH. apply Nat.ltb_lt in Hk. lia.
    + replace (MAX_RETRIES - k) with 0 by lia. simpl.
      apply Nat.ltb_ge in Hk. now rewrite Hk.
Qed.

Lemma retryLoop_rate_limited (u : nat) (attempt : World -> Completion string * World)
    (fuel : nat) (c : string) (k : nat) (w w1 : World) (e : JsError) :
  k < MAX_RETRIES -> attempt w = (Throw e, w1) -> isRateLimited e = true ->
  retryLoop u attempt (S fuel) c k w
  = retryLoop u attempt fuel c (S k) (sleep (S k * u) w1).
Proof.
  intros Hk Ha He. simpl. apply Nat.ltb_lt in Hk. now rewrite Hk, Ha, He.
Qed.

Lemma retryLoop_other_failure (u : nat) (attempt : World -> Completion string * World)
    (fuel : nat) (c : string) (k : nat) (w w1 : World) (e : JsError) :
  k < MAX_RETRIES -> attempt w = (Throw e, w1) -> isRateLimited e = false ->
  retryLoop u attempt (S fuel) c k w = (c, S k, w1).
Proof.
  intros Hk Ha He. simpl. apply Nat.ltb_lt in Hk. now rewrite Hk, Ha, He.
Qed.

Lemma retryLoop_exhausted (u : nat) (attempt : World -> Completion string * World)
    (fuel : nat) (c : string) (w : World) :
  retryLoop u attempt fuel c MAX_RETRIES w = (c, MAX_RETRIES, w).
Proof. destruct fuel; reflexivity. Qed.

(** *** The cache across one call *)

Lemma getCachedTranslation_by_cache (text tl sl : string) (w1 w2 : World) :
  translationCache w1 = translationCache w2 ->
  fst (getCachedTranslation text tl sl w1) = fst (getCachedTranslation text tl sl w2).
Proof.
  intros H. unfold TranslationCache.getCachedTranslation. cbv zeta. rewrite H.
  destruct (translationCache w2 !! _) as [c|]; [destruct (JS.truthy c) |]; reflexivity.
Qed.

Lemma translateText_cache_served (text tl sl v : string) (w : World) :
  servedFromCache md5 text tl sl w = Some v ->
  translationCache (snd (Bulk.translateText md5 translate text tl sl w))
  = translationCache w.
Proof.
  unfold servedFromCache, nothingToTranslate, Bulk.translateText.
  destruct (_ || _); [discriminate |].
  pose proof (getCachedTranslation_world text tl sl w) as (Hcache & _).
  destruct (getCachedTranslation text tl sl w) as [[c|] w1]; simpl in *;
    [intros _; exact Hcache | discriminate].
Qed.

Lemma translateText_cache_failed (text tl sl : string) (w : World)
    (a : Completion string) :
  providerAnswer md5 translate text tl sl w = Some a ->
  match a with
  | Throw _ => True
  | Normal r => r = EmptyString \/ r = text
  end ->
  translationCache (snd (Bulk.translateText md5 translate text tl sl w))
  = translationCache w.
Proof.
  unfold providerAnswer, nothingToTranslate, Bulk.translateText.
  destruct (_ || _); [discriminate |].
  pose proof (getCachedTranslation_world text tl sl w) as (Hcache & Hcalls & _).
  destruct (getCachedTranslation text tl sl w) as [[c|] w1]; simpl in *;
    [discriminate |].
  intros [= <-] Hfail. unfold Bulk.tryTranslate. rewrite Hcalls.
  destruct (translate _ _ _ _) as [r|e]; [| exact Hcache].
  destruct Hfail as [-> | ->]; simpl; [exact Hcache |].
  now rewrite String.eqb_refl, andb_false_r.
Qed.

Lemma bulk_pace_sleeps (tl sl : string) (chunk : Chunk) (w : World) :
  sleeps (Bulk.pace md5 tl sl chunk w)
  = sleeps w ++ [match fst (getCachedTranslation (content chunk) tl sl w) with
                 | Some _ => 100
                 | None => Bulk.DELAY_BETWEEN_REQUESTS
                 end].
Proof.
  unfold Bulk.pace.
  pose proof (getCachedTranslation_world (content chunk) tl sl w) as (_ & _ & Hs).
  destruct (getCachedTranslation (content chunk) tl sl w) as [c w1]. simpl in *.
  now rewrite Hs.
Qed.

Lemma bulk_translateChunk_eq (tl sl : string) (chunk : Chunk) (w : World) :
  Bulk.translateChunk md5 translate tl sl chunk w
  = (perChunkOutcome md5 translate (content chunk) tl sl w, 0,
     snd (Bulk.translateText md5 translate (content chunk) tl sl w)).
Proof.
  unfold Bulk.translateChunk.
  pose proof (translateText_outcome (content chunk) tl sl w) as H.
  destruct (Bulk.translateText md5 translate (content chunk) tl sl w) as [r w1] eqn:E.
  simpl in H. subst r.
  apply retryLoop_success; [unfold MAX_RETRIES; lia | exact E].
Qed.

Lemma download_translateChunk_eq (tl sl : string) (chunk : Chunk) (w : World) :
  Download.translateChunk md5 translate tl sl chunk w
  = (perChunkOutcome md5 translate (content chunk) tl sl w, 0,
     snd (Bulk.translateText md5 translate (content chunk) tl sl w)).
Proof.
  unfold Download.translateChunk.
  pose proof (translateText_outcome (content chunk) tl sl w) as H.
  destruct (Bulk.translateText md5 translate (content chunk) tl sl w) as [r w1] eqn:E.
  simpl in H. subst r.
  apply retryLoop_success; [unfold MAX_RETRIES; lia |].
  now rewrite translateText_same.
Qed.

End TranslatorFacts.

(** ** The chunk loops *)

Lemma arraySet_end (a : list string) (v : string) :
  JS.arraySet a (length a) v = a ++ [v].
Proof.
  unfold JS.arraySet. rewrite Nat.ltb_irrefl, Nat.sub_diag. reflexivity.
Qed.

Section LoopFacts.

Variable md5 : string -> string.
Variable translate : Provider.
Variable chunks : list Chunk.
Variables tl sl : string.

Local Abbreviation outcome := (perChunkOutcome md5 translate).

(** *** Bulk route *)

Local Abbreviation bloop := (Bulk.chunkLoop md5 translate chunks tl sl).
Local Abbreviation bstep := (bulkStep md5 translate chunks tl sl).
Local Abbreviation bbefore := (bulkWorldBefore md5 translate chunks tl sl).

Lemma bulk_chunkLoop_none (f i : nat) (acc : list string) (w : World) :
  chunks !! i = None -> bloop f i acc w = (acc, w).
Proof. intros H. destruct f; simpl; [reflexivity | now rewrite H]. Qed.

Lemma bulk_chunkLoop_S (f i : nat) (acc : list string) (w : World) (c : Chunk) :
  chunks !! i = Some c ->
  bloop (S f) i acc w
  = bloop f (S i) (JS.arraySet acc i (outcome (content c) tl sl w)) (bstep i c w).
Proof.
  intros H. simpl. rewrite H, bulk_translateChunk_eq. reflexivity.
Qed.

Lemma bulk_chunkLoop_add (a b i : nat) (acc : list string) (w : World) :
  bloop (a + b) i acc w
  = bloop b (i + a) (fst (bloop a i acc w)) (snd (bloop a i acc w)).
Proof.
  revert i acc w. induction a as [|a IH]; intros i acc w.
  - now rewrite Nat.add_0_r.
  - destruct (chunks !! i) as [c|] eqn:E.
    + rewrite Nat.add_succ_l, !(bulk_chunkLoop_S _ _ _ _ c E), IH.
      now rewrite Nat.add_succ_r.
    + rewrite (bulk_chunkLoop_none (S a + b) _ _ _ E),
        (bulk_chunkLoop_none (S a) _ _ _ E).
      cbn [fst snd]. symmetry.
      apply bulk_chunkLoop_none. apply lookup_ge_None.
      apply lookup_ge_None in E. lia.
Qed.

(** The fuel [length chunks] is enough: the loop has left when it is
    used up, and more fuel changes nothing. *)
Lemma bulk_chunkLoop_fuel (extra : nat) (w : World) :
  bloop (length chunks + extra) 0 [] w = bloop (length chunks) 0 [] w.
Proof.
  rewrite bulk_chunkLoop_add. simpl (0 + _).
  rewrite bulk_chunkLoop_none by (apply lookup_ge_None; lia).
  now destruct (bloop (length chunks) 0 [] w).
Qed.

Lemma bulk_worldBefore_0 (w : World) : bbefore 0 w = w.
Proof. reflexivity. Qed.

(** The world moves from one chunk to the next by one step. *)
Lemma bulk_worldBefore_S (i : nat) (c : Chunk) (w : World) :
  chunks !! i = Some c -> bbefore (S i) w = bstep i c (bbefore i w).
Proof.
  intros H. unfold bulkWorldBefore.
  replace (S i) with (i + 1) by lia.
  rewrite bulk_chunkLoop_add. simpl (0 + i).
  now rewrite (bulk_chunkLoop_S _ _ _ _ c H).
Qed.

(** The array the loop builds, run to the end of the document. *)
Lemma bulk_chunkLoop_outcomes (f i : nat) (acc : list string) (w : World) :
  length acc = i -> i + f = length chunks ->
  fst (bloop f i acc w)
  = acc ++ imap (fun k c => outcome (content c) tl sl (snd (bloop k i acc w)))
             (drop i chunks).
Proof.
  revert i acc w. induction f as [|f IH]; intros i acc w Hacc Hlen.
  - rewrite drop_ge by lia. simpl. now rewrite app_nil_r.
  - destruct (chunks !! i) as [c|] eqn:E;
      [| apply lookup_ge_None in E; lia].
    rewrite (drop_S _ _ _ E), imap_cons.
    rewrite (bulk_chunkLoop_S _ _ _ _ c E).
    subst i. rewrite arraySet_end.
    rewrite IH by (rewrite ?length_app; simpl; lia).
    rewrite <- app_assoc. apply (f_equal (app acc)).
    apply (f_equal2 cons); [reflexivity |].
    apply imap_ext. intros k x _. unfold compose.
    now rewrite (bulk_chunkLoop_S k _ _ _ c E), arraySet_end.
Qed.

Lemma bulk_outcomes (w : World) :
  fst (bloop (length chunks) 0 [] w)
  = imap (fun i c => outcome (content c) tl sl (bbefore i w)) chunks.
Proof. now rewrite bulk_chunkLoop_outcomes. Qed.

(** *** Download route *)

Local Abbreviation dloop := (Download.chunkLoop md5 translate chunks tl sl).
Local Abbreviation dstep := (downloadStep md5 translate chunks tl sl).
Local Abbreviation dbefore := (downloadWorldBefore md5 translate chunks tl sl).

Lemma download_chunkLoop_none (f i : nat) (acc : list string) (w : World) :
  chunks !! i = None -> dloop f i acc w = (acc, w).
Proof. intros H. destruct f; simpl; [reflexivity | now rewrite H]. Qed.

Lemma download_chunkLoop_S (f i : nat) (acc : list string) (w : World) (c : Chunk) :
  chunks !! i = Some c ->
  dloop (S f) i acc w
  = dloop f (S i) (JS.arraySet acc i (outcome (content c) tl sl w)) (dstep i c w).
Proof.
  intros H. simpl. rewrite H, download_translateChunk_eq. reflexivity.
Qed.

Lemma download_chunkLoop_add (a b i : nat) (acc : list string) (w : World) :
  dloop (a + b) i acc w
  = dloop b (i + a) (fst (dloop a i acc w)) (snd (dloop a i acc w)).
Proof.
  revert i acc w. induction a as [|a IH]; intros i acc w.
  - now rewrite Nat.add_0_r.
  - destruct (chunks !! i) as [c|] eqn:E.
    + rewrite Nat.add_succ_l, !(download_chunkLoop_S _ _ _ _ c E), IH.
      now rewrite Nat.add_succ_r.
    + rewrite (download_chunkLoop_none (S a + b) _ _ _ E),
        (download_chunkLoop_none (S a) _ _ _ E).
      cbn [fst snd]. symmetry.
      apply download_chunkLoop_none. apply lookup_ge_None.
      apply lookup_ge_None in E. lia.
Qed.

Lemma download_chunkLoop_fuel (extra : nat) (w : World) :
  dloop (length chunks + extra) 0 [] w = dloop (length chunks) 0 [] w.
Proof.
  rewrite download_chunkLoop_add. simpl (0 + _).
  rewrite download_chunkLoop_none by (apply lookup_ge_None; lia).
  now destruct (dloop (length chunks) 0 [] w).
Qed.

Lemma download_worldBefore_S (i : nat) (c : Chunk) (w : World) :
  chunks !! i = Some c -> dbefore (S i) w = dstep i c (dbefore i w).
Proof.
  intros H. unfold downloadWorldBefore.
  replace (S i) with (i + 1) by lia.
  rewrite download_chunkLoop_add. simpl (0 + i).
  now rewrite (download_chunkLoop_S _ _ _ _ c H).
Qed.

Lemma download_chunkLoop_outcomes (f i : nat) (acc : list string) (w : World) :
  length acc = i -> i + f = length chunks ->
  fst (dloop f i acc w)
  = acc ++ imap (fun k c => outcome (content c) tl sl (snd (dloop k i acc w)))
             (drop i chunks).
Proof.
  revert i acc w. induction f as [|f IH]; intros i acc w Hacc Hlen.
  - rewrite drop_ge by lia. simpl. now rewrite app_nil_r.
  - destruct (chunks !! i) as [c|] eqn:E;
      [| apply lookup_ge_None in E; lia].
    rewrite (drop_S _ _ _ E), imap_cons.
    rewrite (download_chunkLoop_S _ _ _ _ c E).
    subst i. rewrite arraySet_end.
    rewrite IH by (rewrite ?length_app; simpl; lia).
    rewrite <- app_assoc. apply (f_equal (app acc)).
    apply (f_equal2 cons); [reflexivity |].
    apply imap_ext. intros k x _. unfold compose.
    now rewrite (download_chunkLoop_S k _ _ _ c E), arraySet_end.
Qed.

Lemma download_outcomes (w : World) :
  fst (dloop (length chunks) 0 [] w)
  = imap (fun i c => outcome (content c) tl sl (dbefore i w)) chunks.
Proof. now rewrite download_chunkLoop_outcomes. Qed.

End LoopFacts.

(** ** The routes *)

Section RouteFacts.

Variable md5 : string -> string.
Variable translate : Provider.
Variable store : Store.

Local Abbreviation outcome := (perChunkOutcome md5 translate).

Lemma perChunkOutcome_same_language (text l : string) (w : World) :
  outcome text l l w = text.
Proof.
  unfold perChunkOutcome, servedFromCache, providerAnswer, nothingToTranslate.
  now rewrite String.eqb_refl.
Qed.

Lemma imap_outcome_same_language (chunks : list Chunk) (l : string)
    (W : nat -> World) :
  imap (fun i c => outcome (content c) l l (W i)) chunks = map content chunks.
Proof.
  revert W. induction chunks as [|c chunks IH]; intros W; [reflexivity |].
  rewrite imap_cons. simpl. rewrite perChunkOutcome_same_language. f_equal.
  apply (IH (fun i => W (S i))).
Qed.

(** The bulk route on a request that passes the checks before the
    availability probe. *)
Lemma POST_admitted (request : Bulk.Request) (w : World) (metadata : Metadata) :
  let tl := default "en" (Bulk.targetLanguage request) in
  let sl := orElse (language metadata) "en" in
  let fmt := default "txt" (Bulk.format request) in
  let chunks := findChunks store (title metadata) in
  let probe := Bulk.translateText md5 translate "test" tl sl w in
  Bulk.documentId request <> EmptyString -> tl <> EmptyString ->
  findMetadata store (Bulk.documentId request) = Some metadata ->
  0 < length chunks <= 100 -> tl <> sl ->
  Bulk.POST md5 translate store request w
  = if String.eqb (outcome "test" tl sl w) "test"
    then (Bulk.Unavailable "Translation service temporarily unavailable"
            (mkRef (title metadata) "en" fmt true) "10-15 minutes"
            (length chunks) sl, snd probe)
    else (Bulk.Complete
            (JS.join blankLine
               (fst (Bulk.chunkLoop md5 translate chunks tl sl (length chunks) 0 []
                       (snd probe))))
            (title metadata) tl sl fmt (length chunks),
          snd (Bulk.chunkLoop md5 translate chunks tl sl (length chunks) 0 []
                 (snd probe))).
Proof.
  cbv zeta. intros Hid Htl Hmeta Hlen Hdiff. unfold Bulk.POST.
  apply truthy_true in Hid, Htl. rewrite Hid, Htl, Hmeta. simpl negb. cbv iota.
  destruct (Nat.eqb_spec (length (findChunks store (title metadata))) 0); [lia |].
  destruct (Nat.ltb_spec 100 (length (findChunks store (title metadata)))); [lia |].
  apply String.eqb_neq in Hdiff. rewrite Hdiff.
  pose proof (translateText_outcome md5 translate "test"
                (default "en" (Bulk.targetLanguage request))
                (orElse (language metadata) "en") w) as Hprobe.
  destruct (Bulk.translateText _ _ _ _ _ w) as [r w1]. simpl in Hprobe. subst r.
  simpl snd.
  destruct (String.eqb _ "test"); [reflexivity |].
  destruct (Bulk.chunkLoop _ _ _ _ _ _ _ _ w1); reflexivity.
Qed.

(** The download route on a binary request whose document is found. *)
Lemma GET_binary (request : Download.Request) (w : World) (metadata : Metadata)
    (docId tl fmt : string) :
  let sl := orElse (language metadata) "en" in
  let chunks := findChunks store docId in
  Download.present (Download.documentId request) = Some docId ->
  Download.present (Download.targetLanguage request) = Some tl ->
  Download.present (Download.format request) = Some fmt ->
  String.eqb fmt "pdf" || String.eqb fmt "docx" = true ->
  findMetadataWithChunks store docId = Some metadata ->
  0 < length chunks ->
  Download.GET md5 translate store request w
  = if (50 <? length chunks) && negb (Download.skipTranslation request)
    then (Download.TooLarge "Document too large for direct download"
            "Use the translation interface to process this document in smaller batches."
            (length chunks), w)
    else if Download.skipTranslation request || String.eqb tl sl
    then (Download.Binary (JS.join blankLine (map content chunks))
            (title metadata) tl sl fmt, w)
    else (Download.Binary
            (JS.join blankLine
               (fst (Download.chunkLoop md5 translate chunks tl sl (length chunks) 0 [] w)))
            (title metadata) tl sl fmt,
          snd (Download.chunkLoop md5 translate chunks tl sl (length chunks) 0 [] w)).
Proof.
  cbv zeta. intros Hid Htl Hfmt Hbin Hmeta Hlen. unfold Download.GET.
  rewrite Hid, Htl, Hfmt, Hbin, Hmeta.
  destruct (Nat.eqb_spec (length (findChunks store docId)) 0); [lia |].
  clear Hbin.
  destruct (_ && _); [reflexivity |].
  destruct (_ || _); [reflexivity |].
  destruct (Download.chunkLoop _ _ _ _ _ _ _ _ w); reflexivity.
Qed.

End RouteFacts.

(** The sample document, end to end: three chunks, English to Spanish. *)
Lemma notes_end_to_end :
  fst (Bulk.POST Sample.digest Sample.table (Sample.storeOf Sample.notes)
         Sample.notesRequest Sample.fresh)
  = Bulk.Complete ("Hola." +:+ blankLine +:+ "Mundo." +:+ blankLine +:+ "Adios.")
      "notes.txt" "es" "en" "txt" 3.
Proof. reflexivity. Qed.

(** * The claims *)

(** ** The translation cache *)

(** C6.  For a non-empty text and a non-empty translation that differs from
    it, a lookup after the store returns exactly the stored translation; a
    later store under the same text and language pair overwrites it; a text
    that differs from the stored one in surrounding white space or letter
    case only has the same key and finds the same entry; and the same text
    stored for two target languages, the source language being the same,
    has two keys and two entries. *)
Theorem C6_store_then_lookup (md5 : string -> string)
    (text translatedText targetLang sourceLang : string) (w : World) :
  text <> EmptyString -> translatedText <> EmptyString -> text <> translatedText ->
  let key := TranslationCache.getCacheKey md5 in
  let store := TranslationCache.setCachedTranslation md5 in
  let lookup := fun t tl sl w => fst (TranslationCache.getCachedTranslation md5 t tl sl w) in
  lookup text targetLang sourceLang
    (store text translatedText targetLang sourceLang w) = Some translatedText
  /\ (forall later : string,
        later <> EmptyString -> text <> later ->
        lookup text targetLang sourceLang
          (store text later targetLang sourceLang
             (store text translatedText targetLang sourceLang w)) = Some later)
  /\ (forall l r variant : string,
        JS.allSpace l = true -> JS.allSpace r = true ->
        JS.sameModuloCase variant text = true ->
        key (l +:+ variant +:+ r) targetLang sourceLang = key text targetLang sourceLang
        /\ lookup (l +:+ variant +:+ r) targetLang sourceLang
             (store text translatedText targetLang sourceLang w) = Some translatedText)
  /\ (forall otherLang other : string,
        otherLang <> targetLang -> other <> EmptyString -> text <> other ->
        key text otherLang sourceLang <> key text targetLang sourceLang
        /\ lookup text targetLang sourceLang
             (store text other otherLang sourceLang
                (store text translatedText targetLang sourceLang w)) = Some translatedText
        /\ lookup text otherLang sourceLang
             (store text other otherLang sourceLang
                (store text translatedText targetLang sourceLang w)) = Some other).
Proof.
  intros Ht Hv Hne. cbv zeta.
  rewrite (setCachedTranslation_stores md5 text translatedText) by assumption.
  repeat split.
  - erewrite getCachedTranslation_found; [reflexivity | | exact Hv].
    simpl. apply lookup_insert_eq.
  - intros later Hl Hnl.
    rewrite (setCachedTranslation_stores md5 text later) by assumption.
    erewrite getCachedTranslation_found; [reflexivity | | exact Hl].
    simpl. apply lookup_insert_eq.
  - now apply getCacheKey_padding_case.
  - erewrite getCachedTranslation_found; [reflexivity | | exact Hv].
    simpl. rewrite (getCacheKey_padding_case md5 l variant r text) by assumption.
    apply lookup_insert_eq.
  - intros Hk. apply getCacheKey_target_inj in Hk. contradiction.
  - rewrite (setCachedTranslation_stores md5 text other) by assumption.
    erewrite getCachedTranslation_found; [reflexivity | | exact Hv].
    simpl. rewrite lookup_insert_ne; [apply lookup_insert_eq |].
    intros Hk. apply getCacheKey_target_inj in Hk. contradiction.
  - rewrite (setCachedTranslation_stores md5 text other) by assumption.
    erewrite getCachedTranslation_found; [reflexivity | | assumption].
    simpl. apply lookup_insert_eq.
Qed.

Lemma C6_store_then_lookup_witness :
  fst (TranslationCache.getCachedTranslation Sample.digest "Hello." "es" "en"
         (TranslationCache.setCachedTranslation Sample.digest "Hello." "Hola." "es" "en"
            Sample.fresh)) = Some "Hola.".
Proof.
  refine (proj1 (C6_store_then_lookup Sample.digest "Hello." "Hola." "es" "en"
                   Sample.fresh _ _ _)); discriminate.
Defined.




(** ** The per-chunk translator is total *)

(** C7.  Both copies of [translateText] return a string on every input and
    never throw; when the provider is called and throws, or returns an
    empty or unchanged text, they return the input text.  So the retry
    loop of each route leaves [retryCount] at 0 (the catch branch is never
    entered), adds no wait (the backoff is never reached) and makes at
    most one provider call for the chunk. *)
Theorem C7_translateText_never_throws (md5 : string -> string) (translate : Provider)
    (text tl sl : string) (chunk : Chunk) (w : World) :
  (exists t, fst (Bulk.translateText md5 translate text tl sl w) = Normal t)
  /\ (exists t, fst (Download.translateText md5 translate text tl sl w) = Normal t)
  /\ (forall answer : Completion string,
        providerAnswer md5 translate text tl sl w = Some answer ->
        match answer with
        | Throw _ => True
        | Normal r => r = EmptyString \/ r = text
        end ->
        fst (Bulk.translateText md5 translate text tl sl w) = Normal text
        /\ fst (Download.translateText md5 translate text tl sl w) = Normal text)
  /\ (let '(_, retryCount, w') := Bulk.translateChunk md5 translate tl sl chunk w in
      retryCount = 0 /\ sleeps w' = sleeps w
      /\ providerCalls w <= providerCalls w' <= S (providerCalls w))
  /\ (let '(_, retryCount, w') := Download.translateChunk md5 translate tl sl chunk w in
      retryCount = 0 /\ sleeps w' = sleeps w
      /\ providerCalls w <= providerCalls w' <= S (providerCalls w)).
Proof.
  repeat apply conj.
  - eexists. apply translateText_outcome.
  - eexists. rewrite translateText_same. apply translateText_outcome.
  - intros answer Hans Hfail.
    pose proof (perChunkOutcome_failed md5 translate _ _ _ _ _ Hans Hfail) as Hout.
    split; [| rewrite translateText_same]; now rewrite translateText_outcome, Hout.
  - rewrite bulk_translateChunk_eq.
    pose proof (translateText_world md5 translate (content chunk) tl sl w) as [Hs Hc].
    repeat split; try assumption; apply Hc.
  - rewrite download_translateChunk_eq.
    pose proof (translateText_world md5 translate (content chunk) tl sl w) as [Hs Hc].
    repeat split; try assumption; apply Hc.
Qed.

Lemma C7_translateText_never_throws_witness :
  fst (Bulk.translateText Sample.digest Sample.throttled "Hello." "es" "en" Sample.fresh)
    = Normal "Hello."
  /\ fst (Download.translateText Sample.digest Sample.throttled "Hello." "es" "en"
            Sample.fresh) = Normal "Hello.".
Proof.
  refine (proj1 (proj2 (proj2
    (C7_translateText_never_throws Sample.digest Sample.throttled "Hello." "es" "en"
       (mkChunk 0 "Hello.") Sample.fresh))) (Throw Sample.rateLimited) _ _).
  - reflexivity.
  - exact I.
Defined.

(** ** The joined body *)

(** C1.  Whenever a route answers with a translated document, the body it
    hands to the rendering stage is the per-chunk outcomes joined by a
    blank line, in the order of the chunks the store returned: position
    [i] holds the outcome of chunk [i], computed in the world in which
    the loop took up that chunk, whatever the cache held and whatever the
    provider answered. *)
Theorem C1_body_joins_outcomes_in_order (md5 : string -> string) (translate : Provider)
    (store : Store) :
  (forall (request : Bulk.Request) (w w' : World)
          (body docTitle tl sl fmt : string) (n : nat),
     Bulk.POST md5 translate store request w
       = (Bulk.Complete body docTitle tl sl fmt n, w') ->
     let chunks := findChunks store docTitle in
     let start := snd (Bulk.translateText md5 translate "test" tl sl w) in
     let t := fun i c =>
       perChunkOutcome md5 translate (content c) tl sl
         (bulkWorldBefore md5 translate chunks tl sl i start) in
     body = JS.join blankLine (imap t chunks)
     /\ n = length chunks
     /\ forall i c, chunks !! i = Some c -> imap t chunks !! i = Some (t i c))
  /\
  (forall (request : Download.Request) (w w' : World)
          (docId body docTitle tl sl fmt : string),
     Download.present (Download.documentId request) = Some docId ->
     Download.skipTranslation request = false ->
     Download.GET md5 translate store request w
       = (Download.Binary body docTitle tl sl fmt, w') ->
     let chunks := findChunks store docId in
     let t := fun i c =>
       perChunkOutcome md5 translate (content c) tl sl
         (downloadWorldBefore md5 translate chunks tl sl i w) in
     body = JS.join blankLine (imap t chunks)
     /\ forall i c, chunks !! i = Some c -> imap t chunks !! i = Some (t i c)).
Proof.
  split.
  - intros request w w' body docTitle tl sl fmt n H. cbv zeta.
    assert (Hpos : forall (f : nat -> Chunk -> string) (l : list Chunk) i c,
               l !! i = Some c -> imap f l !! i = Some (f i c)).
    { intros f l i c Hc. now rewrite list_lookup_imap, Hc. }
    unfold Bulk.POST in H.
    destruct (JS.truthy (Bulk.documentId request)); [| discriminate].
    destruct (JS.truthy (default "en" (Bulk.targetLanguage request))); [| discriminate].
    simpl in H.
    destruct (findMetadata store (Bulk.documentId request)) as [metadata|];
      [| discriminate].
    destruct (length (findChunks store (title metadata)) =? 0); [discriminate |].
    destruct (100 <? length (findChunks store (title metadata))); [discriminate |].
    destruct (String.eqb _ (orElse (language metadata) "en")) eqn:Esame.
    + apply String.eqb_eq in Esame.
      injection H as <- <- <- <- <- <- <-.
      split; [| split; [reflexivity | now apply Hpos]].
      rewrite Esame. now rewrite imap_outcome_same_language.
    + pose proof (translateText_outcome md5 translate "test"
                    (default "en" (Bulk.targetLanguage request))
                    (orElse (language metadata) "en") w) as Hprobe.
      destruct (Bulk.translateText _ _ _ _ _ w) as [r w1] eqn:Eprobe.
      simpl in Hprobe. subst r.
      destruct (String.eqb _ "test"); [discriminate |].
      pose proof (bulk_outcomes md5 translate (findChunks store (title metadata))
                    (default "en" (Bulk.targetLanguage request))
                    (orElse (language metadata) "en") w1) as Houts.
      destruct (Bulk.chunkLoop _ _ _ _ _ _ _ _ w1) as [outs w2]. simpl in Houts.
      injection H as <- <- <- <- <- <- <-.
      split; [| split; [reflexivity | now apply Hpos]].
      rewrite Eprobe. now subst outs.
  - intros request w w' docId body docTitle tl sl fmt Hid Hskip H. cbv zeta.
    assert (Hpos : forall (f : nat -> Chunk -> string) (l : list Chunk) i c,
               l !! i = Some c -> imap f l !! i = Some (f i c)).
    { intros f l i c Hc. now rewrite list_lookup_imap, Hc. }
    split; [| now apply Hpos].
    unfold Download.GET in H. rewrite Hid, Hskip in H.
    destruct (Download.present (Download.targetLanguage request)) as [tl'|];
      [| destruct (Download.present (Download.contentParam request));
         [destruct (Download.present (Download.filename request)) |]; discriminate].
    destruct (Download.present (Download.format request)) as [fmt'|];
      [| destruct (Download.present (Download.contentParam request));
         [destruct (Download.present (Download.filename request)) |]; discriminate].
    destruct (String.eqb fmt' "pdf" || String.eqb fmt' "docx");
      [| destruct (Download.present (Download.contentParam request));
         [destruct (Download.present (Download.filename request)) |]; discriminate].
    destruct (findMetadataWithChunks store docId) as [metadata|]; [| discriminate].
    destruct (length (findChunks store docId) =? 0); [discriminate |].
    destruct (_ && _); [discriminate |].
    simpl orb in H.
    destruct (String.eqb tl' (orElse (language metadata) "en")) eqn:Esame.
    + apply String.eqb_eq in Esame.
      injection H as <- <- <- <- <- <-. rewrite Esame.
      now rewrite imap_outcome_same_language.
    + pose proof (download_outcomes md5 translate (findChunks store docId) tl'
                    (orElse (language metadata) "en") w) as Houts.
      destruct (Download.chunkLoop _ _ _ _ _ _ _ _ w) as [outs w2]. simpl in Houts.
      injection H as <- <- <- <- <- <-. now subst outs.
Qed.

Lemma C1_body_joins_outcomes_in_order_witness :
  "Hola." +:+ blankLine +:+ "World." +:+ blankLine +:+ "Adios."
  = JS.join blankLine
      (imap (fun i c =>
               perChunkOutcome Sample.digest Sample.spanish (content c) "es" "en"
                 (bulkWorldBefore Sample.digest Sample.spanish Sample.notes "es" "en" i
                    (snd (Bulk.translateText Sample.digest Sample.spanish "test" "es" "en"
                            Sample.fresh))))
         Sample.notes).
Proof.
  refine (proj1 (proj1 (C1_body_joins_outcomes_in_order Sample.digest Sample.spanish
                          (Sample.storeOf Sample.notes))
                   Sample.notesRequest Sample.fresh
                   (snd (Bulk.POST Sample.digest Sample.spanish
                           (Sample.storeOf Sample.notes) Sample.notesRequest Sample.fresh))
                   _ "notes.txt" "es" "en" "txt" 3 _)).
  vm_compute. reflexivity.
Defined.


(** ** Degrading on a chunk failure *)

(** C2.  A document that passes the size check and the availability probe
    of the bulk route is answered with the complete result, whatever the
    provider does on its chunks: a chunk for which the provider call fails
    holds its original content, a chunk for which it succeeds holds the
    translation, and a chunk served from the cache holds the cached
    translation. *)
Theorem C2_chunk_failure_degrades_to_original (md5 : string -> string)
    (translate : Provider) (store : Store) (request : Bulk.Request) (w : World)
    (metadata : Metadata) :
  let tl := default "en" (Bulk.targetLanguage request) in
  let sl := orElse (language metadata) "en" in
  let fmt := default "txt" (Bulk.format request) in
  let chunks := findChunks store (title metadata) in
  let probe := Bulk.translateText md5 translate "test" tl sl w in
  let W := fun i => bulkWorldBefore md5 translate chunks tl sl i (snd probe) in
  Bulk.documentId request <> EmptyString -> tl <> EmptyString ->
  findMetadata store (Bulk.documentId request) = Some metadata ->
  0 < length chunks <= 100 -> tl <> sl ->
  fst probe <> Normal "test" ->
  exists (outs : list string) (w' : World),
    Bulk.POST md5 translate store request w
      = (Bulk.Complete (JS.join blankLine outs) (title metadata) tl sl fmt
           (length chunks), w')
    /\ length outs = length chunks
    /\ forall i c, chunks !! i = Some c ->
         (forall e, providerAnswer md5 translate (content c) tl sl (W i) = Some (Throw e) ->
                    outs !! i = Some (content c))
         /\ (forall r, providerAnswer md5 translate (content c) tl sl (W i) = Some (Normal r) ->
                       r <> EmptyString -> r <> content c ->
                       outs !! i = Some r)
         /\ (forall v, servedFromCache md5 (content c) tl sl (W i) = Some v ->
                       outs !! i = Some v).
Proof.
  cbv zeta. intros Hid Htl Hmeta Hlen Hdiff Hprobe.
  rewrite (POST_admitted md5 translate store request w metadata Hid Htl Hmeta Hlen Hdiff).
  rewrite translateText_outcome in Hprobe.
  destruct (String.eqb_spec
              (perChunkOutcome md5 translate "test"
                 (default "en" (Bulk.targetLanguage request))
                 (orElse (language metadata) "en") w) "test") as [E|_];
    [now rewrite E in Hprobe |].
  eexists _, _. split; [reflexivity |].
  rewrite bulk_outcomes. split; [apply length_imap |].
  intros i c Hc. rewrite list_lookup_imap, Hc. simpl.
  repeat split.
  - intros e He. f_equal. now apply (perChunkOutcome_failed _ _ _ _ _ _ _ He).
  - intros r Hr Hne1 Hne2. f_equal. now apply perChunkOutcome_translated.
  - intros v Hv. f_equal. now apply perChunkOutcome_served.
Qed.

Lemma C2_chunk_failure_degrades_to_original_witness :
  exists (outs : list string) (w' : World),
    Bulk.POST Sample.digest Sample.spanish (Sample.storeOf Sample.notes)
      Sample.notesRequest Sample.fresh
    = (Bulk.Complete (JS.join blankLine outs) "notes.txt" "es" "en" "txt" 3, w')
    /\ outs !! 1 = Some "World.".
Proof.
  destruct (C2_chunk_failure_degrades_to_original Sample.digest Sample.spanish
              (Sample.storeOf Sample.notes) Sample.notesRequest Sample.fresh
              (mkMetadata "notes.txt" "en"))
    as (outs & w' & Hpost & _ & Hat).
  - discriminate.
  - discriminate.
  - reflexivity.
  - simpl. lia.
  - discriminate.
  - vm_compute. discriminate.
  - exists outs, w'. split; [exact Hpost |].
    apply (proj1 (Hat 1 (mkChunk 1 "World.") eq_refl) Sample.rateLimited).
    reflexivity.
Defined.


(** ** The admission check *)

(** C3 as the specification states it does not hold on the download
    route: the rejection of a document of 51 chunks carries the chunk
    count, but neither an estimated time nor a link to the untranslated
    original. *)
Lemma C3_download_rejection_has_no_estimate_nor_fallback :
  ~ (forall (store : Store) (request : Download.Request) (w : World)
            (docId tl fmt : string) (metadata : Metadata),
       Download.present (Download.documentId request) = Some docId ->
       Download.present (Download.targetLanguage request) = Some tl ->
       Download.present (Download.format request) = Some fmt ->
       String.eqb fmt "pdf" || String.eqb fmt "docx" = true ->
       findMetadataWithChunks store docId = Some metadata ->
       Download.skipTranslation request = false ->
       50 < length (findChunks store docId) ->
       let answer := fst (Download.GET Sample.digest Sample.spanish store request w) in
       Download.status answer = 413
       /\ In "documentInfo.estimatedTime" (Download.errorPayload answer)
       /\ In "fallbackOptions.downloadUrl" (Download.errorPayload answer)).
Proof.
  intros H.
  specialize (H (Sample.storeOf (Sample.manyChunks 51)) Sample.notesDownload
                Sample.fresh "notes.txt" "es" "pdf" (mkMetadata "notes.txt" "en")
                eq_refl eq_refl eq_refl eq_refl eq_refl eq_refl).
  vm_compute in H. specialize (H ltac:(lia)). destruct H as (_ & H & _).
  repeat (destruct H as [H | H]; [discriminate H |]). exact H.
Qed.

(** With [skipTranslation] set, the download route does not reject a
    document of 51 chunks: it renders the original. *)
Lemma download_admits_large_document_when_skipping :
  Download.status
    (fst (Download.GET Sample.digest Sample.spanish
            (Sample.storeOf (Sample.manyChunks 51))
            (Download.mkRequest (Some "notes.txt") (Some "es") (Some "pdf") true
               None None None)
            Sample.fresh)) = 200.
Proof. reflexivity. Qed.

(** C3, amended.  The bulk route rejects a document as too large exactly
    when it has more than 100 chunks; the rejection is made before any
    provider call and carries the chunk count, an estimate of
    ceil(3 * count / 60) minutes and a link to the untranslated original.
    The download route rejects exactly when the document has more than 50
    chunks and [skipTranslation] is not set; its rejection is made before
    any provider call and carries the chunk count and a recommendation,
    with no estimate and no link.  A document with exactly the ceiling
    count of chunks is not rejected. *)
Theorem C3_admission_by_chunk_count (md5 : string -> string) (translate : Provider)
    (store : Store) (w : World) (metadata : Metadata) :
  (forall request : Bulk.Request,
     let tl := default "en" (Bulk.targetLanguage request) in
     let fmt := default "txt" (Bulk.format request) in
     let count := length (findChunks store (title metadata)) in
     let answer := Bulk.POST md5 translate store request w in
     Bulk.documentId request <> EmptyString -> tl <> EmptyString ->
     findMetadata store (Bulk.documentId request) = Some metadata ->
     0 < count ->
     (100 < count ->
        answer = (Bulk.TooLarge "Document too large for immediate translation"
                    (mkRef (title metadata) "en" fmt true) count
                    (ceilDiv (count * 3) 60) (orElse (language metadata) "en"), w)
        /\ count * 3 <= 60 * ceilDiv (count * 3) 60 < count * 3 + 60
        /\ In "documentInfo.chunks" (Bulk.errorPayload (fst answer))
        /\ In "documentInfo.estimatedTime" (Bulk.errorPayload (fst answer))
        /\ In "fallbackOptions.downloadUrl" (Bulk.errorPayload (fst answer)))
     /\ (count <= 100 -> Bulk.status (fst answer) <> 413))
  /\
  (forall (request : Download.Request) (docId tl fmt : string),
     let count := length (findChunks store docId) in
     let answer := Download.GET md5 translate store request w in
     Download.present (Download.documentId request) = Some docId ->
     Download.present (Download.targetLanguage request) = Some tl ->
     Download.present (Download.format request) = Some fmt ->
     String.eqb fmt "pdf" || String.eqb fmt "docx" = true ->
     findMetadataWithChunks store docId = Some metadata ->
     0 < count ->
     (50 < count -> Download.skipTranslation request = false ->
        answer = (Download.TooLarge "Document too large for direct download"
                    "Use the translation interface to process this document in smaller batches."
                    count, w)
        /\ Download.errorPayload (fst answer)
           = ["error"; "message"; "recommendation"; "chunks"])
     /\ (count <= 50 \/ Download.skipTranslation request = true ->
         Download.status (fst answer) = 200)).
Proof.
  split.
  - intros request. cbv zeta. intros Hid Htl Hmeta Hpos.
    unfold Bulk.POST. apply truthy_true in Hid, Htl.
    rewrite Hid, Htl, Hmeta. simpl negb. cbv iota.
    destruct (Nat.eqb_spec (length (findChunks store (title metadata))) 0); [lia |].
    split.
    + intros Hbig. apply Nat.ltb_lt in Hbig. rewrite Hbig.
      split; [reflexivity |]. split.
      * unfold ceilDiv.
        pose proof (Nat.div_mod_eq
                      (length (findChunks store (title metadata)) * 3 + (60 - 1)) 60).
        pose proof (Nat.mod_upper_bound
                      (length (findChunks store (title metadata)) * 3 + (60 - 1)) 60).
        lia.
      * simpl. tauto.
    + intros Hsmall. apply Nat.ltb_ge in Hsmall. rewrite Hsmall.
      destruct (String.eqb _ _); [simpl; lia |].
      pose proof (translateText_outcome md5 translate "test"
                    (default "en" (Bulk.targetLanguage request))
                    (orElse (language metadata) "en") w) as Hprobe.
      destruct (Bulk.translateText _ _ _ _ _ w) as [r w1]. simpl in Hprobe. subst r.
      destruct (String.eqb _ "test"); [simpl; lia |].
      destruct (Bulk.chunkLoop _ _ _ _ _ _ _ _ w1). simpl. lia.
  - intros request docId tl fmt. cbv zeta. intros Hid Htl Hfmt Hbin Hmeta Hpos.
    rewrite (GET_binary md5 translate store request w metadata docId tl fmt
               Hid Htl Hfmt Hbin Hmeta Hpos).
    split.
    + intros Hbig Hskip. apply Nat.ltb_lt in Hbig. rewrite Hbig, Hskip.
      split; reflexivity.
    + intros Hok.
      assert (Hgate : (50 <? length (findChunks store docId))
                      && negb (Download.skipTranslation request) = false).
      { destruct Hok as [Hsmall | Hskip].
        - apply Nat.ltb_ge in Hsmall. now rewrite Hsmall.
        - rewrite Hskip. apply andb_false_r. }
      rewrite Hgate. destruct (Download.skipTranslation request || _); reflexivity.
Qed.

Lemma C3_admission_by_chunk_count_witness :
  Bulk.POST Sample.digest Sample.spanish (Sample.storeOf (Sample.manyChunks 101))
    Sample.notesRequest Sample.fresh
  = (Bulk.TooLarge "Document too large for immediate translation"
       (mkRef "notes.txt" "en" "txt" true) 101 6 "en", Sample.fresh).
Proof.
  refine (proj1 (proj1 (proj1 (C3_admission_by_chunk_count Sample.digest Sample.spanish
                                 (Sample.storeOf (Sample.manyChunks 101)) Sample.fresh
                                 (mkMetadata "notes.txt" "en"))
                          Sample.notesRequest _ _ _ _) _)).
  - discriminate.
  - discriminate.
  - reflexivity.
  - vm_compute. lia.
  - vm_compute. lia.
Defined.


(** ** The availability probe *)

(** C4.  On the bulk route, a request that passes the checks before the
    probe runs the chunk translator once on the constant ["test"]; the
    service counts as unavailable exactly when the text comes back
    unchanged.  Then the answer is the unavailable outcome, with the
    retry-after guidance and the link to the untranslated original, and
    the world is the one the probe left: no chunk is processed, no wait is
    made, and no provider call beyond the one the probe may have made.
    Otherwise every chunk is processed, starting from the world the probe
    left. *)
Theorem C4_probe_gate_is_all_or_nothing (md5 : string -> string) (translate : Provider)
    (store : Store) (request : Bulk.Request) (w : World) (metadata : Metadata) :
  let tl := default "en" (Bulk.targetLanguage request) in
  let sl := orElse (language metadata) "en" in
  let fmt := default "txt" (Bulk.format request) in
  let chunks := findChunks store (title metadata) in
  let probe := Bulk.translateText md5 translate "test" tl sl w in
  let answer := Bulk.POST md5 translate store request w in
  Bulk.documentId request <> EmptyString -> tl <> EmptyString ->
  findMetadata store (Bulk.documentId request) = Some metadata ->
  0 < length chunks <= 100 -> tl <> sl ->
  (fst probe = Normal "test" ->
     answer = (Bulk.Unavailable "Translation service temporarily unavailable"
                 (mkRef (title metadata) "en" fmt true) "10-15 minutes"
                 (length chunks) sl, snd probe)
     /\ sleeps (snd answer) = sleeps w
     /\ providerCalls w <= providerCalls (snd answer) <= S (providerCalls w))
  /\ (fst probe <> Normal "test" ->
        exists body,
          answer = (Bulk.Complete body (title metadata) tl sl fmt (length chunks),
                    snd (Bulk.chunkLoop md5 translate chunks tl sl (length chunks) 0 []
                           (snd probe)))).
Proof.
  cbv zeta. intros Hid Htl Hmeta Hlen Hdiff.
  rewrite (POST_admitted md5 translate store request w metadata Hid Htl Hmeta Hlen Hdiff).
  rewrite translateText_outcome.
  pose proof (translateText_world md5 translate "test"
                (default "en" (Bulk.targetLanguage request))
                (orElse (language metadata) "en") w) as [Hs Hc].
  split.
  - intros Hun. injection Hun as Hun. rewrite Hun. simpl. auto.
  - intros Hav.
    destruct (String.eqb_spec
                (perChunkOutcome md5 translate "test"
                   (default "en" (Bulk.targetLanguage request))
                   (orElse (language metadata) "en") w) "test") as [E|_];
      [now rewrite E in Hav |].
    eexists. reflexivity.
Qed.

Lemma C4_probe_gate_is_all_or_nothing_witness :
  Bulk.POST Sample.digest Sample.throttled (Sample.storeOf Sample.notes)
    Sample.notesRequest Sample.fresh
  = (Bulk.Unavailable "Translation service temporarily unavailable"
       (mkRef "notes.txt" "en" "txt" true) "10-15 minutes" 3 "en",
     snd (Bulk.translateText Sample.digest Sample.throttled "test" "es" "en" Sample.fresh)).
Proof.
  refine (proj1 (proj1 (C4_probe_gate_is_all_or_nothing Sample.digest Sample.throttled
                          (Sample.storeOf Sample.notes) Sample.notesRequest Sample.fresh
                          (mkMetadata "notes.txt" "en") _ _ _ _ _) _)).
  - discriminate.
  - discriminate.
  - reflexivity.
  - simpl. lia.
  - discriminate.
  - reflexivity.
Defined.


(** ** A document without chunks *)

(** C10 as the specification states it does not hold: the answer for a
    document without chunks is an error payload. *)
Lemma C10_no_chunks_is_an_error :
  ~ (forall (store : Store) (request : Bulk.Request) (w : World) (metadata : Metadata),
       Bulk.documentId request <> EmptyString ->
       findMetadata store (Bulk.documentId request) = Some metadata ->
       findChunks store (title metadata) = [] ->
       Bulk.hasError (fst (Bulk.POST Sample.digest Sample.spanish store request w))
       = false).
Proof.
  intros H.
  specialize (H (Sample.storeOf []) (Bulk.mkRequest "notes.txt" (Some "es") None)
                Sample.fresh (mkMetadata "notes.txt" "en")
                ltac:(discriminate) eq_refl eq_refl).
  vm_compute in H. discriminate H.
Qed.

(** C10, amended.  For a document whose metadata is found but whose store
    returns no chunk, both routes answer with the error "No document
    chunks found" and status 404; the world is left as it was. *)
Theorem C10_no_chunks_is_not_found (md5 : string -> string) (translate : Provider)
    (store : Store) (w : World) (metadata : Metadata) :
  (forall request : Bulk.Request,
     Bulk.documentId request <> EmptyString ->
     default "en" (Bulk.targetLanguage request) <> EmptyString ->
     findMetadata store (Bulk.documentId request) = Some metadata ->
     findChunks store (title metadata) = [] ->
     Bulk.POST md5 translate store request w
       = (Bulk.NotFound "No document chunks found", w)
     /\ Bulk.status (Bulk.NotFound "No document chunks found") = 404)
  /\
  (forall (request : Download.Request) (docId tl fmt : string),
     Download.present (Download.documentId request) = Some docId ->
     Download.present (Download.targetLanguage request) = Some tl ->
     Download.present (Download.format request) = Some fmt ->
     String.eqb fmt "pdf" || String.eqb fmt "docx" = true ->
     findMetadataWithChunks store docId = Some metadata ->
     findChunks store docId = [] ->
     Download.GET md5 translate store request w
       = (Download.NotFound "No document chunks found", w)
     /\ Download.status (Download.NotFound "No document chunks found") = 404).
Proof.
  split.
  - intros request Hid Htl Hmeta Hnone. split; [| reflexivity].
    unfold Bulk.POST. apply truthy_true in Hid, Htl.
    now rewrite Hid, Htl, Hmeta, Hnone.
  - intros request docId tl fmt Hid Htl Hfmt Hbin Hmeta Hnone. split; [| reflexivity].
    unfold Download.GET. now rewrite Hid, Htl, Hfmt, Hbin, Hmeta, Hnone.
Qed.

Lemma C10_no_chunks_is_not_found_witness :
  Bulk.POST Sample.digest Sample.spanish (Sample.storeOf []) Sample.notesRequest
    Sample.fresh
  = (Bulk.NotFound "No document chunks found", Sample.fresh).
Proof.
  refine (proj1 (proj1 (C10_no_chunks_is_not_found Sample.digest Sample.spanish
                          (Sample.storeOf []) Sample.fresh (mkMetadata "notes.txt" "en"))
                   Sample.notesRequest _ _ _ _)).
  - discriminate.
  - discriminate.
  - reflexivity.
  - reflexivity.
Defined.


(** ** Retries *)


(** The same input, evaluated: one provider call, no wait, the original
    text, and [retryCount] still 0. *)
Lemma rate_limited_chunk_is_tried_once :
  Bulk.translateChunk Sample.digest Sample.throttled "es" "en" (mkChunk 0 "Hello.")
    Sample.fresh
  = ("Hello.", 0, mkWorld ∅ 0 1 1 []).
Proof. reflexivity. Qed.



(** ** Pacing *)

(** C8 as the specification states it does not hold on the download route:
    the wait after a chunk served from the cache is 2000 ms, not 100 ms. *)
Lemma C8_download_waits_2s_after_a_cache_hit :
  ~ (forall (chunks : list Chunk) (tl sl : string) (w : World) (i : nat) (c : Chunk),
       chunks !! i = Some c -> i < length chunks - 1 ->
       servedFromCache Sample.digest (content c) tl sl
         (downloadWorldBefore Sample.digest Sample.spanish chunks tl sl i w) <> None ->
       sleeps (downloadWorldBefore Sample.digest Sample.spanish chunks tl sl (S i) w)
       = sleeps (downloadWorldBefore Sample.digest Sample.spanish chunks tl sl i w)
         ++ [100]).
Proof.
  intros H.
  specialize (H Sample.repeated "es" "en" Sample.fresh 1 (mkChunk 1 "Hello.") eq_refl
                ltac:(simpl; lia)).
  vm_compute in H. specialize (H ltac:(discriminate)). discriminate H.
Qed.

(** C8, amended.  In the chunk loop of each route, one wait follows every
    chunk but the last, and none follows the last.  On the download route
    the wait is 2000 ms, whether or not the chunk was served from the
    cache.  On the bulk route the wait is 100 ms or 2000 ms: 100 ms when
    the chunk was served from the cache, 2000 ms when the provider call for
    the chunk failed or returned an empty or unchanged text. *)
Theorem C8_pacing_between_chunks (md5 : string -> string) (translate : Provider)
    (chunks : list Chunk) (tl sl : string) (w : World) (i : nat) (c : Chunk) :
  let Wb := fun i => bulkWorldBefore md5 translate chunks tl sl i w in
  let Wd := fun i => downloadWorldBefore md5 translate chunks tl sl i w in
  chunks !! i = Some c ->
  (i = length chunks - 1 ->
     sleeps (Wb (S i)) = sleeps (Wb i) /\ sleeps (Wd (S i)) = sleeps (Wd i))
  /\ (i < length chunks - 1 ->
      sleeps (Wd (S i)) = sleeps (Wd i) ++ [2000]
      /\ exists delay,
           sleeps (Wb (S i)) = sleeps (Wb i) ++ [delay]
           /\ (delay = 100 \/ delay = 2000)
           /\ (servedFromCache md5 (content c) tl sl (Wb i) <> None -> delay = 100)
           /\ (forall answer,
                 providerAnswer md5 translate (content c) tl sl (Wb i) = Some answer ->
                 match answer with
                 | Throw _ => True
                 | Normal r => r = EmptyString \/ r = content c
                 end ->
                 delay = 2000)).
Proof.
  cbv beta zeta. intros Hc.
  rewrite (bulk_worldBefore_S md5 translate chunks tl sl i c w Hc).
  rewrite (download_worldBefore_S md5 translate chunks tl sl i c w Hc).
  unfold bulkStep, downloadStep.
  set (wb := bulkWorldBefore md5 translate chunks tl sl i w).
  set (wd := downloadWorldBefore md5 translate chunks tl sl i w).
  pose proof (translateText_world md5 translate (content c) tl sl wb) as [Hsb _].
  pose proof (translateText_world md5 translate (content c) tl sl wd) as [Hsd _].
  cbv zeta in Hsb, Hsd.
  split.
  - intros Hlast. rewrite Hlast, Nat.ltb_irrefl. now split.
  - intros Hmid. apply Nat.ltb_lt in Hmid. rewrite Hmid.
    split; [simpl; now rewrite Hsd |].
    rewrite bulk_pace_sleeps, Hsb. eexists. split; [reflexivity |].
    repeat split.
    + destruct (fst _); auto.
    + intros Hserved.
      destruct (servedFromCache md5 (content c) tl sl wb) as [v|] eqn:Ev;
        [| contradiction].
      rewrite (getCachedTranslation_by_cache md5 (content c) tl sl _ wb
                 (translateText_cache_served md5 translate _ _ _ _ _ Ev)).
      unfold servedFromCache in Ev.
      destruct (nothingToTranslate (content c) tl sl); [discriminate |].
      now rewrite Ev.
    + intros answer Hans Hfail.
      rewrite (getCachedTranslation_by_cache md5 (content c) tl sl _ wb
                 (translateText_cache_failed md5 translate _ _ _ _ _ Hans Hfail)).
      unfold providerAnswer in Hans.
      destruct (nothingToTranslate (content c) tl sl); [discriminate |].
      destruct (fst (TranslationCache.getCachedTranslation md5 (content c) tl sl wb));
        [discriminate | reflexivity].
Qed.

Lemma C8_pacing_between_chunks_witness :
  sleeps (downloadWorldBefore Sample.digest Sample.spanish Sample.repeated "es" "en" 2
            Sample.fresh)
  = sleeps (downloadWorldBefore Sample.digest Sample.spanish Sample.repeated "es" "en" 1
              Sample.fresh) ++ [2000].
Proof.
  refine (proj1 (proj2 (C8_pacing_between_chunks Sample.digest Sample.spanish
                          Sample.repeated "es" "en" Sample.fresh 1 (mkChunk 1 "Hello.") _)
                   _)).
  - reflexivity.
  - simpl. lia.
Defined.


(** On the bulk route the wait is 100 ms also after a chunk that the
    provider translated: the cache is asked after the translation was
    stored.  Here chunk 0 is translated by the provider and chunk 1 fails. *)
Lemma bulk_wait_after_provider_call :
  providerAnswer Sample.digest Sample.spanish "Hello." "es" "en"
    (snd (Bulk.translateText Sample.digest Sample.spanish "test" "es" "en" Sample.fresh))
    = Some (Normal "Hola.")
  /\ sleeps (snd (Bulk.POST Sample.digest Sample.spanish (Sample.storeOf Sample.notes)
                    Sample.notesRequest Sample.fresh)) = [100; 2000].
Proof. split; reflexivity. Qed.



(** * Further properties *)

(** ** The cache as an ordered map *)

Lemma JsMap_get_set (key key' value : string) (m : JsMap.t) :
  JsMap.get key' (JsMap.set key value m)
  = if String.eqb key key' then Some value else JsMap.get key' m.
Proof.
  induction m as [|[k v] m IH]; simpl.
  - reflexivity.
  - destruct (String.eqb_spec k key) as [->|Hk]; simpl.
    + destruct (String.eqb_spec key key'); reflexivity.
    + destruct (String.eqb_spec k key') as [->|Hk'].
      * apply String.eqb_neq in Hk. rewrite String.eqb_sym in Hk. now rewrite Hk.
      * exact IH.
Qed.

Lemma JsMap_get_unordered (key : string) (m : JsMap.t) :
  JsMap.unordered m !! key = JsMap.get key m.
Proof.
  unfold JsMap.unordered. induction m as [|[k v] m IH]; simpl.
  - apply lookup_empty.
  - destruct (String.eqb_spec k key) as [->|Hk].
    + apply lookup_insert_eq.
    + rewrite lookup_insert_ne by assumption. exact IH.
Qed.

Lemma JsMap_get_None (key : string) (m : JsMap.t) :
  JsMap.get key m = None <-> key ∉ JsMap.keys m.
Proof.
  unfold JsMap.keys. induction m as [|[k v] m IH]; simpl.
  - split; [intros _; apply not_elem_of_nil | reflexivity].
  - rewrite not_elem_of_cons. destruct (String.eqb_spec k key) as [->|Hk].
    + split; [discriminate | intros [H _]; contradiction].
    + rewrite IH. split; [intros H; split; [congruence | exact H] | intros [_ H]; exact H].
Qed.

Lemma JsMap_keys_set_present (key value : string) (m : JsMap.t) :
  key ∈ JsMap.keys m -> JsMap.keys (JsMap.set key value m) = JsMap.keys m.
Proof.
  unfold JsMap.keys. induction m as [|[k v] m IH]; simpl.
  - intros H. now apply elem_of_nil in H.
  - intros H. destruct (String.eqb_spec k key) as [->|Hk]; [reflexivity |].
    simpl. f_equal. apply IH. apply elem_of_cons in H as [H|H]; [congruence | exact H].
Qed.

Lemma JsMap_set_absent (key value : string) (m : JsMap.t) :
  key ∉ JsMap.keys m -> JsMap.set key value m = m ++ [(key, value)].
Proof.
  unfold JsMap.keys. induction m as [|[k v] m IH]; simpl; [reflexivity |].
  intros H. apply not_elem_of_cons in H as [Hk H].
  destruct (String.eqb_spec k key) as [->|_]; [contradiction |].
  now rewrite IH.
Qed.

Lemma JsMap_set_wellFormed (key value : string) (m : JsMap.t) :
  JsMap.wellFormed m -> JsMap.wellFormed (JsMap.set key value m).
Proof.
  unfold JsMap.wellFormed. intros Hm.
  destruct (decide (key ∈ JsMap.keys m)) as [Hin|Hout].
  - now rewrite JsMap_keys_set_present.
  - rewrite JsMap_set_absent by assumption. unfold JsMap.keys in *.
    rewrite map_app. simpl. rewrite Permutation_app_comm. simpl.
    now apply NoDup_cons.
Qed.

(** Deleting the first keys of a map, oldest first, drops its first
    entries. *)
Lemma JsMap_delete_oldest (n : nat) (m : JsMap.t) :
  JsMap.wellFormed m ->
  foldl (fun acc key => JsMap.delete key acc) m (take n (JsMap.keys m)) = drop n m.
Proof.
  unfold JsMap.wellFormed, JsMap.keys. revert m.
  induction n as [|n IH]; intros [|[k v] m] Hm; simpl; try reflexivity.
  rewrite String.eqb_refl. apply IH. now apply NoDup_cons in Hm as [_ Hm].
Qed.

Lemma JsMap_get_app (key : string) (l1 l2 : JsMap.t) :
  key ∉ JsMap.keys l1 -> JsMap.get key (l1 ++ l2) = JsMap.get key l2.
Proof.
  unfold JsMap.keys. induction l1 as [|[k v] l1 IH]; simpl; [reflexivity |].
  intros H. apply not_elem_of_cons in H as [Hk H].
  destruct (String.eqb_spec k key) as [->|_]; [contradiction | auto].
Qed.

Lemma JsMap_size_set_present (key value : string) (m : JsMap.t) :
  key ∈ JsMap.keys m -> JsMap.size (JsMap.set key value m) = JsMap.size m.
Proof.
  intros H. unfold JsMap.size.
  pose proof (JsMap_keys_set_present key value m H) as Hk.
  apply (f_equal length) in Hk. unfold JsMap.keys in Hk.
  now rewrite !length_map in Hk.
Qed.

(** The sweep of a cache above the ceiling. *)
Lemma cleanCacheIfNeeded_big (m : JsMap.t) :
  JsMap.wellFormed m -> MAX_CACHE_SIZE < JsMap.size m ->
  cleanCacheIfNeeded m = drop 100 m
  /\ (forall key, key ∈ take 100 (JsMap.keys m) ->
                  JsMap.get key (cleanCacheIfNeeded m) = None)
  /\ (forall key, key ∉ take 100 (JsMap.keys m) ->
                  JsMap.get key (cleanCacheIfNeeded m) = JsMap.get key m).
Proof.
  unfold cleanCacheIfNeeded. intros Hwf Hbig.
  apply Nat.ltb_lt in Hbig. rewrite Hbig. cbv zeta.
  rewrite JsMap_delete_oldest by assumption.
  split; [reflexivity |].
  unfold JsMap.wellFormed in Hwf.
  rewrite <- (take_drop 100 (JsMap.keys m)) in Hwf.
  apply NoDup_app in Hwf as (_ & Hsep & _).
  split.
  - intros key Hin. apply JsMap_get_None. unfold JsMap.keys at 1.
    change (map fst (drop 100 m)) with (fst <$> drop 100 m).
    rewrite fmap_drop. now apply Hsep.
  - intros key Hout. rewrite <- (take_drop 100 m) at 2.
    symmetry. apply JsMap_get_app. unfold JsMap.keys in *.
    change (map fst (take 100 m)) with (fst <$> take 100 m).
    now rewrite fmap_take.
Qed.

(** The sweep leaves a cache of at most 1000 entries as it is.  From a
    larger cache it removes exactly the 100 entries inserted first: the
    size goes down by 100 (so a cache above 1100 entries stays above the
    ceiling), the removed keys are gone, and every other key keeps its
    value. *)
Theorem eviction_drops_the_oldest_hundred (m : JsMap.t) :
  (JsMap.size m <= MAX_CACHE_SIZE -> cleanCacheIfNeeded m = m)
  /\ (JsMap.wellFormed m -> MAX_CACHE_SIZE < JsMap.size m ->
      cleanCacheIfNeeded m = drop 100 m
      /\ JsMap.size (cleanCacheIfNeeded m) = JsMap.size m - 100
      /\ (forall key, key ∈ take 100 (JsMap.keys m) ->
                      JsMap.get key (cleanCacheIfNeeded m) = None)
      /\ (forall key, key ∉ take 100 (JsMap.keys m) ->
                      JsMap.get key (cleanCacheIfNeeded m) = JsMap.get key m)).
Proof.
  split.
  - unfold cleanCacheIfNeeded. intros Hsmall.
    apply Nat.ltb_ge in Hsmall. now rewrite Hsmall.
  - intros Hwf Hbig.
    destruct (cleanCacheIfNeeded_big m Hwf Hbig) as (Hdrop & Hgone & Hkept).
    split; [exact Hdrop |]. split; [rewrite Hdrop; apply length_drop |].
    split; assumption.
Qed.

Lemma eviction_drops_the_oldest_hundred_witness :
  JsMap.size (cleanCacheIfNeeded (Fixture.cacheOf 1001)) = 1001 - 100.
Proof.
  refine (proj1 (proj2 (proj2 (eviction_drops_the_oldest_hundred (Fixture.cacheOf 1001))
                          _ _))).
  - unfold JsMap.wellFormed. apply (bool_decide_unpack _). vm_compute. exact I.
  - vm_compute. lia.
Defined.

(** Eviction goes by insertion order, not by use: an entry among the 100
    oldest that is overwritten just before the sweep is removed all the
    same. *)
Theorem eviction_ignores_recent_writes (m : JsMap.t) (key value : string) :
  JsMap.wellFormed m -> MAX_CACHE_SIZE < JsMap.size m ->
  key ∈ take 100 (JsMap.keys m) ->
  JsMap.get key (JsMap.set key value m) = Some value
  /\ JsMap.get key (cleanCacheIfNeeded (JsMap.set key value m)) = None.
Proof.
  intros Hwf Hbig Hin.
  assert (Hpresent : key ∈ JsMap.keys m).
  { rewrite <- (take_drop 100 (JsMap.keys m)). apply elem_of_app. now left. }
  split; [rewrite JsMap_get_set, String.eqb_refl; reflexivity |].
  apply (cleanCacheIfNeeded_big (JsMap.set key value m)).
  - now apply JsMap_set_wellFormed.
  - now rewrite JsMap_size_set_present.
  - now rewrite JsMap_keys_set_present.
Qed.

Lemma eviction_ignores_recent_writes_witness :
  JsMap.get "7" (cleanCacheIfNeeded (JsMap.set "7" "fresh" (Fixture.cacheOf 1001))) = None.
Proof.
  refine (proj2 (eviction_ignores_recent_writes (Fixture.cacheOf 1001) "7" "fresh" _ _ _)).
  - unfold JsMap.wellFormed. apply (bool_decide_unpack _). vm_compute. exact I.
  - vm_compute. lia.
  - apply (bool_decide_unpack _). vm_compute. exact I.
Defined.

(** The ordered map and the finite map of [World] agree: a lookup finds
    the same value in both, [set] is the insertion, the sizes are equal,
    and [set] keeps the keys distinct. *)
Theorem ordered_map_refines_finite_map (m : JsMap.t) (key value : string) :
  (forall k, JsMap.unordered m !! k = JsMap.get k m)
  /\ JsMap.unordered (JsMap.set key value m) = <[key := value]> (JsMap.unordered m)
  /\ (JsMap.wellFormed m ->
      size (JsMap.unordered m) = JsMap.size m
      /\ JsMap.wellFormed (JsMap.set key value m)).
Proof.
  split; [intros k; apply JsMap_get_unordered |]. split.
  - apply map_eq. intros k. rewrite JsMap_get_unordered, JsMap_get_set.
    destruct (String.eqb_spec key k) as [->|Hk].
    + now rewrite lookup_insert_eq.
    + now rewrite lookup_insert_ne, JsMap_get_unordered.
  - intros Hwf. split; [| now apply JsMap_set_wellFormed].
    now apply map_size_list_to_map.
Qed.

Lemma ordered_map_refines_finite_map_witness :
  size (JsMap.unordered (Fixture.cacheOf 5)) = 5.
Proof.
  refine (proj1 (proj2 (proj2 (ordered_map_refines_finite_map (Fixture.cacheOf 5)
                                 "k" "v")) _)).
  unfold JsMap.wellFormed. apply (bool_decide_unpack _). vm_compute. exact I.
Defined.

(** ** The cache counters *)


(** After [clearCache] the statistics are all zero and every lookup
    misses. *)
Theorem clearCache_forgets_everything (md5 : string -> string) (w : World)
    (text tl sl : string) :
  TranslationCache.getCacheStats (TranslationCache.clearCache w)
    = TranslationCache.mkStats 0 0 0 (inject_Z 0)
  /\ fst (TranslationCache.getCachedTranslation md5 text tl sl
            (TranslationCache.clearCache w)) = None.
Proof.
  split.
  - unfold TranslationCache.getCacheStats, TranslationCache.clearCache. simpl.
    now rewrite map_size_empty.
  - unfold TranslationCache.getCachedTranslation, TranslationCache.clearCache. simpl.
    now rewrite lookup_empty.
Qed.

(** A store touches one key only: the counters stay, every other key
    keeps its entry, and the cache grows by one entry at most. *)
Theorem store_touches_one_key (md5 : string -> string)
    (text translatedText tl sl : string) (w : World) :
  let w' := TranslationCache.setCachedTranslation md5 text translatedText tl sl w in
  cacheHits w' = cacheHits w /\ cacheMisses w' = cacheMisses w
  /\ (forall key, key <> TranslationCache.getCacheKey md5 text tl sl ->
                  translationCache w' !! key = translationCache w !! key)
  /\ size (translationCache w) <= size (translationCache w')
     <= S (size (translationCache w)).
Proof.
  cbv zeta. unfold TranslationCache.setCachedTranslation.
  destruct (_ || _); simpl.
  - repeat split; auto.
  - repeat split; auto.
    + intros key Hkey. now rewrite lookup_insert_ne.
    + destruct (translationCache w !! TranslationCache.getCacheKey md5 text tl sl) eqn:E.
      * rewrite map_size_insert_Some by (rewrite E; eauto). lia.
      * rewrite map_size_insert_None by exact E. lia.
    + destruct (translationCache w !! TranslationCache.getCacheKey md5 text tl sl) eqn:E.
      * rewrite map_size_insert_Some by (rewrite E; eauto). lia.
      * rewrite map_size_insert_None by exact E. lia.
Qed.

(** ** The per-chunk translator, further *)

Lemma trim_allSpace (s : string) : JS.allSpace s = true -> JS.trim s = EmptyString.
Proof.
  intros H. unfold JS.trim.
  assert (Hs : JS.trimStart s = EmptyString).
  { induction s as [|a s IH]; simpl in *; [reflexivity |].
    apply andb_true_iff in H as [Ha H]. rewrite Ha. auto. }
  now rewrite Hs.
Qed.

Lemma length_toLowerCase (s : string) :
  String.length (JS.toLowerCase s) = String.length s.
Proof. induction s as [|a s IH]; simpl; [reflexivity | now rewrite IH]. Qed.

Lemma sameModuloCase_refl (s : string) : JS.sameModuloCase s s = true.
Proof.
  induction s as [|a s IH]; simpl; [reflexivity |].
  rewrite IH, andb_true_r. now apply bool_decide_eq_true.
Qed.

Section TranslatorMore.

Variable md5 : string -> string.
Variable translate : Provider.

Local Abbreviation getCachedTranslation := (TranslationCache.getCachedTranslation md5).

Lemma providerAnswer_something (text tl sl : string) (w : World) (a : Completion string) :
  providerAnswer md5 translate text tl sl w = Some a ->
  nothingToTranslate text tl sl = false
  /\ fst (getCachedTranslation text tl sl w) = None
  /\ a = translate (providerCalls w) text sl tl.
Proof.
  unfold providerAnswer.
  destruct (nothingToTranslate text tl sl); [discriminate |].
  destruct (fst (getCachedTranslation text tl sl w)); [discriminate |].
  intros [= <-]. auto.
Qed.

Lemma nothingToTranslate_false (text tl sl : string) :
  nothingToTranslate text tl sl = false ->
  tl <> sl /\ text <> EmptyString /\ JS.trim text <> EmptyString.
Proof.
  unfold nothingToTranslate. intros H.
  apply orb_false_iff in H as [H Hblank]. apply orb_false_iff in H as [Hsame Hempty].
  apply String.eqb_neq in Hsame. apply negb_false_iff, truthy_true in Hempty.
  apply Nat.eqb_neq in Hblank. repeat split; try assumption.
  intros E. now rewrite E in Hblank.
Qed.

(** The cache after a call that the provider answered with a translation. *)
Lemma translateText_cache_translated (text tl sl r : string) (w : World) :
  providerAnswer md5 translate text tl sl w = Some (Normal r) ->
  r <> EmptyString -> r <> text ->
  translationCache (snd (Bulk.translateText md5 translate text tl sl w))
  = <[TranslationCache.getCacheKey md5 text tl sl := r]> (translationCache w).
Proof.
  intros Hans Hr Hne.
  apply providerAnswer_something in Hans as (Hnothing & Hmiss & Heq).
  pose proof (nothingToTranslate_false _ _ _ Hnothing) as (_ & Htext & _).
  unfold Bulk.translateText. unfold nothingToTranslate in Hnothing. rewrite Hnothing.
  pose proof (getCachedTranslation_world md5 text tl sl w) as (Hcache & Hcalls & _).
  destruct (getCachedTranslation text tl sl w) as [[c|] w1]; simpl in *;
    [discriminate |].
  unfold Bulk.tryTranslate. rewrite Hcalls, <- Heq.
  apply truthy_true in Hr as Hr'. apply String.eqb_neq in Hne as Hne'.
  rewrite Hr', Hne'. simpl.
  rewrite setCachedTranslation_stores by congruence. simpl. now rewrite Hcache.
Qed.

(** What [translateText] adds to the lookup count. *)
Lemma translateText_lookups (text tl sl : string) (w : World) :
  lookups (snd (Bulk.translateText md5 translate text tl sl w))
  = lookups w + (if nothingToTranslate text tl sl then 0 else 1).
Proof.
  unfold Bulk.translateText, nothingToTranslate, lookups.
  destruct (_ || _); [simpl; lia |].
  assert (Hl : cacheHits (snd (getCachedTranslation text tl sl w))
               + cacheMisses (snd (getCachedTranslation text tl sl w))
               = cacheHits w + cacheMisses w + 1).
  { unfold TranslationCache.getCachedTranslation. cbv zeta.
    destruct (translationCache w !! _) as [c|]; [destruct (JS.truthy c) |]; simpl; lia. }
  destruct (getCachedTranslation text tl sl w) as [[c|] w1]; simpl in *; [exact Hl |].
  unfold Bulk.tryTranslate.
  destruct (translate _ _ _ _) as [r|e]; [destruct (_ && _) |]; simpl; try exact Hl.
  pose proof (setCachedTranslation_world md5 text r tl sl (called w1)) as (_ & _ & Hh & Hm).
  cbv zeta in Hh, Hm. rewrite Hh, Hm. exact Hl.
Qed.

(** [translateText] keeps empty strings out of the cache. *)
Lemma translateText_noEmptyValue (text tl sl : string) (w : World) :
  noEmptyValue w -> noEmptyValue (snd (Bulk.translateText md5 translate text tl sl w)).
Proof.
  intros Hw. unfold Bulk.translateText.
  destruct (_ || _); [exact Hw |].
  pose proof (getCachedTranslation_world md5 text tl sl w) as (Hcache & _).
  destruct (getCachedTranslation text tl sl w) as [[c|] w1]; simpl in *.
  - intros k v. rewrite Hcache. apply Hw.
  - assert (Hw1 : noEmptyValue (called w1)).
    { intros k v. simpl. rewrite Hcache. apply Hw. }
    unfold Bulk.tryTranslate.
    destruct (translate _ _ _ _) as [r|e]; [| exact Hw1].
    destruct (JS.truthy r) eqn:Hr; simpl; [| exact Hw1].
    destruct (negb (String.eqb r text)); simpl; [| exact Hw1].
    unfold TranslationCache.setCachedTranslation.
    destruct (_ || _); [exact Hw1 |].
    intros k v. simpl. rewrite lookup_insert.
    destruct (decide (TranslationCache.getCacheKey md5 text tl sl = k)).
    + intros [= <-]. now apply truthy_true.
    + rewrite Hcache. apply Hw.
Qed.

Lemma bulk_pace_world (tl sl : string) (chunk : Chunk) (w : World) :
  let w' := Bulk.pace md5 tl sl chunk w in
  translationCache w' = translationCache w
  /\ providerCalls w' = providerCalls w
  /\ lookups w' = S (lookups w).
Proof.
  unfold Bulk.pace, lookups, TranslationCache.getCachedTranslation. cbv zeta.
  destruct (translationCache w !! _) as [c|]; [destruct (JS.truthy c) |]; simpl;
    repeat split; lia.
Qed.

(** The shape of a run of the retry loop around a call that makes one
    provider call and no wait. *)
Lemma retryLoop_shape (u : nat) (attempt : World -> Completion string * World) :
  (forall w, providerCalls w <= providerCalls (snd (attempt w)) <= S (providerCalls w)) ->
  (forall w, sleeps (snd (attempt w)) = sleeps w) ->
  forall (fuel k : nat) (c : string) (w : World),
    k + fuel = MAX_RETRIES ->
    exists j,
      k + j <= MAX_RETRIES
      /\ sleeps (snd (retryLoop u attempt fuel c k w))
         = sleeps w ++ map (fun i => i * u) (seq (S k) j)
      /\ providerCalls w <= providerCalls (snd (retryLoop u attempt fuel c k w))
         <= providerCalls w + Nat.min fuel (S j)
      /\ snd (fst (retryLoop u attempt fuel c k w)) <= MAX_RETRIES.
Proof.
  intros Hcalls Hsleeps. induction fuel as [|fuel IH]; intros k c w Hk.
  - exists 0. simpl. rewrite app_nil_r. repeat split; lia.
  - assert (Hlt : k < MAX_RETRIES) by lia.
    specialize (Hcalls w) as Hc. specialize (Hsleeps w) as Hs.
    destruct (attempt w) as [[t|e] w1] eqn:Ea; simpl in Hc, Hs.
    + rewrite (retryLoop_success u attempt fuel c t k w w1 Hlt Ea).
      exists 0. simpl. rewrite app_nil_r, Hs. repeat split; lia.
    + destruct (isRateLimited e) eqn:Erl.
      * rewrite (retryLoop_rate_limited u attempt fuel c k w w1 e Hlt Ea Erl).
        destruct (IH (S k) c (sleep (S k * u) w1) ltac:(lia))
          as (j & Hj & Hsl & Hcl & Hrc).
        exists (S j). rewrite Hsl.
        change (sleeps (sleep (S k * u) w1)) with (sleeps w1 ++ [S k * u]).
        change (providerCalls (sleep (S k * u) w1)) with (providerCalls w1) in Hcl.
        rewrite Hs, <- app_assoc.
        repeat split; try lia; try reflexivity; try exact Hrc.
      * rewrite (retryLoop_other_failure u attempt fuel c k w w1 e Hlt Ea Erl).
        exists 0. simpl. rewrite app_nil_r, Hs. repeat split; lia.
Qed.

End TranslatorMore.

(** A text with nothing to translate (the two languages are the same, or
    the text is empty or blank) is returned as it is, and the world is
    untouched: no lookup, no provider call. *)
Theorem nothing_to_translate_is_free (md5 : string -> string) (translate : Provider)
    (text tl sl : string) (w : World) :
  tl = sl \/ JS.allSpace text = true ->
  Bulk.translateText md5 translate text tl sl w = (Normal text, w)
  /\ Download.translateText md5 translate text tl sl w = (Normal text, w).
Proof.
  intros H.
  assert (Hguard : String.eqb tl sl || negb (JS.truthy text)
                   || (String.length (JS.trim text) =? 0) = true).
  { destruct H as [-> | Hblank].
    - now rewrite String.eqb_refl.
    - rewrite (trim_allSpace _ Hblank). simpl. apply orb_true_r. }
  unfold Bulk.translateText, Download.translateText. now rewrite Hguard.
Qed.

Lemma nothing_to_translate_is_free_witness :
  Bulk.translateText Sample.digest Sample.throttled "   " "es" "en" Sample.fresh
  = (Normal "   ", Sample.fresh).
Proof.
  refine (proj1 (nothing_to_translate_is_free Sample.digest Sample.throttled "   "
                   "es" "en" Sample.fresh _)).
  right. reflexivity.
Defined.

(** Once the provider has translated a text, the same text, also padded
    with white space or in another letter case, is answered from the cache
    with that translation: the next call makes no provider call, whatever
    the provider would answer, and moves the hit counter only. *)
Theorem translation_is_memoized (md5 : string -> string) (translate later : Provider)
    (text tl sl r l p variant : string) (w : World) :
  providerAnswer md5 translate text tl sl w = Some (Normal r) ->
  r <> EmptyString -> r <> text ->
  JS.allSpace l = true -> JS.allSpace p = true -> JS.sameModuloCase variant text = true ->
  let w1 := snd (Bulk.translateText md5 translate text tl sl w) in
  Bulk.translateText md5 later (l +:+ variant +:+ p) tl sl w1 = (Normal r, hit w1).
Proof.
  intros Hans Hr Hne Hl Hp Hcase. cbv zeta.
  pose proof (translateText_cache_translated md5 translate _ _ _ _ _ Hans Hr Hne) as Hcache.
  apply providerAnswer_something in Hans as (Hnothing & _ & _).
  apply nothingToTranslate_false in Hnothing as (Hlang & _ & Htrim).
  set (w1 := snd (Bulk.translateText md5 translate text tl sl w)) in *.
  assert (Hnorm : JS.toLowerCase (JS.trim (l +:+ variant +:+ p))
                  = JS.toLowerCase (JS.trim text))
    by now apply normalize_padding_case.
  assert (Hlen : String.length (JS.trim (l +:+ variant +:+ p)) <> 0).
  { rewrite <- length_toLowerCase, Hnorm, length_toLowerCase.
    destruct (JS.trim text); [congruence | simpl; lia]. }
  assert (Hfull : l +:+ variant +:+ p <> EmptyString).
  { intros E. rewrite E in Hlen. now apply Hlen. }
  unfold Bulk.translateText.
  apply String.eqb_neq in Hlang. apply truthy_true in Hfull. apply Nat.eqb_neq in Hlen.
  rewrite Hlang, Hfull, Hlen. simpl.
  rewrite (getCachedTranslation_found md5 _ tl sl r w1); [reflexivity | | exact Hr].
  rewrite (getCacheKey_padding_case md5 l variant p text) by assumption.
  rewrite Hcache. apply lookup_insert_eq.
Qed.

Lemma translation_is_memoized_witness :
  Bulk.translateText Sample.digest Sample.throttled "  HELLO. " "es" "en"
    (snd (Bulk.translateText Sample.digest Sample.spanish "Hello." "es" "en" Sample.fresh))
  = (Normal "Hola.",
     hit (snd (Bulk.translateText Sample.digest Sample.spanish "Hello." "es" "en"
                 Sample.fresh))).
Proof.
  refine (translation_is_memoized Sample.digest Sample.spanish Sample.throttled
            "Hello." "es" "en" "Hola." "  " " " "HELLO." Sample.fresh _ _ _ _ _ _);
    (reflexivity || discriminate).
Defined.

(** A failed translation is not remembered: when the provider call fails,
    or returns an empty or unchanged text, the cache stays as it was, and
    the next call for the same text asks the provider again. *)
Theorem failed_translation_is_asked_again (md5 : string -> string) (translate : Provider)
    (text tl sl : string) (w : World) (answer : Completion string) :
  providerAnswer md5 translate text tl sl w = Some answer ->
  match answer with
  | Throw _ => True
  | Normal r => r = EmptyString \/ r = text
  end ->
  let w1 := snd (Bulk.translateText md5 translate text tl sl w) in
  translationCache w1 = translationCache w
  /\ providerAnswer md5 translate text tl sl w1
     = Some (translate (S (providerCalls w)) text sl tl).
Proof.
  intros Hans Hfail. cbv zeta.
  pose proof (translateText_cache_failed md5 translate _ _ _ _ _ Hans Hfail) as Hcache.
  split; [exact Hcache |].
  pose proof (translateText_calls md5 translate text tl sl w) as Hcalls.
  rewrite Hans in Hcalls.
  apply providerAnswer_something in Hans as (Hnothing & Hmiss & _).
  unfold providerAnswer. rewrite Hnothing.
  rewrite (getCachedTranslation_by_cache md5 text tl sl _ w Hcache), Hmiss.
  now rewrite Hcalls.
Qed.

Lemma failed_translation_is_asked_again_witness :
  providerAnswer Sample.digest Sample.throttled "Hello." "es" "en"
    (snd (Bulk.translateText Sample.digest Sample.throttled "Hello." "es" "en"
            Sample.fresh))
  = Some (Sample.throttled 1 "Hello." "en" "es").
Proof.
  refine (proj2 (failed_translation_is_asked_again Sample.digest Sample.throttled
                   "Hello." "es" "en" Sample.fresh (Throw Sample.rateLimited) _ _)).
  - reflexivity.
  - exact I.
Defined.

(** Whatever the awaited call answers, as long as it makes at most one
    provider call and does not wait itself, the retry loop makes at most 3
    provider calls and at most 3 waits, and the waits are 1, 2, ... times
    the unit, in this order: the loop ends after at most 6 units of
    waiting. *)
Theorem retry_loop_is_bounded (u : nat) (attempt : World -> Completion string * World)
    (original : string) (w : World) :
  (forall w, providerCalls w <= providerCalls (snd (attempt w)) <= S (providerCalls w)) ->
  (forall w, sleeps (snd (attempt w)) = sleeps w) ->
  let result := retryLoop u attempt MAX_RETRIES original 0 w in
  exists waits,
    waits <= 3
    /\ sleeps (snd result) = sleeps w ++ map (fun i => i * u) (seq 1 waits)
    /\ providerCalls w <= providerCalls (snd result)
       <= providerCalls w + Nat.min 3 (S waits)
    /\ snd (fst result) <= 3.
Proof.
  intros Hcalls Hsleeps. cbv zeta.
  destruct (retryLoop_shape u attempt Hcalls Hsleeps MAX_RETRIES 0 original w eq_refl)
    as (j & Hj & Hs & Hc & Hr).
  exists j. unfold MAX_RETRIES in *. auto.
Qed.

Lemma retry_loop_is_bounded_witness :
  exists waits,
    waits <= 3
    /\ sleeps (snd (retryLoop 3000 Sample.raising MAX_RETRIES "Hello." 0 Sample.fresh))
       = sleeps Sample.fresh ++ map (fun i => i * 3000) (seq 1 waits).
Proof.
  destruct (retry_loop_is_bounded 3000 Sample.raising "Hello." Sample.fresh
              (fun w => conj (Nat.le_succ_diag_r _) (Nat.le_refl _)) (fun _ => eq_refl))
    as (waits & Hw & Hs & _).
  exists waits. split; assumption.
Defined.

(** ** A whole pass over a document *)

Section PassFacts.

Variable md5 : string -> string.
Variable translate : Provider.
Variable chunks : list Chunk.
Variables tl sl : string.

Local Abbreviation bbefore := (bulkWorldBefore md5 translate chunks tl sl).
Local Abbreviation dbefore := (downloadWorldBefore md5 translate chunks tl sl).
Local Abbreviation bstep := (bulkStep md5 translate chunks tl sl).
Local Abbreviation dstep := (downloadStep md5 translate chunks tl sl).

(** Induction along the chunk loop of the translate route. *)
Lemma bulk_pass_induction (P : nat -> World -> Prop) (w0 : World) :
  P 0 w0 ->
  (forall i c w, chunks !! i = Some c -> P i w -> P (S i) (bstep i c w)) ->
  forall i, i <= length chunks -> P i (bbefore i w0).
Proof.
  intros H0 Hstep. induction i as [|i IH]; intros Hi; [exact H0 |].
  destruct (lookup_lt_is_Some_2 chunks i ltac:(lia)) as [c Hc].
  rewrite (bulk_worldBefore_S md5 translate chunks tl sl i c w0 Hc).
  apply Hstep; [exact Hc | apply IH; lia].
Qed.

(** Induction along the chunk loop of the download route. *)
Lemma download_pass_induction (P : nat -> World -> Prop) (w0 : World) :
  P 0 w0 ->
  (forall i c w, chunks !! i = Some c -> P i w -> P (S i) (dstep i c w)) ->
  forall i, i <= length chunks -> P i (dbefore i w0).
Proof.
  intros H0 Hstep. induction i as [|i IH]; intros Hi; [exact H0 |].
  destruct (lookup_lt_is_Some_2 chunks i ltac:(lia)) as [c Hc].
  rewrite (download_worldBefore_S md5 translate chunks tl sl i c w0 Hc).
  apply Hstep; [exact Hc | apply IH; lia].
Qed.

Lemma bulk_pass_calls (w0 : World) (i : nat) :
  i <= length chunks ->
  providerCalls w0 <= providerCalls (bbefore i w0) <= providerCalls w0 + i.
Proof.
  apply (bulk_pass_induction
           (fun i w => providerCalls w0 <= providerCalls w <= providerCalls w0 + i));
    [lia |].
  intros j c w _ Hw. unfold bulkStep.
  pose proof (translateText_world md5 translate (content c) tl sl w) as [_ Hc].
  cbv zeta in Hc.
  destruct (j <? length chunks - 1); [| lia].
  pose proof (bulk_pace_world md5 tl sl c
                (snd (Bulk.translateText md5 translate (content c) tl sl w)))
    as (_ & Hp & _).
  cbv zeta in Hp. rewrite Hp. lia.
Qed.

Lemma download_pass_calls (w0 : World) (i : nat) :
  i <= length chunks ->
  providerCalls w0 <= providerCalls (dbefore i w0) <= providerCalls w0 + i.
Proof.
  apply (download_pass_induction
           (fun i w => providerCalls w0 <= providerCalls w <= providerCalls w0 + i));
    [lia |].
  intros j c w _ Hw. unfold downloadStep.
  pose proof (translateText_world md5 translate (content c) tl sl w) as [_ Hc].
  cbv zeta in Hc.
  destruct (j <? length chunks - 1); simpl; lia.
Qed.

Lemma bulk_pass_sleeps (w0 : World) (i : nat) :
  i <= length chunks ->
  exists delays,
    sleeps (bbefore i w0) = sleeps w0 ++ delays
    /\ length delays = Nat.min i (length chunks - 1)
    /\ Forall (fun d => d = 100 \/ d = 2000) delays.
Proof.
  apply (bulk_pass_induction
           (fun i w => exists delays,
                sleeps w = sleeps w0 ++ delays
                /\ length delays = Nat.min i (length chunks - 1)
                /\ Forall (fun d => d = 100 \/ d = 2000) delays)).
  - exists []. rewrite app_nil_r. repeat split; constructor.
  - intros j c w Hc (delays & Hs & Hl & Hall). unfold bulkStep.
    pose proof (translateText_world md5 translate (content c) tl sl w) as [Hsl _].
    cbv zeta in Hsl.
    destruct (Nat.ltb_spec j (length chunks - 1)) as [Hlt|Hge].
    + rewrite bulk_pace_sleeps, Hsl, Hs, <- app_assoc.
      eexists. split; [reflexivity |]. split.
      * rewrite length_app. cbn [length]. lia.
      * apply Forall_app. split; [exact Hall |].
        constructor; [| constructor].
        destruct (fst _); [left | right]; reflexivity.
    + exists delays. rewrite Hsl. repeat split; [exact Hs | lia | exact Hall].
Qed.

Lemma download_pass_sleeps (w0 : World) (i : nat) :
  i <= length chunks ->
  sleeps (dbefore i w0) = sleeps w0 ++ replicate (Nat.min i (length chunks - 1)) 2000.
Proof.
  apply (download_pass_induction
           (fun i w => sleeps w
                       = sleeps w0 ++ replicate (Nat.min i (length chunks - 1)) 2000)).
  - simpl. now rewrite app_nil_r.
  - intros j c w Hc Hs. unfold downloadStep.
    pose proof (translateText_world md5 translate (content c) tl sl w) as [Hsl _].
    cbv zeta in Hsl.
    destruct (Nat.ltb_spec j (length chunks - 1)) as [Hlt|Hge].
    + change (sleeps (sleep 2000 ?x)) with (sleeps x ++ [2000]).
      rewrite Hsl, Hs, <- app_assoc. f_equal.
      replace (Nat.min (S j) (length chunks - 1)) with (S j) by lia.
      replace (Nat.min j (length chunks - 1)) with j by lia.
      now rewrite replicate_S_end.
    + rewrite Hsl, Hs. f_equal. f_equal. lia.
Qed.

Lemma translatableCount_step (i : nat) (c : Chunk) :
  chunks !! i = Some c ->
  translatableCount tl sl (take (S i) chunks)
  = translatableCount tl sl (take i chunks)
    + (if nothingToTranslate (content c) tl sl then 0 else 1).
Proof.
  intros Hc. unfold translatableCount.
  rewrite (take_S_r _ _ _ Hc), List.filter_app, length_app. simpl.
  destruct (nothingToTranslate (content c) tl sl); reflexivity.
Qed.

Lemma bulk_pass_lookups (w0 : World) (i : nat) :
  i <= length chunks ->
  lookups (bbefore i w0)
  = lookups w0 + translatableCount tl sl (take i chunks)
    + Nat.min i (length chunks - 1).
Proof.
  apply (bulk_pass_induction
           (fun i w => lookups w
                       = lookups w0 + translatableCount tl sl (take i chunks)
                         + Nat.min i (length chunks - 1))).
  - unfold translatableCount. simpl. lia.
  - intros j c w Hc Hw. unfold bulkStep.
    pose proof (translateText_lookups md5 translate (content c) tl sl w) as Hl.
    rewrite (translatableCount_step j c Hc).
    destruct (Nat.ltb_spec j (length chunks - 1)) as [Hlt|Hge].
    + pose proof (bulk_pace_world md5 tl sl c
                    (snd (Bulk.translateText md5 translate (content c) tl sl w)))
        as (_ & _ & Hp).
      cbv zeta in Hp. rewrite Hp, Hl, Hw. lia.
    + rewrite Hl, Hw. lia.
Qed.

Lemma download_pass_lookups (w0 : World) (i : nat) :
  i <= length chunks ->
  lookups (dbefore i w0) = lookups w0 + translatableCount tl sl (take i chunks).
Proof.
  apply (download_pass_induction
           (fun i w => lookups w = lookups w0 + translatableCount tl sl (take i chunks))).
  - unfold translatableCount. simpl. lia.
  - intros j c w Hc Hw. unfold downloadStep.
    pose proof (translateText_lookups md5 translate (content c) tl sl w) as Hl.
    rewrite (translatableCount_step j c Hc).
    destruct (j <? length chunks - 1).
    + change (lookups (sleep 2000 ?x)) with (lookups x). rewrite Hl, Hw. lia.
    + rewrite Hl, Hw. lia.
Qed.

Lemma bulk_pass_noEmptyValue (w0 : World) (i : nat) :
  i <= length chunks -> noEmptyValue w0 -> noEmptyValue (bbefore i w0).
Proof.
  intros Hi H0. revert i Hi.
  apply (bulk_pass_induction (fun _ w => noEmptyValue w)); [exact H0 |].
  intros j c w _ Hw. unfold bulkStep.
  pose proof (translateText_noEmptyValue md5 translate (content c) tl sl w Hw) as H1.
  destruct (j <? length chunks - 1); [| exact H1].
  pose proof (bulk_pace_world md5 tl sl c
                (snd (Bulk.translateText md5 translate (content c) tl sl w)))
    as (Hp & _).
  cbv zeta in Hp. intros k v. rewrite Hp. apply H1.
Qed.

Lemma download_pass_noEmptyValue (w0 : World) (i : nat) :
  i <= length chunks -> noEmptyValue w0 -> noEmptyValue (dbefore i w0).
Proof.
  intros Hi H0. revert i Hi.
  apply (download_pass_induction (fun _ w => noEmptyValue w)); [exact H0 |].
  intros j c w _ Hw. unfold downloadStep.
  pose proof (translateText_noEmptyValue md5 translate (content c) tl sl w Hw) as H1.
  destruct (j <? length chunks - 1); exact H1.
Qed.

End PassFacts.

Lemma nothingToTranslate_probe (tl sl : string) :
  tl <> sl -> nothingToTranslate "test" tl sl = false.
Proof.
  intros H. unfold nothingToTranslate. apply String.eqb_neq in H. now rewrite H.
Qed.

(** A pass of the translate route over an admitted document of [n]
    chunks makes at most [n + 1] provider calls, the probe included, and
    exactly [n - 1] waits, each of 100 ms or 2000 ms. *)
Theorem bulk_pass_budget (md5 : string -> string) (translate : Provider)
    (store : Store) (request : Bulk.Request) (w : World) (metadata : Metadata) :
  let tl := default "en" (Bulk.targetLanguage request) in
  let sl := orElse (language metadata) "en" in
  let chunks := findChunks store (title metadata) in
  let probe := Bulk.translateText md5 translate "test" tl sl w in
  let w' := snd (Bulk.POST md5 translate store request w) in
  Bulk.documentId request <> EmptyString -> tl <> EmptyString ->
  findMetadata store (Bulk.documentId request) = Some metadata ->
  0 < length chunks <= 100 -> tl <> sl ->
  fst probe <> Normal "test" ->
  providerCalls w <= providerCalls w' <= providerCalls w + length chunks + 1
  /\ exists delays,
       sleeps w' = sleeps w ++ delays
       /\ length delays = length chunks - 1
       /\ Forall (fun d => d = 100 \/ d = 2000) delays.
Proof.
  cbv zeta. intros Hid Htl Hmeta Hlen Hdiff Hprobe.
  rewrite (POST_admitted md5 translate store request w metadata Hid Htl Hmeta Hlen Hdiff).
  rewrite translateText_outcome in Hprobe.
  destruct (String.eqb_spec
              (perChunkOutcome md5 translate "test"
                 (default "en" (Bulk.targetLanguage request))
                 (orElse (language metadata) "en") w) "test") as [E|_];
    [now rewrite E in Hprobe |].
  cbn [snd].
  set (tl := default "en" (Bulk.targetLanguage request)).
  set (sl := orElse (language metadata) "en").
  set (chunks := findChunks store (title metadata)) in *.
  set (w1 := snd (Bulk.translateText md5 translate "test" tl sl w)).
  change (snd (Bulk.chunkLoop md5 translate chunks tl sl (length chunks) 0 [] w1))
    with (bulkWorldBefore md5 translate chunks tl sl (length chunks) w1).
  pose proof (translateText_world md5 translate "test" tl sl w) as [Hs Hc].
  cbv zeta in Hs, Hc. fold w1 in Hs, Hc.
  pose proof (bulk_pass_calls md5 translate chunks tl sl w1 (length chunks) (le_n _)) as Hcalls.
  destruct (bulk_pass_sleeps md5 translate chunks tl sl w1 (length chunks) (le_n _))
    as (delays & Hd & Hl & Hall).
  split; [lia |].
  exists delays. rewrite Hd, Hs. repeat split; [lia | exact Hall].
Qed.

Lemma bulk_pass_budget_witness :
  providerCalls (snd (Bulk.POST Sample.digest Sample.spanish (Sample.storeOf Sample.notes)
                        Sample.notesRequest Sample.fresh))
  <= providerCalls Sample.fresh + length Sample.notes + 1.
Proof.
  refine (proj2 (proj1 (bulk_pass_budget Sample.digest Sample.spanish
                          (Sample.storeOf Sample.notes) Sample.notesRequest Sample.fresh
                          (mkMetadata "notes.txt" "en") _ _ _ _ _ _))).
  - discriminate.
  - discriminate.
  - reflexivity.
  - simpl. lia.
  - discriminate.
  - vm_compute. discriminate.
Defined.

(** A pass of the download route over a document of [n] chunks makes at
    most [n] provider calls and exactly [n - 1] waits of 2000 ms: it lasts
    2 (n - 1) seconds at least, whatever the cache holds. *)
Theorem download_pass_budget (md5 : string -> string) (translate : Provider)
    (store : Store) (request : Download.Request) (w : World) (metadata : Metadata)
    (docId tl fmt : string) :
  let sl := orElse (language metadata) "en" in
  let chunks := findChunks store docId in
  let w' := snd (Download.GET md5 translate store request w) in
  Download.present (Download.documentId request) = Some docId ->
  Download.present (Download.targetLanguage request) = Some tl ->
  Download.present (Download.format request) = Some fmt ->
  String.eqb fmt "pdf" || String.eqb fmt "docx" = true ->
  findMetadataWithChunks store docId = Some metadata ->
  0 < length chunks <= 50 ->
  Download.skipTranslation request = false -> tl <> sl ->
  providerCalls w <= providerCalls w' <= providerCalls w + length chunks
  /\ sleeps w' = sleeps w ++ replicate (length chunks - 1) 2000.
Proof.
  cbv zeta. intros Hid Htl Hfmt Hbin Hmeta Hlen Hskip Hdiff.
  rewrite (GET_binary md5 translate store request w metadata docId tl fmt
             Hid Htl Hfmt Hbin Hmeta (proj1 Hlen)).
  destruct (Nat.ltb_spec 50 (length (findChunks store docId))) as [Hbig|_]; [lia |].
  apply String.eqb_neq in Hdiff. rewrite Hskip, Hdiff. cbn [andb orb snd].
  set (sl := orElse (language metadata) "en").
  set (chunks := findChunks store docId) in *.
  change (snd (Download.chunkLoop md5 translate chunks tl sl (length chunks) 0 [] w))
    with (downloadWorldBefore md5 translate chunks tl sl (length chunks) w).
  split.
  - apply download_pass_calls. lia.
  - rewrite download_pass_sleeps by lia. f_equal. f_equal. lia.
Qed.

Lemma download_pass_budget_witness :
  sleeps (snd (Download.GET Sample.digest Sample.spanish (Sample.storeOf Sample.notes)
                 Sample.notesDownload Sample.fresh))
  = sleeps Sample.fresh ++ replicate (length Sample.notes - 1) 2000.
Proof.
  refine (proj2 (download_pass_budget Sample.digest Sample.spanish
                   (Sample.storeOf Sample.notes) Sample.notesDownload Sample.fresh
                   (mkMetadata "notes.txt" "en") "notes.txt" "es" "pdf"
                   _ _ _ _ _ _ _ _)).
  - reflexivity.
  - reflexivity.
  - reflexivity.
  - reflexivity.
  - reflexivity.
  - simpl. lia.
  - reflexivity.
  - discriminate.
Defined.

(** The lookups a pass adds to the statistics.  The download route looks
    up every chunk that has something to translate once.  The translate
    route looks up the probe, every such chunk, and once more every chunk
    but the last, to choose the wait. *)
Theorem lookups_of_a_pass (md5 : string -> string) (translate : Provider)
    (store : Store) (w : World) (metadata : Metadata) :
  (forall request : Bulk.Request,
     let tl := default "en" (Bulk.targetLanguage request) in
     let sl := orElse (language metadata) "en" in
     let chunks := findChunks store (title metadata) in
     Bulk.documentId request <> EmptyString -> tl <> EmptyString ->
     findMetadata store (Bulk.documentId request) = Some metadata ->
     0 < length chunks <= 100 -> tl <> sl ->
     fst (Bulk.translateText md5 translate "test" tl sl w) <> Normal "test" ->
     lookups (snd (Bulk.POST md5 translate store request w))
     = lookups w + 1 + translatableCount tl sl chunks + (length chunks - 1))
  /\
  (forall (request : Download.Request) (docId tl fmt : string),
     let sl := orElse (language metadata) "en" in
     let chunks := findChunks store docId in
     Download.present (Download.documentId request) = Some docId ->
     Download.present (Download.targetLanguage request) = Some tl ->
     Download.present (Download.format request) = Some fmt ->
     String.eqb fmt "pdf" || String.eqb fmt "docx" = true ->
     findMetadataWithChunks store docId = Some metadata ->
     0 < length chunks <= 50 ->
     Download.skipTranslation request = false -> tl <> sl ->
     lookups (snd (Download.GET md5 translate store request w))
     = lookups w + translatableCount tl sl chunks).
Proof.
  split.
  - intros request. cbv zeta. intros Hid Htl Hmeta Hlen Hdiff Hprobe.
    rewrite (POST_admitted md5 translate store request w metadata Hid Htl Hmeta Hlen Hdiff).
    rewrite translateText_outcome in Hprobe.
    destruct (String.eqb_spec
                (perChunkOutcome md5 translate "test"
                   (default "en" (Bulk.targetLanguage request))
                   (orElse (language metadata) "en") w) "test") as [E|_];
      [now rewrite E in Hprobe |].
    cbn [snd].
    set (tl := default "en" (Bulk.targetLanguage request)) in *.
    set (sl := orElse (language metadata) "en") in *.
    set (chunks := findChunks store (title metadata)) in *.
    set (w1 := snd (Bulk.translateText md5 translate "test" tl sl w)).
    change (snd (Bulk.chunkLoop md5 translate chunks tl sl (length chunks) 0 [] w1))
      with (bulkWorldBefore md5 translate chunks tl sl (length chunks) w1).
    rewrite bulk_pass_lookups by lia. rewrite firstn_all.
    unfold w1. rewrite translateText_lookups, (nothingToTranslate_probe tl sl Hdiff). lia.
  - intros request docId tl fmt. cbv zeta.
    intros Hid Htl Hfmt Hbin Hmeta Hlen Hskip Hdiff.
    rewrite (GET_binary md5 translate store request w metadata docId tl fmt
               Hid Htl Hfmt Hbin Hmeta (proj1 Hlen)).
    destruct (Nat.ltb_spec 50 (length (findChunks store docId))) as [Hbig|_]; [lia |].
    apply String.eqb_neq in Hdiff. rewrite Hskip, Hdiff. cbn [andb orb snd].
    set (sl := orElse (language metadata) "en").
    set (chunks := findChunks store docId) in *.
    change (snd (Download.chunkLoop md5 translate chunks tl sl (length chunks) 0 [] w))
      with (downloadWorldBefore md5 translate chunks tl sl (length chunks) w).
    rewrite download_pass_lookups by lia. now rewrite firstn_all.
Qed.

Lemma lookups_of_a_pass_witness :
  lookups (snd (Bulk.POST Sample.digest Sample.spanish (Sample.storeOf Sample.notes)
                  Sample.notesRequest Sample.fresh))
  = lookups Sample.fresh + 1 + translatableCount "es" "en" Sample.notes
    + (length Sample.notes - 1).
Proof.
  refine (proj1 (lookups_of_a_pass Sample.digest Sample.spanish
                   (Sample.storeOf Sample.notes) Sample.fresh
                   (mkMetadata "notes.txt" "en"))
            Sample.notesRequest _ _ _ _ _ _).
  - discriminate.
  - discriminate.
  - reflexivity.
  - simpl. lia.
  - discriminate.
  - vm_compute. discriminate.
Defined.

(** ** The routes, further *)

(** Neither route ever puts an empty translation into the cache: when no
    cached value is empty before a request, none is after it, whatever the
    request, the store and the provider. *)
Theorem routes_keep_empty_values_out (md5 : string -> string) (translate : Provider)
    (store : Store) (w : World) :
  noEmptyValue w ->
  (forall request, noEmptyValue (snd (Bulk.POST md5 translate store request w)))
  /\ (forall request, noEmptyValue (snd (Download.GET md5 translate store request w))).
Proof.
  intros Hw. split.
  - intros request. unfold Bulk.POST.
    destruct (negb (JS.truthy (Bulk.documentId request))); [exact Hw |].
    destruct (negb (JS.truthy (default "en" (Bulk.targetLanguage request)))); [exact Hw |].
    destruct (findMetadata store (Bulk.documentId request)) as [metadata|]; [| exact Hw].
    destruct (length (findChunks store (title metadata)) =? 0); [exact Hw |].
    destruct (100 <? length (findChunks store (title metadata))); [exact Hw |].
    destruct (String.eqb _ (orElse (language metadata) "en")); [exact Hw |].
    pose proof (translateText_noEmptyValue md5 translate "test"
                  (default "en" (Bulk.targetLanguage request))
                  (orElse (language metadata) "en") w Hw) as Hprobe.
    destruct (Bulk.translateText _ _ _ _ _ w) as [[t|e] w1]; simpl in Hprobe;
      [| exact Hprobe].
    destruct (String.eqb t "test"); [exact Hprobe |].
    pose proof (bulk_pass_noEmptyValue md5 translate (findChunks store (title metadata))
                  (default "en" (Bulk.targetLanguage request))
                  (orElse (language metadata) "en") w1
                  (length (findChunks store (title metadata))) (le_n _) Hprobe) as Hloop.
    unfold bulkWorldBefore in Hloop.
    destruct (Bulk.chunkLoop _ _ _ _ _ _ _ _ w1). exact Hloop.
  - intros request. unfold Download.GET.
    assert (Hplain :
      noEmptyValue
        (snd (match Download.present (Download.contentParam request),
                    Download.present (Download.filename request) with
              | Some c, Some f =>
                  (Download.TextDownload c f (Download.contentType request), w)
              | _, _ => (Download.BadRequest "Missing content or filename", w)
              end))).
    { destruct (Download.present (Download.contentParam request));
        [destruct (Download.present (Download.filename request)) |]; exact Hw. }
    destruct (Download.present (Download.documentId request)) as [docId|]; [| exact Hplain].
    destruct (Download.present (Download.targetLanguage request)) as [tl|]; [| exact Hplain].
    destruct (Download.present (Download.format request)) as [fmt|]; [| exact Hplain].
    destruct (String.eqb fmt "pdf" || String.eqb fmt "docx"); [| exact Hplain].
    clear Hplain.
    destruct (findMetadataWithChunks store docId) as [metadata|]; [| exact Hw].
    destruct (length (findChunks store docId) =? 0); [exact Hw |].
    destruct ((50 <? length (findChunks store docId))
              && negb (Download.skipTranslation request)); [exact Hw |].
    destruct (Download.skipTranslation request
              || String.eqb tl (orElse (language metadata) "en")); [exact Hw |].
    pose proof (download_pass_noEmptyValue md5 translate (findChunks store docId) tl
                  (orElse (language metadata) "en") w
                  (length (findChunks store docId)) (le_n _) Hw) as Hloop.
    unfold downloadWorldBefore in Hloop.
    destruct (Download.chunkLoop _ _ _ _ _ _ _ _ w). exact Hloop.
Qed.

Lemma routes_keep_empty_values_out_witness :
  noEmptyValue
    (snd (Bulk.POST Sample.digest Sample.spanish (Sample.storeOf Sample.notes)
            Sample.notesRequest Sample.fresh)).
Proof.
  refine (proj1 (routes_keep_empty_values_out Sample.digest Sample.spanish
                   (Sample.storeOf Sample.notes) Sample.fresh _) Sample.notesRequest).
  intros key value H. vm_compute in H. discriminate H.
Defined.

(** An answer with status 400, 404 or 413 leaves the world as it was: the
    routes reject before any cache lookup, provider call or wait. *)
Theorem rejections_leave_the_world (md5 : string -> string) (translate : Provider)
    (store : Store) (w : World) :
  (forall request,
     let answer := Bulk.POST md5 translate store request w in
     Bulk.status (fst answer) = 400 \/ Bulk.status (fst answer) = 404
     \/ Bulk.status (fst answer) = 413 ->
     snd answer = w)
  /\ (forall request,
        let answer := Download.GET md5 translate store request w in
        Download.status (fst answer) = 400 \/ Download.status (fst answer) = 404
        \/ Download.status (fst answer) = 413 ->
        snd answer = w).
Proof.
  split.
  - intros request. cbv zeta. unfold Bulk.POST.
    destruct (negb (JS.truthy (Bulk.documentId request))); [reflexivity |].
    destruct (negb (JS.truthy (default "en" (Bulk.targetLanguage request)))); [reflexivity |].
    destruct (findMetadata store (Bulk.documentId request)) as [metadata|]; [| reflexivity].
    destruct (length (findChunks store (title metadata)) =? 0); [reflexivity |].
    destruct (100 <? length (findChunks store (title metadata))); [reflexivity |].
    destruct (String.eqb _ (orElse (language metadata) "en")); [reflexivity |].
    destruct (Bulk.translateText _ _ _ _ _ w) as [[t|e] w1];
      [| simpl; intros [H|[H|H]]; discriminate H].
    destruct (String.eqb t "test"); [simpl; intros [H|[H|H]]; discriminate H |].
    destruct (Bulk.chunkLoop _ _ _ _ _ _ _ _ w1). simpl.
    intros [H|[H|H]]; discriminate H.
  - intros request. cbv zeta. unfold Download.GET.
    assert (Hplain :
      snd (match Download.present (Download.contentParam request),
                 Download.present (Download.filename request) with
           | Some c, Some f =>
               (Download.TextDownload c f (Download.contentType request), w)
           | _, _ => (Download.BadRequest "Missing content or filename", w)
           end) = w).
    { destruct (Download.present (Download.contentParam request));
        [destruct (Download.present (Download.filename request)) |]; reflexivity. }
    destruct (Download.present (Download.documentId request)) as [docId|];
      [| intros _; exact Hplain].
    destruct (Download.present (Download.targetLanguage request)) as [tl|];
      [| intros _; exact Hplain].
    destruct (Download.present (Download.format request)) as [fmt|];
      [| intros _; exact Hplain].
    destruct (String.eqb fmt "pdf" || String.eqb fmt "docx"); [| intros _; exact Hplain].
    clear Hplain.
    destruct (findMetadataWithChunks store docId) as [metadata|]; [| reflexivity].
    destruct (length (findChunks store docId) =? 0); [reflexivity |].
    destruct ((50 <? length (findChunks store docId))
              && negb (Download.skipTranslation request)); [reflexivity |].
    destruct (Download.skipTranslation request
              || String.eqb tl (orElse (language metadata) "en")); [reflexivity |].
    destruct (Download.chunkLoop _ _ _ _ _ _ _ _ w). simpl.
    intros [H|[H|H]]; discriminate H.
Qed.

Lemma rejections_leave_the_world_witness :
  snd (Bulk.POST Sample.digest Sample.spanish (Sample.storeOf (Sample.manyChunks 101))
         Sample.notesRequest Sample.fresh) = Sample.fresh.
Proof.
  refine (proj1 (rejections_leave_the_world Sample.digest Sample.spanish
                   (Sample.storeOf (Sample.manyChunks 101)) Sample.fresh)
            Sample.notesRequest _).
  right. right. reflexivity.
Defined.

(** When no translation is asked for, none is made.  The translate route,
    asked for the language of the document, answers with the original
    chunks joined by a blank line and leaves the world as it was: no probe,
    no lookup, no provider call, no wait.  So does the download route when
    [skipTranslation] is set, for a document of any size, and when the
    target language is the language of the document. *)
Theorem no_translation_asked_none_made (md5 : string -> string) (translate : Provider)
    (store : Store) (w : World) (metadata : Metadata) :
  (forall request : Bulk.Request,
     let tl := default "en" (Bulk.targetLanguage request) in
     let chunks := findChunks store (title metadata) in
     Bulk.documentId request <> EmptyString -> tl <> EmptyString ->
     findMetadata store (Bulk.documentId request) = Some metadata ->
     0 < length chunks <= 100 ->
     tl = orElse (language metadata) "en" ->
     Bulk.POST md5 translate store request w
     = (Bulk.Complete (JS.join blankLine (map content chunks)) (title metadata) tl tl
          (default "txt" (Bulk.format request)) (length chunks), w))
  /\
  (forall (request : Download.Request) (docId tl fmt : string),
     let sl := orElse (language metadata) "en" in
     let chunks := findChunks store docId in
     Download.present (Download.documentId request) = Some docId ->
     Download.present (Download.targetLanguage request) = Some tl ->
     Download.present (Download.format request) = Some fmt ->
     String.eqb fmt "pdf" || String.eqb fmt "docx" = true ->
     findMetadataWithChunks store docId = Some metadata ->
     0 < length chunks ->
     Download.skipTranslation request = true \/ (tl = sl /\ length chunks <= 50) ->
     Download.GET md5 translate store request w
     = (Download.Binary (JS.join blankLine (map content chunks)) (title metadata) tl sl fmt,
        w)).
Proof.
  split.
  - intros request. cbv zeta. intros Hid Htl Hmeta Hlen Hsame.
    unfold Bulk.POST. apply truthy_true in Hid, Htl.
    rewrite Hid, Htl, Hmeta. cbn [negb].
    destruct (Nat.eqb_spec (length (findChunks store (title metadata))) 0); [lia |].
    destruct (Nat.ltb_spec 100 (length (findChunks store (title metadata)))); [lia |].
    rewrite <- Hsame, String.eqb_refl. reflexivity.
  - intros request docId tl fmt. cbv zeta. intros Hid Htl Hfmt Hbin Hmeta Hlen Hwhy.
    rewrite (GET_binary md5 translate store request w metadata docId tl fmt
               Hid Htl Hfmt Hbin Hmeta Hlen).
    destruct Hwhy as [Hskip | [Hsame Hsmall]].
    + rewrite Hskip, andb_false_r. reflexivity.
    + apply Nat.ltb_ge in Hsmall. rewrite Hsmall, Hsame, String.eqb_refl, orb_true_r.
      reflexivity.
Qed.

Lemma no_translation_asked_none_made_witness :
  Download.GET Sample.digest Sample.throttled (Sample.storeOf (Sample.manyChunks 51))
    (Download.mkRequest (Some "notes.txt") (Some "es") (Some "pdf") true None None None)
    Sample.fresh
  = (Download.Binary (JS.join blankLine (map content (Sample.manyChunks 51)))
       "notes.txt" "es" "en" "pdf", Sample.fresh).
Proof.
  refine (proj2 (no_translation_asked_none_made Sample.digest Sample.throttled
                   (Sample.storeOf (Sample.manyChunks 51)) Sample.fresh
                   (mkMetadata "notes.txt" "en"))
            _ "notes.txt" "es" "pdf" _ _ _ _ _ _ _).
  - reflexivity.
  - reflexivity.
  - reflexivity.
  - reflexivity.
  - reflexivity.
  - vm_compute. lia.
  - left. reflexivity.
Defined.

Section ProviderDown.

Variable md5 : string -> string.
Variable translate : Provider.
Hypothesis down : providerDown translate.

Lemma down_translateText_cache (text tl sl : string) (w : World) :
  translationCache (snd (Bulk.translateText md5 translate text tl sl w))
  = translationCache w.
Proof.
  destruct (providerAnswer md5 translate text tl sl w) as [a|] eqn:Hans.
  - apply (translateText_cache_failed md5 translate _ _ _ _ a Hans).
    apply providerAnswer_something in Hans as (_ & _ & ->). apply down.
  - unfold providerAnswer in Hans. unfold Bulk.translateText.
    unfold nothingToTranslate in Hans.
    destruct (_ || _); [reflexivity |].
    pose proof (getCachedTranslation_world md5 text tl sl w) as (Hcache & _).
    destruct (TranslationCache.getCachedTranslation md5 text tl sl w) as [[c|] w1];
      simpl in *; [exact Hcache | discriminate].
Qed.

Lemma down_outcome (text tl sl : string) (w : World) :
  translationCache w = ∅ -> perChunkOutcome md5 translate text tl sl w = text.
Proof.
  intros Hempty.
  assert (Hmiss : fst (TranslationCache.getCachedTranslation md5 text tl sl w) = None).
  { unfold TranslationCache.getCachedTranslation. cbv zeta.
    now rewrite Hempty, lookup_empty. }
  unfold perChunkOutcome, servedFromCache, providerAnswer.
  destruct (nothingToTranslate text tl sl); [reflexivity |].
  rewrite Hmiss. specialize (down (providerCalls w) text sl tl).
  destruct (translate (providerCalls w) text sl tl) as [r|e]; [| reflexivity].
  destruct down as [-> | ->]; [reflexivity |].
  now rewrite String.eqb_refl, andb_false_r.
Qed.

Lemma down_download_pass (chunks : list Chunk) (tl sl : string) (w : World) (i : nat) :
  i <= length chunks -> translationCache w = ∅ ->
  translationCache (downloadWorldBefore md5 translate chunks tl sl i w) = ∅.
Proof.
  intros Hi Hw. revert i Hi.
  apply (download_pass_induction md5 translate chunks tl sl
           (fun _ w' => translationCache w' = ∅)); [exact Hw |].
  intros j c w' _ Hw'. unfold downloadStep.
  destruct (j <? length chunks - 1); simpl; now rewrite down_translateText_cache.
Qed.

End ProviderDown.

(** With the provider down and an empty cache, the two routes part ways.
    The download route answers with status 200 and a document whose body is
    the original chunks joined by a blank line: the untranslated text is
    delivered as the translation.  The translate route answers with the
    unavailable outcome. *)
Theorem provider_down_download_delivers_original (md5 : string -> string)
    (translate : Provider) (store : Store) (w : World) (metadata : Metadata) :
  providerDown translate -> translationCache w = ∅ ->
  (forall (request : Download.Request) (docId tl fmt : string),
     let chunks := findChunks store docId in
     Download.present (Download.documentId request) = Some docId ->
     Download.present (Download.targetLanguage request) = Some tl ->
     Download.present (Download.format request) = Some fmt ->
     String.eqb fmt "pdf" || String.eqb fmt "docx" = true ->
     findMetadataWithChunks store docId = Some metadata ->
     0 < length chunks <= 50 ->
     fst (Download.GET md5 translate store request w)
     = Download.Binary (JS.join blankLine (map content chunks)) (title metadata) tl
         (orElse (language metadata) "en") fmt)
  /\
  (forall request : Bulk.Request,
     let tl := default "en" (Bulk.targetLanguage request) in
     let sl := orElse (language metadata) "en" in
     Bulk.documentId request <> EmptyString -> tl <> EmptyString ->
     findMetadata store (Bulk.documentId request) = Some metadata ->
     0 < length (findChunks store (title metadata)) <= 100 -> tl <> sl ->
     Bulk.status (fst (Bulk.POST md5 translate store request w)) = 503).
Proof.
  intros Hdown Hempty. split.
  - intros request docId tl fmt. cbv zeta. intros Hid Htl Hfmt Hbin Hmeta Hlen.
    rewrite (GET_binary md5 translate store request w metadata docId tl fmt
               Hid Htl Hfmt Hbin Hmeta (proj1 Hlen)).
    destruct (Nat.ltb_spec 50 (length (findChunks store docId))) as [Hbig|_]; [lia |].
    cbn [andb].
    destruct (Download.skipTranslation request || String.eqb tl _); [reflexivity |].
    cbn [fst]. rewrite download_outcomes. do 2 f_equal.
    apply list_eq. intros i. rewrite list_lookup_imap, list_lookup_fmap.
    destruct (findChunks store docId !! i) as [c|] eqn:Hc; [| reflexivity].
    simpl. f_equal. apply down_outcome; [exact Hdown |].
    apply down_download_pass; [exact Hdown | | exact Hempty].
    apply lookup_lt_Some in Hc. lia.
  - intros request. cbv zeta. intros Hid Htl Hmeta Hlen Hdiff.
    rewrite (POST_admitted md5 translate store request w metadata Hid Htl Hmeta Hlen Hdiff).
    rewrite (down_outcome md5 translate Hdown "test" _ _ w Hempty). reflexivity.
Qed.

Lemma provider_down_download_delivers_original_witness :
  fst (Download.GET Sample.digest Sample.throttled (Sample.storeOf Sample.notes)
         Sample.notesDownload Sample.fresh)
  = Download.Binary (JS.join blankLine (map content Sample.notes)) "notes.txt" "es" "en"
      "pdf".
Proof.
  refine (proj1 (provider_down_download_delivers_original Sample.digest Sample.throttled
                   (Sample.storeOf Sample.notes) Sample.fresh
                   (mkMetadata "notes.txt" "en") _ _)
            Sample.notesDownload "notes.txt" "es" "pdf" _ _ _ _ _ _).
  - intros calls text source target. exact I.
  - reflexivity.
  - reflexivity.
  - reflexivity.
  - reflexivity.
  - reflexivity.
  - reflexivity.
  - simpl. lia.
Defined.

(** ** File names and content types *)

Lemma plainTail_cons (a : ascii) (s : string) :
  Text.plainTail (String a s)
  = negb (Text.isDot a) && negb (Text.isSlash a)
    && match s with EmptyString => true | _ => Text.plainTail s end.
Proof. destruct s; simpl; [now rewrite andb_true_r | reflexivity]. Qed.

Lemma plainTail_noDot (s : string) : Text.plainTail s = true -> noDot s = true.
Proof.
  induction s as [|a s IH]; [discriminate |].
  rewrite plainTail_cons. intros H.
  apply andb_true_iff in H as [H Hs]. apply andb_true_iff in H as [Ha _].
  simpl. rewrite Ha. destruct s; [reflexivity | auto].
Qed.

Lemma noDot_app_dot (x y : string) : noDot (x +:+ "." +:+ y) = false.
Proof.
  induction x as [|a x IH]; [reflexivity |].
  rewrite append_cons. simpl. rewrite IH. apply andb_false_r.
Qed.

Lemma plainTail_app_dot (x y : string) : Text.plainTail (x +:+ "." +:+ y) = false.
Proof.
  destruct (Text.plainTail (x +:+ "." +:+ y)) eqn:E; [| reflexivity].
  apply plainTail_noDot in E. now rewrite noDot_app_dot in E.
Qed.

Lemma removeExtension_noDot (s : string) : noDot s = true -> Text.removeExtension s = s.
Proof.
  induction s as [|a s IH]; [reflexivity |]. simpl.
  intros [Ha Hs]%andb_true_iff. apply negb_true_iff in Ha. rewrite Ha. simpl.
  now rewrite IH.
Qed.

Lemma afterLastDot_noDot (s : string) : noDot s = true -> Text.afterLastDot s = None.
Proof.
  induction s as [|a s IH]; [reflexivity |]. simpl.
  intros [Ha Hs]%andb_true_iff. apply negb_true_iff in Ha. now rewrite (IH Hs), Ha.
Qed.

Lemma afterLastDot_app (base ext : string) :
  noDot ext = true -> Text.afterLastDot (base +:+ "." +:+ ext) = Some ext.
Proof.
  intros Hext. induction base as [|a base IH].
  - rewrite append_nil_l. change ("." +:+ ext) with (String "." ext).
    simpl. now rewrite (afterLastDot_noDot _ Hext).
  - rewrite append_cons. simpl. now rewrite IH.
Qed.

Lemma removeExtension_app (base ext : string) :
  Text.plainTail ext = true -> Text.removeExtension (base +:+ "." +:+ ext) = base.
Proof.
  intros Hext. induction base as [|a base IH].
  - rewrite append_nil_l. change ("." +:+ ext) with (String "." ext).
    simpl. now rewrite Hext.
  - rewrite append_cons. simpl. rewrite plainTail_app_dot, andb_false_r.
    now rewrite IH.
Qed.

(** [title.replace(/\.[^/.]+$/, empty)] cuts the extension and nothing
    else: a last dot followed by at least one character, none of them a
    slash, is cut off with what follows; a name without a dot is kept; and
    the result is always a prefix of the name. *)
Theorem removeExtension_cuts_the_extension (base ext name : string) :
  (Text.plainTail ext = true -> Text.removeExtension (base +:+ "." +:+ ext) = base)
  /\ (noDot name = true -> Text.removeExtension name = name)
  /\ (exists rest, name = Text.removeExtension name +:+ rest).
Proof.
  repeat split.
  - apply removeExtension_app.
  - apply removeExtension_noDot.
  - induction name as [|a name [rest IH]].
    + exists EmptyString. reflexivity.
    + simpl. destruct (Text.isDot a && Text.plainTail name).
      * exists (String a name). reflexivity.
      * exists rest. rewrite append_cons. now rewrite <- IH.
Qed.

Lemma removeExtension_cuts_the_extension_witness :
  Text.removeExtension ("archive.tar" +:+ "." +:+ "gz") = "archive.tar".
Proof.
  refine (proj1 (removeExtension_cuts_the_extension "archive.tar" "gz" "x") _).
  reflexivity.
Defined.

(** The content type of a plain download: a content type given in the
    request is used as it is; without one, the type follows the extension
    of the file name, compared without regard to letter case, and is
    text/plain for every extension but json and md. *)
Theorem content_type_of_a_plain_download (base ext given : string) :
  (given <> EmptyString ->
   Plain.finalContentType (base +:+ "." +:+ ext) (Some given) = given)
  /\ (noDot ext = true ->
      forall absent, absent = None \/ absent = Some EmptyString ->
      Plain.finalContentType (base +:+ "." +:+ ext) absent
      = if String.eqb (JS.toLowerCase ext) "json" then "application/json"
        else if String.eqb (JS.toLowerCase ext) "md" then "text/markdown"
        else "text/plain").
Proof.
  split.
  - intros Hg. unfold Plain.finalContentType, Download.present.
    apply truthy_true in Hg. now rewrite Hg.
  - intros Hext absent Habsent. unfold Plain.finalContentType, Text.lastSegment.
    rewrite (afterLastDot_app base ext Hext). simpl default.
    assert (Hp : Download.present absent = None) by (destruct Habsent as [-> | ->]; reflexivity).
    rewrite Hp.
    destruct (String.eqb (JS.toLowerCase ext) "json"); [reflexivity |].
    destruct (String.eqb (JS.toLowerCase ext) "txt") eqn:Etxt.
    + apply String.eqb_eq in Etxt. now rewrite Etxt.
    + reflexivity.
Qed.

Lemma content_type_of_a_plain_download_witness :
  Plain.finalContentType ("report" +:+ "." +:+ "JSON") None = "application/json".
Proof.
  refine (proj2 (content_type_of_a_plain_download "report" "JSON" "x") _ None _).
  - reflexivity.
  - left. reflexivity.
Defined.

(** ** Decoding the content of a plain download *)

Lemma tokens_noPercent (s : string) :
  noPercent s = true ->
  Plain.tokens s = Some (map Plain.Lit (String.list_ascii_of_string s)).
Proof.
  induction s as [|a s IH]; [reflexivity |]. simpl.
  intros [Ha Hs]%andb_true_iff. apply negb_true_iff in Ha. now rewrite Ha, (IH Hs).
Qed.

Lemma decodeTokens_literals (s : string) :
  Plain.decodeTokens (map Plain.Lit (String.list_ascii_of_string s)) = Some s.
Proof. induction s as [|a s IH]; [reflexivity |]. simpl. now rewrite IH. Qed.

Lemma tokens_bad_escape (rest : string) :
  startsWithHexPair rest = false ->
  forall n pre, String.length pre <= n -> Plain.tokens (pre +:+ "%" +:+ rest) = None.
Proof.
  intros Hbad.
  assert (Hhere : Plain.tokens ("%" +:+ rest) = None).
  { change ("%" +:+ rest) with (String "%" rest). simpl.
    destruct rest as [|h [|l r]]; try reflexivity.
    simpl in Hbad.
    destruct (Plain.hexValue h); [| reflexivity].
    destruct (Plain.hexValue l); [discriminate | reflexivity]. }
  induction n as [|n IH]; intros pre Hlen.
  - destruct pre; [exact Hhere | simpl in Hlen; lia].
  - destruct pre as [|a pre]; [exact Hhere |].
    simpl in Hlen. destruct (Ascii.eqb a "%") eqn:Ea.
    + destruct pre as [|h [|l pre]].
      * change (String a EmptyString +:+ "%" +:+ rest) with (String a (String "%" rest)).
        cbn [Plain.tokens]. rewrite Ea. destruct rest; reflexivity.
      * change (String a (String h EmptyString) +:+ "%" +:+ rest)
          with (String a (String h (String "%" rest))).
        cbn [Plain.tokens]. rewrite Ea. destruct (Plain.hexValue h); reflexivity.
      * change (String a (String h (String l pre)) +:+ "%" +:+ rest)
          with (String a (String h (String l (pre +:+ "%" +:+ rest)))).
        cbn [Plain.tokens]. rewrite Ea.
        rewrite (IH pre) by (simpl in Hlen; lia).
        destruct (Plain.hexValue h); [destruct (Plain.hexValue l) |]; reflexivity.
    + change (String a pre +:+ "%" +:+ rest) with (String a (pre +:+ "%" +:+ rest)).
      cbn [Plain.tokens]. rewrite Ea.
      now rewrite (IH pre) by lia.
Qed.

Lemma decodeURIComponent_noPercent (content : string) :
  noPercent content = true -> Plain.decodeURIComponent content = Normal content.
Proof.
  intros H. unfold Plain.decodeURIComponent.
  now rewrite (tokens_noPercent _ H), decodeTokens_literals.
Qed.

(** A content without a percent sign is delivered as it is, with its
    length as [Content-Length], under a file name and a content type that
    are valid header values. *)
Theorem plain_download_without_percent (content filename : string)
    (contentType : option string) :
  noPercent content = true ->
  Text.headerSafe filename = true ->
  Text.headerSafe (orElse (Plain.finalContentType filename contentType) "text/plain")
  = true ->
  Plain.decodeURIComponent content = Normal content
  /\ Plain.plainDownload content filename contentType
     = Render.File 200 content
         (orElse (Plain.finalContentType filename contentType) "text/plain")
         ("attachment; filename=" +:+ Text.quote +:+ filename +:+ Text.quote)
         (String.length content).
Proof.
  intros H _ _. pose proof (decodeURIComponent_noPercent content H) as Hd.
  split; [exact Hd |]. unfold Plain.plainDownload. now rewrite Hd.
Qed.

Lemma plain_download_without_percent_witness :
  Plain.decodeURIComponent "Hola." = Normal "Hola.".
Proof.
  refine (proj1 (plain_download_without_percent "Hola." "notes_Spanish.txt" None _ _ _));
    reflexivity.
Defined.

(** A content with a percent sign that is not followed by two hexadecimal
    digits cannot be downloaded: the decoding throws and the answer is the
    error with status 500. *)
Theorem plain_download_of_a_stray_percent (before after filename : string)
    (contentType : option string) :
  startsWithHexPair after = false ->
  Plain.plainDownload (before +:+ "%" +:+ after) filename contentType
  = Render.Failure 500 "Failed to download file" "URI malformed".
Proof.
  intros H. unfold Plain.plainDownload, Plain.decodeURIComponent.
  now rewrite (tokens_bad_escape after H (String.length before) before (le_n _)).
Qed.

Lemma plain_download_of_a_stray_percent_witness :
  Plain.plainDownload ("Discount: 100" +:+ "%" +:+ " sure.") "notes.txt" None
  = Render.Failure 500 "Failed to download file" "URI malformed".
Proof.
  refine (plain_download_of_a_stray_percent "Discount: 100" " sure." "notes.txt" None _).
  reflexivity.
Defined.

Lemma tokens_app_noPercent (pre s : string) :
  noPercent pre = true ->
  Plain.tokens (pre +:+ s)
  = (fun ts => map Plain.Lit (String.list_ascii_of_string pre) ++ ts) <$> Plain.tokens s.
Proof.
  induction pre as [|a pre IH]; intros H.
  - rewrite append_nil_l. simpl. now destruct (Plain.tokens s).
  - rewrite append_cons. simpl in *.
    apply andb_true_iff in H as [Ha H]. apply negb_true_iff in Ha.
    rewrite Ha, (IH H). now destruct (Plain.tokens s).
Qed.

Lemma decodeTokens_app_literals (pre : string) (ts : list Plain.Token) :
  Plain.decodeTokens (map Plain.Lit (String.list_ascii_of_string pre) ++ ts)
  = (fun decoded => pre +:+ decoded) <$> Plain.decodeTokens ts.
Proof.
  induction pre as [|a pre IH]; simpl.
  - now destruct (Plain.decodeTokens ts).
  - rewrite IH. now destruct (Plain.decodeTokens ts).
Qed.

(** The content is decoded once more than it was encoded: a percent sign
    followed by two hexadecimal digits that stands in the text of the
    document is delivered as the character with that code (below 128). *)
Theorem plain_download_decodes_the_text (before after filename : string)
    (contentType : option string) (h l : ascii) (x y : nat) :
  noPercent before = true -> noPercent after = true ->
  Plain.hexValue h = Some x -> Plain.hexValue l = Some y -> 16 * x + y < 128 ->
  Text.headerSafe filename = true ->
  Text.headerSafe (orElse (Plain.finalContentType filename contentType) "text/plain")
  = true ->
  Plain.plainDownload (before +:+ "%" +:+ String h (String l after)) filename contentType
  = Render.File 200 (before +:+ String (ascii_of_nat (16 * x + y)) after)
      (orElse (Plain.finalContentType filename contentType) "text/plain")
      ("attachment; filename=" +:+ Text.quote +:+ filename +:+ Text.quote)
      (String.length before + 1 + String.length after).
Proof.
  intros Hb Ha Hh Hl Hlow _ _.
  assert (Hd : Plain.decodeURIComponent (before +:+ "%" +:+ String h (String l after))
               = Normal (before +:+ String (ascii_of_nat (16 * x + y)) after)).
  { unfold Plain.decodeURIComponent.
    rewrite (tokens_app_noPercent before _ Hb).
    change ("%" +:+ String h (String l after)) with (String "%" (String h (String l after))).
    cbn [Plain.tokens]. change (Ascii.eqb "%" "%") with true. cbv iota.
    rewrite Hh, Hl, (tokens_noPercent _ Ha). cbn [fmap option_fmap option_map].
    rewrite decodeTokens_app_literals. cbn [Plain.decodeTokens].
    apply Nat.ltb_lt in Hlow. rewrite Hlow.
    rewrite decodeTokens_literals. reflexivity. }
  unfold Plain.plainDownload. rewrite Hd. f_equal.
  rewrite append_length. simpl. lia.
Qed.

Lemma plain_download_decodes_the_text_witness :
  Plain.plainDownload ("see a" +:+ "%" +:+ String "2" (String "0" "b")) "notes.txt" None
  = Render.File 200 ("see a" +:+ String (ascii_of_nat (16 * 2 + 0)) "b") "text/plain"
      ("attachment; filename=" +:+ Text.quote +:+ "notes.txt" +:+ Text.quote)
      (String.length "see a" + 1 + String.length "b").
Proof.
  refine (plain_download_decodes_the_text "see a" "b" "notes.txt" None "2" "0" 2 0
            _ _ _ _ _ _ _); try reflexivity.
  simpl. lia.
Defined.

(** ** Rendering and links *)

Lemma labelOf_shared (tl name fallback1 fallback2 : string) :
  Render.assoc tl Render.downloadLanguageNames = Some name ->
  Render.labelOf Render.bulkLanguageNames tl fallback1 = Render.Name name
  /\ Render.labelOf Render.downloadLanguageNames tl fallback2 = Render.Name name.
Proof.
  unfold Render.labelOf, Render.member, Render.downloadLanguageNames,
    Render.bulkLanguageNames. cbn [Render.assoc].
  repeat (destruct (String.eqb _ tl); [intros [= <-]; split; reflexivity |]).
  intros H. discriminate H.
Qed.

Lemma labelOf_missing (table : list (string * string)) (tl fallback : string) :
  Render.assoc tl table = None ->
  existsb (String.eqb tl) Render.objectPrototypeKeys = false ->
  Render.labelOf table tl fallback = Render.Name fallback.
Proof. intros H1 H2. unfold Render.labelOf, Render.member. now rewrite H1, H2. Qed.

Section RenderFacts.

Variables getFileExtension getContentType : string -> string.
Variables generateDocx generatePdf : string -> Render.RenderMeta -> Completion string.
Variable jsonStringify : Render.RenderMeta -> string -> string.
Variables nowISO nowLocale : string.
Variable inheritedToString : string -> string.
Variable md5 : string -> string.
Variable translate : Provider.
Variable store : Store.

Local Abbreviation respond :=
  (Render.generateDocumentResponse getFileExtension getContentType generateDocx
     generatePdf jsonStringify nowISO nowLocale inheritedToString).
Local Abbreviation finishBinary :=
  (Render.binaryDownload getContentType generateDocx generatePdf inheritedToString).
Local Abbreviation render :=
  (Render.renderFile getContentType generateDocx generatePdf jsonStringify nowLocale
     inheritedToString).

(** The fields of the payload that do not depend on the rendition. *)
Lemma respond_fixed_fields (content docTitle tl sl fmt : string) (n : nat) :
  let p := respond content docTitle tl sl fmt n in
  let label := Render.labelOf Render.bulkLanguageNames tl (Text.toUpperCase tl) in
  Render.translatedFileName p
  = Text.removeExtension docTitle +:+ "_" +:+ Render.labelText inheritedToString label
    +:+ "." +:+ getFileExtension fmt
  /\ Render.contentLength p = String.length content
  /\ Render.responseFormat p = fmt
  /\ Render.responseChunks p = n.
Proof.
  cbv zeta. unfold Render.generateDocumentResponse.
  destruct (Render.renderFile _ _ _ _ _ _ _ _ _ _ _ _ _ _) as [[text|bytes] ct];
    repeat split; reflexivity.
Qed.

(** The payload when the rendition is the plain content. *)
Lemma respond_plain (content docTitle tl sl fmt : string) (n : nat) :
  (forall meta label,
     render meta docTitle label sl tl fmt n content
     = (Render.TextContent content, getContentType "txt")) ->
  let p := respond content docTitle tl sl fmt n in
  Render.isBinary p = false
  /\ Render.responseContent p = Some content
  /\ Render.responseContentType p = getContentType "txt"
  /\ Render.downloadUrl p
     = Render.TextLink content (Render.translatedFileName p) (getContentType "txt").
Proof.
  intros H. cbv zeta. unfold Render.generateDocumentResponse. rewrite H.
  repeat split; reflexivity.
Qed.

(** The file name of a translation.  For a title with an extension and a
    target language that both routes know, the routes agree on the name up
    to the extension: the title without its extension, an underscore and
    the name of the language.  For a language code outside the table the
    translate route puts the code in upper case, and the download route
    keeps the code as it is; the download route knows six languages, the
    translate route ten. *)
Theorem translated_file_name (base ext tl sl fmt content : string) (n : nat) :
  Text.plainTail ext = true ->
  (forall name,
     Render.assoc tl Render.downloadLanguageNames = Some name ->
     Render.translatedFileName (respond content (base +:+ "." +:+ ext) tl sl fmt n)
     = base +:+ "_" +:+ name +:+ "." +:+ getFileExtension fmt
     /\ Render.downloadFileName inheritedToString (base +:+ "." +:+ ext) tl fmt
        = base +:+ "_" +:+ name +:+ "." +:+ fmt)
  /\ (Render.assoc tl Render.bulkLanguageNames = None ->
      existsb (String.eqb tl) Render.objectPrototypeKeys = false ->
      Render.translatedFileName (respond content (base +:+ "." +:+ ext) tl sl fmt n)
      = base +:+ "_" +:+ Text.toUpperCase tl +:+ "." +:+ getFileExtension fmt)
  /\ (Render.assoc tl Render.downloadLanguageNames = None ->
      existsb (String.eqb tl) Render.objectPrototypeKeys = false ->
      Render.downloadFileName inheritedToString (base +:+ "." +:+ ext) tl fmt
      = base +:+ "_" +:+ tl +:+ "." +:+ fmt).
Proof.
  intros Hext.
  pose proof (removeExtension_app base ext Hext) as Hcut.
  split.
  - intros name Hname.
    destruct (labelOf_shared tl name (Text.toUpperCase tl) tl Hname) as [Hb Hd].
    split.
    + rewrite (proj1 (respond_fixed_fields content _ tl sl fmt n)), Hb, Hcut. reflexivity.
    + unfold Render.downloadFileName. cbv zeta. rewrite Hd, Hcut. reflexivity.
  - split.
    + intros Hnone Hproto.
      rewrite (proj1 (respond_fixed_fields content _ tl sl fmt n)), Hcut.
      now rewrite (labelOf_missing _ tl _ Hnone Hproto).
    + intros Hnone Hproto. unfold Render.downloadFileName. cbv zeta.
      now rewrite Hcut, (labelOf_missing _ tl _ Hnone Hproto).
Qed.

(** A failing renderer.  On the translate route the answer degrades to
    the plain text: it is still a success, carries the joined body as its
    content, and is marked as text, though its [format] is still the one
    asked for.  On the download route the request fails with status 500. *)
Theorem failing_renderer_degrades_or_fails (content docTitle tl sl fmt : string)
    (n : nat) :
  (forall meta, exists e, generateDocx content meta = Throw e) ->
  (forall meta, exists e, generatePdf content meta = Throw e) ->
  (JS.toLowerCase fmt = "docx" \/ JS.toLowerCase fmt = "pdf" ->
   let p := respond content docTitle tl sl fmt n in
   Render.isBinary p = false
   /\ Render.responseContent p = Some content
   /\ Render.responseContentType p = getContentType "txt"
   /\ Render.responseFormat p = fmt
   /\ Render.downloadUrl p
      = Render.TextLink content (Render.translatedFileName p) (getContentType "txt"))
  /\ exists details,
       finishBinary content docTitle tl sl fmt
       = Render.Failure 500 "Failed to download file" details.
Proof.
  intros Hdocx Hpdf. split.
  - intros Hfmt. cbv zeta.
    assert (Hplain : forall meta label,
               render meta docTitle label sl tl fmt n content
               = (Render.TextContent content, getContentType "txt")).
    { intros meta label. unfold Render.renderFile. cbv zeta.
      destruct Hfmt as [-> | ->]; simpl.
      - destruct (Hdocx meta) as [e ->]. reflexivity.
      - destruct (Hpdf meta) as [e ->]. reflexivity. }
    destruct (respond_plain content docTitle tl sl fmt n Hplain) as (H1 & H2 & H3 & H4).
    pose proof (respond_fixed_fields content docTitle tl sl fmt n) as (_ & _ & H5 & _).
    auto.
  - unfold Render.binaryDownload. cbv zeta.
    destruct (String.eqb fmt "docx"); simpl.
    + destruct (Hdocx (Render.mkMeta docTitle sl tl
                         (Render.labelOf Render.downloadLanguageNames tl tl) None None))
        as [e ->].
      eexists. reflexivity.
    + destruct (Hpdf (Render.mkMeta docTitle sl tl
                        (Render.labelOf Render.downloadLanguageNames tl tl) None None))
        as [e ->].
      eexists. reflexivity.
Qed.

(** A format the translate route does not know is rendered as plain text:
    the content of the answer is the joined body itself, and the content
    length is the length of that body. *)
Theorem unknown_format_is_plain_text (content docTitle tl sl fmt : string) (n : nat) :
  JS.toLowerCase fmt <> "docx" -> JS.toLowerCase fmt <> "pdf" ->
  JS.toLowerCase fmt <> "json" -> JS.toLowerCase fmt <> "md" ->
  JS.toLowerCase fmt <> "markdown" ->
  let p := respond content docTitle tl sl fmt n in
  Render.isBinary p = false
  /\ Render.responseContent p = Some content
  /\ Render.responseContentType p = getContentType "txt"
  /\ Render.contentLength p = String.length content
  /\ Render.downloadUrl p
     = Render.TextLink content (Render.translatedFileName p) (getContentType "txt").
Proof.
  intros H1 H2 H3 H4 H5. cbv zeta.
  assert (Hplain : forall meta label,
             render meta docTitle label sl tl fmt n content
             = (Render.TextContent content, getContentType "txt")).
  { intros meta label. unfold Render.renderFile. cbv zeta.
    apply String.eqb_neq in H1, H2, H3, H4, H5. now rewrite H1, H2, H3, H4, H5. }
  destruct (respond_plain content docTitle tl sl fmt n Hplain) as (Ha & Hb & Hc & Hd).
  pose proof (respond_fixed_fields content docTitle tl sl fmt n) as (_ & He & _).
  auto.
Qed.

(** *** Following the links *)

(** What an answer of the translate route tells about the request. *)
Lemma POST_answer (request : Bulk.Request) (w : World) :
  let fmt := default "txt" (Bulk.format request) in
  match fst (Bulk.POST md5 translate store request w) with
  | Bulk.TooLarge _ ref n _ _ =>
      exists metadata,
        ref = mkRef (title metadata) "en" fmt true
        /\ n = length (findChunks store (title metadata)) /\ 100 < n
  | Bulk.Unavailable _ ref _ n _ =>
      exists metadata,
        ref = mkRef (title metadata) "en" fmt true
        /\ n = length (findChunks store (title metadata)) /\ 0 < n <= 100
  | Bulk.Complete _ docTitle tl _ f n =>
      tl <> EmptyString /\ f = fmt
      /\ n = length (findChunks store docTitle) /\ 0 < n <= 100
  | _ => True
  end.
Proof.
  cbv zeta. unfold Bulk.POST.
  destruct (negb (JS.truthy (Bulk.documentId request))); [exact I |].
  destruct (JS.truthy (default "en" (Bulk.targetLanguage request))) eqn:Htl;
    [| exact I]. apply truthy_true in Htl. cbn [negb].
  destruct (findMetadata store (Bulk.documentId request)) as [metadata|]; [| exact I].
  destruct (Nat.eqb_spec (length (findChunks store (title metadata))) 0); [exact I |].
  destruct (Nat.ltb_spec 100 (length (findChunks store (title metadata)))).
  - exists metadata. auto.
  - destruct (String.eqb _ (orElse (language metadata) "en")).
    + cbn [fst]. repeat split; (assumption || lia).
    + destruct (Bulk.translateText _ _ _ _ _ w) as [[t|e] w1]; [| exact I].
      destruct (String.eqb t "test").
      * exists metadata. repeat split; lia.
      * destruct (Bulk.chunkLoop _ _ _ _ _ _ _ _ w1). cbn [fst].
        repeat split; (assumption || lia).
Qed.

Lemma GET_plain_without_content (request : Download.Request) (w : World) :
  Download.format request = None
  \/ (exists fmt, Download.format request = Some fmt
                  /\ fmt <> "pdf" /\ fmt <> "docx") ->
  Download.contentParam request = None ->
  Download.GET md5 translate store request w
  = (Download.BadRequest "Missing content or filename", w).
Proof.
  intros Hfmt Hcontent. unfold Download.GET. rewrite Hcontent. simpl.
  destruct (Download.present (Download.documentId request)); [| reflexivity].
  destruct (Download.present (Download.targetLanguage request)); [| reflexivity].
  destruct Hfmt as [-> | (fmt & -> & Hpdf & Hdocx)]; [reflexivity |].
  unfold Download.present. destruct (JS.truthy fmt); [| reflexivity].
  apply String.eqb_neq in Hpdf, Hdocx. now rewrite Hpdf, Hdocx.
Qed.


(** The download link of a translation rendered as a binary file asks the
    download route to translate the document again.  When the document has
    more than 50 chunks, which the translate route admits up to 100, the
    download route rejects the link as too large; and when the format is
    not written exactly pdf or docx (the translate route compares it
    without regard to letter case) the link is answered with status 400. *)
Theorem binary_link_of_a_translation (request : Bulk.Request) (w w2 : World)
    (body docTitle tl sl fmt : string) (n : nat) :
  fst (Bulk.POST md5 translate store request w) = Bulk.Complete body docTitle tl sl fmt n ->
  let p := respond body docTitle tl sl fmt n in
  Render.isBinary p = true ->
  Text.urlSafe tl = true -> Text.urlSafe fmt = true ->
  Render.downloadUrl p = Render.BinaryLink docTitle tl fmt
  /\ (fmt = "pdf" \/ fmt = "docx" -> docTitle <> EmptyString -> 50 < n ->
      forall original,
        findMetadataWithChunks store docTitle = Some original ->
        Download.GET md5 translate store (Links.followLink (Render.downloadUrl p)) w2
        = (Download.TooLarge "Document too large for direct download"
             "Use the translation interface to process this document in smaller batches."
             n, w2))
  /\ (fmt <> "pdf" -> fmt <> "docx" ->
      Download.GET md5 translate store (Links.followLink (Render.downloadUrl p)) w2
      = (Download.BadRequest "Missing content or filename", w2)).
Proof.
  intros Hpost. cbv zeta. intros Hbinary _ _.
  pose proof (POST_answer request w) as Hanswer. cbv zeta in Hanswer.
  rewrite Hpost in Hanswer. destruct Hanswer as (Htl & _ & Hn & Hlen).
  assert (Hlink : Render.downloadUrl (respond body docTitle tl sl fmt n)
                  = Render.BinaryLink docTitle tl fmt).
  { revert Hbinary. unfold Render.generateDocumentResponse.
    destruct (Render.renderFile _ _ _ _ _ _ _ _ _ _ _ _ _ _) as [[text|bytes] ct];
      [discriminate | reflexivity]. }
  rewrite Hlink. simpl Links.followLink. repeat split.
  - intros Hfmt Htitle Hbig original Horiginal.
    assert (Hbin : String.eqb fmt "pdf" || String.eqb fmt "docx" = true)
      by (destruct Hfmt as [-> | ->]; reflexivity).
    assert (Hf : fmt <> EmptyString) by (destruct Hfmt as [-> | ->]; discriminate).
    rewrite (GET_binary md5 translate store _ w2 original docTitle tl fmt).
    + simpl. rewrite <- Hn. apply Nat.ltb_lt in Hbig. now rewrite Hbig.
    + simpl. apply truthy_true in Htitle. now rewrite Htitle.
    + simpl. apply truthy_true in Htl. now rewrite Htl.
    + simpl. apply truthy_true in Hf. now rewrite Hf.
    + exact Hbin.
    + exact Horiginal.
    + lia.
  - intros Hpdf Hdocx. apply GET_plain_without_content; [| reflexivity].
    right. eexists. split; [reflexivity | split; assumption].
Qed.

(** The download link of a translation rendered as text carries the file
    content itself.  Following it gives status 400 when that content is
    empty; otherwise the plain download is reached with that content, and
    a content without a percent sign is delivered as it is, when the file
    name and the content type are valid header values. *)
Theorem text_link_of_a_translation (content docTitle tl sl fmt text : string) (n : nat)
    (w2 : World) :
  let p := respond content docTitle tl sl fmt n in
  Render.responseContent p = Some text ->
  Render.downloadUrl p
  = Render.TextLink text (Render.translatedFileName p) (Render.responseContentType p)
  /\ (text = EmptyString ->
      Download.GET md5 translate store (Links.followLink (Render.downloadUrl p)) w2
      = (Download.BadRequest "Missing content or filename", w2))
  /\ (text <> EmptyString ->
      Download.GET md5 translate store (Links.followLink (Render.downloadUrl p)) w2
      = (Download.TextDownload text (Render.translatedFileName p)
           (Some (Render.responseContentType p)), w2)
      /\ (noPercent text = true ->
          Text.headerSafe (Render.translatedFileName p) = true ->
          Text.headerSafe (Render.responseContentType p) = true ->
          exists contentType disposition,
            Plain.plainDownload text (Render.translatedFileName p)
              (Some (Render.responseContentType p))
            = Render.File 200 text contentType disposition (String.length text))).
Proof.
  cbv zeta. intros Htext.
  pose proof (respond_fixed_fields content docTitle tl sl fmt n) as (Hname & _).
  cbv zeta in Hname.
  assert (Hnonempty : JS.truthy (Render.translatedFileName
                                   (respond content docTitle tl sl fmt n)) = true).
  { apply truthy_true. rewrite Hname. intros E.
    apply (f_equal String.length) in E. rewrite !append_length in E. simpl in E. lia. }
  assert (Hlink : Render.downloadUrl (respond content docTitle tl sl fmt n)
                  = Render.TextLink text
                      (Render.translatedFileName (respond content docTitle tl sl fmt n))
                      (Render.responseContentType (respond content docTitle tl sl fmt n))).
  { revert Htext. unfold Render.generateDocumentResponse.
    destruct (Render.renderFile _ _ _ _ _ _ _ _ _ _ _ _ _ _) as [[t|bytes] ct];
      simpl; [intros [= ->]; reflexivity | discriminate]. }
  split; [exact Hlink |]. rewrite Hlink. simpl Links.followLink.
  unfold Download.GET. simpl. split.
  - intros ->. reflexivity.
  - intros Hne. apply truthy_true in Hne. rewrite Hne, Hnonempty. split; [reflexivity |].
    intros Hpercent _ _. unfold Plain.plainDownload.
    rewrite (decodeURIComponent_noPercent text Hpercent).
    eexists _, _. reflexivity.
Qed.

End RenderFacts.

Lemma translated_file_name_witness :
  Render.translatedFileName
    (Fixture.respond Fixture.rendering "Hola." ("notes" +:+ "." +:+ "txt") "es" "en" "pdf" 1)
  = "notes" +:+ "_" +:+ "Spanish" +:+ "." +:+ Fixture.getFileExtension "pdf".
Proof.
  refine (proj1 (proj1 (translated_file_name Fixture.getFileExtension
                          Fixture.getContentType Fixture.rendering Fixture.rendering
                          Fixture.jsonStringify "2024-01-01T00:00:00.000Z"
                          "1/1/2024, 12:00:00 AM" Fixture.inheritedToString
                          "notes" "txt" "es" "en" "pdf" "Hola." 1 _) "Spanish" _)).
  - reflexivity.
  - reflexivity.
Defined.

Lemma failing_renderer_degrades_or_fails_witness :
  Render.responseContent
    (Fixture.respond Fixture.failing "Hola." "notes.txt" "es" "en" "pdf" 1)
  = Some "Hola.".
Proof.
  refine (proj1 (proj2 (proj1 (failing_renderer_degrades_or_fails
                                 Fixture.getFileExtension Fixture.getContentType
                                 Fixture.failing Fixture.failing Fixture.jsonStringify
                                 "2024-01-01T00:00:00.000Z" "1/1/2024, 12:00:00 AM"
                                 Fixture.inheritedToString
                                 "Hola." "notes.txt" "es" "en" "pdf" 1 _ _) _))).
  - intros meta. eexists. reflexivity.
  - intros meta. eexists. reflexivity.
  - right. reflexivity.
Defined.

Lemma unknown_format_is_plain_text_witness :
  Render.responseContent
    (Fixture.respond Fixture.rendering "Hola." "notes.txt" "es" "en" "rtf" 1)
  = Some "Hola.".
Proof.
  refine (proj1 (proj2 (unknown_format_is_plain_text
                          Fixture.getFileExtension Fixture.getContentType
                          Fixture.rendering Fixture.rendering Fixture.jsonStringify
                          "2024-01-01T00:00:00.000Z" "1/1/2024, 12:00:00 AM"
                          Fixture.inheritedToString
                          "Hola." "notes.txt" "es" "en" "rtf" 1 _ _ _ _ _)));
    discriminate.
Defined.


Lemma binary_link_of_a_translation_witness :
  Download.GET Sample.digest Sample.spanish (Sample.storeOf (Sample.manyChunks 51))
    (Links.followLink
       (Render.downloadUrl
          (Fixture.respond Fixture.rendering
             (JS.join blankLine (replicate 51 "Hola.")) "notes.txt" "es" "en" "pdf" 51)))
    Sample.fresh
  = (Download.TooLarge "Document too large for direct download"
       "Use the translation interface to process this document in smaller batches."
       51, Sample.fresh).
Proof.
  refine (proj1 (proj2 (binary_link_of_a_translation
                          Fixture.getFileExtension Fixture.getContentType
                          Fixture.rendering Fixture.rendering Fixture.jsonStringify
                          "2024-01-01T00:00:00.000Z" "1/1/2024, 12:00:00 AM"
                          Fixture.inheritedToString Sample.digest Sample.spanish
                          (Sample.storeOf (Sample.manyChunks 51)) Fixture.pdfRequest
                          Sample.fresh Sample.fresh
                          (JS.join blankLine (replicate 51 "Hola.")) "notes.txt" "es" "en"
                          "pdf" 51 _ _ _ _))
            _ _ _ (mkMetadata "notes.txt" "en") _).
  - vm_compute. reflexivity.
  - reflexivity.
  - reflexivity.
  - reflexivity.
  - left. reflexivity.
  - discriminate.
  - lia.
  - reflexivity.
Defined.

Lemma text_link_of_a_translation_witness :
  Download.GET Sample.digest Sample.spanish (Sample.storeOf Sample.notes)
    (Links.followLink
       (Render.downloadUrl
          (Fixture.respond Fixture.rendering "Hola." "notes.txt" "es" "en" "txt" 1)))
    Sample.fresh
  = (Download.TextDownload "Hola."
       (Render.translatedFileName
          (Fixture.respond Fixture.rendering "Hola." "notes.txt" "es" "en" "txt" 1))
       (Some (Render.responseContentType
                (Fixture.respond Fixture.rendering "Hola." "notes.txt" "es" "en" "txt" 1))),
     Sample.fresh).
Proof.
  refine (proj1 (proj2 (proj2 (text_link_of_a_translation
                                 Fixture.getFileExtension Fixture.getContentType
                                 Fixture.rendering Fixture.rendering Fixture.jsonStringify
                                 "2024-01-01T00:00:00.000Z" "1/1/2024, 12:00:00 AM"
                                 Fixture.inheritedToString Sample.digest Sample.spanish
                                 (Sample.storeOf Sample.notes)
                                 "Hola." "notes.txt" "es" "en" "txt" "Hola." 1
                                 Sample.fresh _)) _)).
  - reflexivity.
  - discriminate.
Defined.
